(** * Location suggestion engine of usgs/search_api: model and properties

    The development embeds two programs of the repository:

    - [Geocoder]: the control of [dist/geocoder.js] ([gc.create],
      [control.setOptions], [control._updateMenu], [gc._locate],
      [gc._locate.parseInput], [gc._locate.getFeature]);
    - [SearchApi]: the older widget [search_api.js]
      ([o._getSearchTermStates] and the [keyup] handler of
      [search_api._setup]).

    Conventions of the embedding.
    - Text is a [string] whose characters are read as code units below 256.
    - A JavaScript number is a [num]: [None] is [NaN], [Some q] is the
      rational [q].  Arithmetic is exact: the rounding error of doubles and
      the overflow to [Infinity] are not part of the model.  The properties
      that depend on the value of a number are therefore stated for numbers
      of a bounded magnitude, and with a margin that the rounding error of
      doubles stays within.
    - A JavaScript object used as a dictionary is a [gmap]. *)

From Stdlib Require Import ZArith QArith Qabs Qround String Ascii List Bool Lia Lqa.
From Stdlib Require Import DecimalString.
From stdpp Require Import gmap strings list.

Close Scope Q_scope.
Local Open Scope string_scope.

(** ** JavaScript primitives used by both programs *)
Module JS.

Definition num : Type := option Q.

Definition chars (s : string) : list ascii := list_ascii_of_string s.
Definition str (l : list ascii) : string := string_of_list_ascii l.

Definition code (c : ascii) : N := N_of_ascii c.

Definition in_range (lo hi : N) (c : ascii) : bool :=
  ((lo <=? code c) && (code c <=? hi))%N.

Definition is_digit : ascii -> bool := in_range 48 57.
Definition is_upper : ascii -> bool := in_range 65 90.
Definition is_lower : ascii -> bool := in_range 97 122.

(** The class [\s] of a regular expression, which is also what
    [String.prototype.trim] strips, among the code units below 256. *)
Definition is_space (c : ascii) : bool :=
  in_range 9 13 c || (code c =? 32)%N || (code c =? 160)%N.

(** [String.prototype.toUpperCase], one code unit at a time.  The sharp s
    (223) becomes two letters.  The other letters above 127 have an upper
    case form that is again above 127; they are kept as they are, which no
    caller can tell apart: both programs blank or delete every code unit
    above 127 right after upper-casing. *)
Definition upper_char (c : ascii) : list ascii :=
  if is_lower c then [ascii_of_N (code c - 32)]
  else if (code c =? 223)%N then ["S"%char; "S"%char]
  else [c].

Definition lower_char (c : ascii) : ascii :=
  if is_upper c then ascii_of_N (code c + 32) else c.

Definition toUpperCase (s : string) : string :=
  str (flat_map upper_char (chars s)).

Definition toLowerCase (s : string) : string :=
  str (map lower_char (chars s)).

Fixpoint trim_start (l : list ascii) : list ascii :=
  match l with
  | c :: r => if is_space c then trim_start r else l
  | [] => []
  end.

Definition trim_end (l : list ascii) : list ascii :=
  rev (trim_start (rev l)).

Definition trim_chars (l : list ascii) : list ascii :=
  trim_end (trim_start l).

Definition trim (s : string) : string := str (trim_chars (chars s)).

(** [s.replace(/X+/g, sep)] for a character class [X]: every maximal run of
    characters of the class becomes one [sep].  [in_run] tells whether the
    previous character was in the class. *)
Fixpoint replace_runs (class : ascii -> bool) (sep : ascii) (in_run : bool)
         (l : list ascii) : list ascii :=
  match l with
  | [] => []
  | c :: r =>
      if class c
      then (if in_run then replace_runs class sep true r
            else sep :: replace_runs class sep true r)
      else c :: replace_runs class sep false r
  end.

(** [s.split(sep)] for a separator matching one character. *)
Fixpoint split_chars (is_sep : ascii -> bool) (l : list ascii)
  : list (list ascii) :=
  match l with
  | [] => [[]]
  | c :: r =>
      if is_sep c then [] :: split_chars is_sep r
      else match split_chars is_sep r with
           | h :: t => (c :: h) :: t
           | [] => [[c]]
           end
  end.

Definition is_char (a : ascii) (c : ascii) : bool := Ascii.eqb a c.

Definition split (sep : ascii) (s : string) : list string :=
  map str (split_chars (is_char sep) (chars s)).

Fixpoint join (sep : string) (l : list string) : string :=
  match l with
  | [] => ""
  | [x] => x
  | x :: r => x ++ sep ++ join sep r
  end.

(** [Array.prototype.includes] on an array of strings. *)
Definition includes (l : list string) (x : string) : bool :=
  existsb (String.eqb x) l.

Fixpoint starts_with (p l : list ascii) : bool :=
  match p, l with
  | [], _ => true
  | a :: p', b :: l' => Ascii.eqb a b && starts_with p' l'
  | _ :: _, [] => false
  end.

(** [String.prototype.includes]. *)
Fixpoint contains_chars (p l : list ascii) : bool :=
  starts_with p l ||
  match l with
  | [] => false
  | _ :: r => contains_chars p r
  end.

Definition str_includes (s sub : string) : bool :=
  contains_chars (chars sub) (chars s).

(** [s.replace(pat, rep)] for a string pattern: the first occurrence. *)
Fixpoint replace_first (p rep l : list ascii) : list ascii :=
  if starts_with p l then rep ++ skipn (List.length p) l
  else match l with
       | [] => []
       | c :: r => c :: replace_first p rep r
       end.

(** [s.slice(0, n)] and [s.substr(0, n)] for [0 <= n]. *)
Definition prefix_of (n : nat) (s : string) : string :=
  str (firstn n (chars s)).

(** *** Numeric literals *)

Definition digit_val (c : ascii) : Z := Z.of_N (code c) - 48.

Fixpoint span_digits (l : list ascii) : list ascii * list ascii :=
  match l with
  | c :: r =>
      if is_digit c
      then let (ds, rest) := span_digits r in (c :: ds, rest)
      else ([], l)
  | [] => ([], [])
  end.

Definition digits_val (ds : list ascii) : Z :=
  fold_left (fun a c => 10 * a + digit_val c)%Z ds 0%Z.

Definition pow10 (e : Z) : Q :=
  if (0 <=? e)%Z then inject_Z (10 ^ e)
  else Qmake 1 (Z.to_pos (10 ^ (- e))).

(** [ExponentPart]: value and remaining text; without a well formed
    exponent nothing is consumed. *)
Definition scan_exponent (l : list ascii) : Z * list ascii :=
  match l with
  | e :: r =>
      if is_char "e" e || is_char "E" e then
        let '(neg, r1) :=
          match r with
          | s :: r' =>
              if is_char "-" s then (true, r')
              else if is_char "+" s then (false, r')
              else (false, r)
          | [] => (false, r)
          end in
        let (ds, r2) := span_digits r1 in
        match ds with
        | [] => (0%Z, l)
        | _ => ((if neg then - digits_val ds else digits_val ds)%Z, r2)
        end
      else (0%Z, l)
  | [] => (0%Z, l)
  end.

(** The longest prefix that is a [StrUnsignedDecimalLiteral] other than
    [Infinity], with its value and the remaining text. *)
Definition scan_decimal (l : list ascii) : option (Q * list ascii) :=
  let (ip, r1) := span_digits l in
  let '(dot, fp, r2) :=
    match r1 with
    | d :: r' =>
        if is_char "." d
        then let (fp, r'') := span_digits r' in (true, fp, r'')
        else (false, [], r1)
    | [] => (false, [], r1)
    end in
  match ip, fp with
  | [], [] => None
  | _, _ =>
      let mant :=
        Qmake (digits_val ip * 10 ^ Z.of_nat (List.length fp)
               + digits_val fp)
              (Z.to_pos (10 ^ Z.of_nat (List.length fp))) in
      let (e, r3) := scan_exponent r2 in
      Some (Qmult mant (pow10 e), r3)
  end.

Definition scan_sign (l : list ascii) : bool * list ascii :=
  match l with
  | s :: r =>
      if is_char "-" s then (true, r)
      else if is_char "+" s then (false, r)
      else (false, l)
  | [] => (false, l)
  end.

Definition signed (neg : bool) (q : Q) : Q := if neg then Qopp q else q.

Definition radix_digit (radix : Z) (c : ascii) : option Z :=
  let v :=
    if is_digit c then digit_val c
    else if in_range 65 70 c then (Z.of_N (code c) - 55)%Z
    else if in_range 97 102 c then (Z.of_N (code c) - 87)%Z
    else 99%Z in
  if (v <? radix)%Z then Some v else None.

Fixpoint radix_val (radix : Z) (acc : Z) (l : list ascii) : option Z :=
  match l with
  | [] => Some acc
  | c :: r =>
      match radix_digit radix c with
      | Some v => radix_val radix (radix * acc + v)%Z r
      | None => None
      end
  end.

(** [NonDecimalIntegerLiteral]: [0x], [0o] and [0b] forms. *)
Definition scan_radix (l : list ascii) : option Z :=
  match l with
  | z :: x :: (d :: _) as ds =>
      if is_char "0" z then
        if is_char "x" x || is_char "X" x then radix_val 16 0 ds
        else if is_char "o" x || is_char "O" x then radix_val 8 0 ds
        else if is_char "b" x || is_char "B" x then radix_val 2 0 ds
        else None
      else None
  | _ => None
  end.

(** [Number(s)] on a string.  The literal [Infinity] is not modelled: the
    callers pass tokens of an upper-cased term, which never spell it.  A
    decimal literal stands for its exact value, also where a double
    overflows. *)
Definition Number (s : string) : num :=
  match trim_chars (chars s) with
  | [] => Some (inject_Z 0)
  | l =>
      match scan_radix l with
      | Some z => Some (inject_Z z)
      | None =>
          let (neg, r) := scan_sign l in
          match scan_decimal r with
          | Some (q, []) => Some (signed neg q)
          | _ => None
          end
      end
  end.

(** [parseFloat(s)] on a string (again without [Infinity]). *)
Definition parseFloat (s : string) : num :=
  let (neg, r) := scan_sign (trim_start (chars s)) in
  match scan_decimal r with
  | Some (q, _) => Some (signed neg q)
  | None => None
  end.

(** *** Arithmetic on numbers *)

Definition lift1 (f : Q -> Q) (a : num) : num :=
  match a with Some x => Some (f x) | None => None end.

Definition lift2 (f : Q -> Q -> Q) (a b : num) : num :=
  match a, b with Some x, Some y => Some (f x y) | _, _ => None end.

Definition add : num -> num -> num := lift2 Qplus.
Definition sub : num -> num -> num := lift2 Qminus.
Definition mul : num -> num -> num := lift2 Qmult.
Definition div_by (d : Z) (a : num) : num :=
  lift1 (fun x => Qdiv x (inject_Z d)) a.
Definition neg : num -> num := lift1 Qopp.
Definition abs : num -> num := lift1 Qabs.
Definition of_Z (z : Z) : num := Some (inject_Z z).

Definition sign_of (q : Q) : Q :=
  match Qcompare q (inject_Z 0) with
  | Lt => inject_Z (-1)
  | Eq => inject_Z 0
  | Gt => inject_Z 1
  end.

(** [Math.sign]. *)
Definition sign : num -> num := lift1 sign_of.

Definition isNaN (a : num) : bool :=
  match a with None => true | Some _ => false end.

(** [a <= b] and [a >= b], false as soon as one side is [NaN]. *)
Definition le (a b : num) : bool :=
  match a, b with Some x, Some y => Qle_bool x y | _, _ => false end.
Definition ge (a b : num) : bool := le b a.
Definition lt (a b : num) : bool :=
  match a, b with
  | Some x, Some y => negb (Qle_bool y x)
  | _, _ => false
  end.
Definition gt (a b : num) : bool := lt b a.

(** The integer nearest to [q], ties away from zero: the digits that
    [q.toFixed(f)] prints are those of [round_away (q * 10^f)]. *)
Definition round_away (q : Q) : Z :=
  if Qle_bool (inject_Z 0) q
  then Qfloor (Qplus q (Qmake 1 2))
  else (- Qfloor (Qplus (Qopp q) (Qmake 1 2)))%Z.

(** [Number(x.toFixed(f))]. *)
Definition toFixed (f : nat) (x : Q) : Q :=
  Qmake (round_away (Qmult x (inject_Z (10 ^ Z.of_nat f))))
        (Z.to_pos (10 ^ Z.of_nat f)).

(** [Math.round]: ties towards plus infinity. *)
Definition round (x : Q) : Q := inject_Z (Qfloor (Qplus x (Qmake 1 2))).

(** *** Printing *)

Definition show_Z (z : Z) : string := NilZero.string_of_int (Z.to_int z).

Fixpoint strip_zeros (l : list ascii) : list ascii :=
  match l with
  | c :: r => if is_char "0" c then strip_zeros r else l
  | [] => []
  end.

(** [String(x)] for [x] a multiple of [10^-f] of magnitude below [10^21]
    (where JavaScript still prints positional notation). *)
Definition show_fixed (f : nat) (x : Q) : string :=
  let scale := (10 ^ Z.of_nat f)%Z in
  let n := round_away (Qmult x (inject_Z scale)) in
  let m := Z.abs n in
  let frac :=
    rev (strip_zeros (rev (skipn 1 (chars (show_Z (scale + m mod scale)))))) in
  (if (n <? 0)%Z then "-" else "")
  ++ show_Z (m / scale)
  ++ match frac with [] => "" | _ => "." ++ str frac end.

End JS.

(** ** The geocoder control (dist/geocoder.js) *)
Module Geocoder.

(** *** gc._config *)
Definition debounceMs : Z := 250.
Definition minScore : Q := inject_Z 80.
Definition nCoordDecimals : nat := 6.
Definition timeoutMs : Z := 7000.

(** *** Option values

    An option holds a JavaScript value.  Where the engine converts the
    value it reads ([||], a comparison with a number, a template literal),
    the conversion is part of the model.  Where it calls a method of the
    documented type ([toUpperCase], [toLowerCase], [flat]) and a value of
    another type makes the call throw, the value is outside the model and
    is read as if the option were undefined. *)
#[local] Unset Elimination Schemes.
Inductive value : Type :=
| VUndefined
| VNull
| VBool (b : bool)
| VNum (q : Q)
| VStr (s : string)
| VFun (id : nat)
| VArr (items : list value)
| VObj (fields : list (string * value)).
#[local] Set Elimination Schemes.

(** [typeof v === 'object'] *)
Definition is_object (v : value) : bool :=
  match v with
  | VNull | VArr _ | VObj _ => true
  | _ => false
  end.

Definition is_function (v : value) : bool :=
  match v with VFun _ => true | _ => false end.

Definition truthy (v : value) : bool :=
  match v with
  | VUndefined | VNull | VBool false => false
  | VNum q => negb (Qeq_bool q (inject_Z 0))
  | VStr s => negb (String.eqb s "")
  | _ => true
  end.

Definition defaultOptions : gmap string value :=
  list_to_map
    [ ("bounds", VUndefined);
      ("states", VUndefined);
      ("include", VStr "gnis postal state");
      ("controlClassName", VStr "");
      ("className", VStr "");
      ("maxSuggestions", VNum (inject_Z 50));
      ("menuClassName", VStr "");
      ("menuHeight", VStr "40rem");
      ("minCharacters", VNum (inject_Z 2));
      ("placeholder", VStr "Find a place");
      ("size", VStr "md");
      ("title", VStr "");
      ("width", VUndefined);
      ("onSelect", VUndefined);
      ("onSuggest", VUndefined) ].

(** [Object.keys(defaultOptions).includes(name)] *)
Definition recognized (name : string) : bool :=
  bool_decide (is_Some (defaultOptions !! name)).

(** *** Features *)

(** The properties of a suggestion once [getFeature] has set them.
    [GnisId] is a number or [null]; [None] stands for [null] there. *)
Record properties : Type := {
  County : string;
  GnisId : option Q;
  Label : string;
  Latitude : JS.num;
  LatitudeMax : JS.num;
  LatitudeMin : JS.num;
  Longitude : JS.num;
  LongitudeMax : JS.num;
  LongitudeMin : JS.num;
  Name : string;
  Score : JS.num;
  Source : string;
  State : string;
  Type_ : string;
  Bounds : (JS.num * JS.num) * (JS.num * JS.num)
}.

(** A GeoJSON point feature; [coordinates] is [[Longitude, Latitude]]. *)
Record feature : Type := {
  coordinates : JS.num * JS.num;
  feature_properties : properties
}.

(** A record as a service delivers it: text fields are strings or absent,
    numeric fields are numbers or absent ([None]). *)
Record record : Type := {
  p_County : option string;
  p_GnisId : JS.num;
  p_Label : option string;
  p_Latitude : JS.num;
  p_LatitudeMax : JS.num;
  p_LatitudeMin : JS.num;
  p_Longitude : JS.num;
  p_LongitudeMax : JS.num;
  p_LongitudeMin : JS.num;
  p_Name : option string;
  p_Score : JS.num;
  p_Source : option string;
  p_State : option string;
  p_Type : option string
}.

(** *** The control object *)

(** The part of the document the engine reads and writes. *)
Record element : Type := {
  input_value : string;      (* _element.input.value *)
  input_disabled : bool;     (* _element.input.disabled *)
  hidden : bool;             (* class gc-hidden *)
  busy : bool;               (* class gc-busy *)
  valid : bool;              (* class gc-valid *)
  invalid : bool;            (* class gc-invalid *)
  menu_open : bool           (* class gc-open of the menu *)
}.

Inductive callback : Type := onSelect | onSuggest.

Record control : Type := {
  options : option (gmap string value);
  _cache : gmap string (list feature);
  _suggestions : list feature;           (* _suggestions.features *)
  _selected : option feature;
  _element : element;
  contentLength : option nat;            (* _updateMenu.contentLength *)
  (** Every [AbortController] made for requests, oldest first, with its
      [signal.aborted]; [_fetchAbortController] is the last one. *)
  controllers : list bool;
  (** The option callbacks the control has run, newest first. *)
  calls : list callback
}.

Definition set_options (o : option (gmap string value)) (c : control) :=
  {| options := o; _cache := _cache c; _suggestions := _suggestions c;
     _selected := _selected c; _element := _element c;
     contentLength := contentLength c; controllers := controllers c;
     calls := calls c |}.

Definition set_cache (m : gmap string (list feature)) (c : control) :=
  {| options := options c; _cache := m; _suggestions := _suggestions c;
     _selected := _selected c; _element := _element c;
     contentLength := contentLength c; controllers := controllers c;
     calls := calls c |}.

Definition set_suggestions (l : list feature) (c : control) :=
  {| options := options c; _cache := _cache c; _suggestions := l;
     _selected := _selected c; _element := _element c;
     contentLength := contentLength c; controllers := controllers c;
     calls := calls c |}.

Definition set_selected (f : option feature) (c : control) :=
  {| options := options c; _cache := _cache c;
     _suggestions := _suggestions c; _selected := f;
     _element := _element c; contentLength := contentLength c;
     controllers := controllers c; calls := calls c |}.

Definition set_element (e : element) (c : control) :=
  {| options := options c; _cache := _cache c;
     _suggestions := _suggestions c; _selected := _selected c;
     _element := e; contentLength := contentLength c;
     controllers := controllers c; calls := calls c |}.

Definition set_contentLength (n : option nat) (c : control) :=
  {| options := options c; _cache := _cache c;
     _suggestions := _suggestions c; _selected := _selected c;
     _element := _element c; contentLength := n;
     controllers := controllers c; calls := calls c |}.

Definition set_controllers (l : list bool) (c : control) :=
  {| options := options c; _cache := _cache c;
     _suggestions := _suggestions c; _selected := _selected c;
     _element := _element c; contentLength := contentLength c;
     controllers := l; calls := calls c |}.

Definition set_calls (l : list callback) (c : control) :=
  {| options := options c; _cache := _cache c;
     _suggestions := _suggestions c; _selected := _selected c;
     _element := _element c; contentLength := contentLength c;
     controllers := controllers c; calls := l |}.

Definition set_input_value (s : string) (e : element) :=
  {| input_value := s; input_disabled := input_disabled e;
     hidden := hidden e; busy := busy e; valid := valid e;
     invalid := invalid e; menu_open := menu_open e |}.

Definition set_busy (b : bool) (e : element) :=
  {| input_value := input_value e; input_disabled := input_disabled e;
     hidden := hidden e; busy := b; valid := valid e;
     invalid := invalid e; menu_open := menu_open e |}.

(** The classes [gc-valid] and [gc-invalid] are removed and [v] tells which
    of them is added again, if any; [open] is the class [gc-open]. *)
Definition set_menu (v : option bool) (open : bool) (e : element) :=
  {| input_value := input_value e; input_disabled := input_disabled e;
     hidden := hidden e; busy := busy e;
     valid := bool_decide (v = Some true);
     invalid := bool_decide (v = Some false);
     menu_open := open |}.

(** [control.options[name]] *)
Definition option_value (c : control) (name : string) : value :=
  match options c with
  | Some o => default VUndefined (o !! name)
  | None => VUndefined
  end.

Definition option_string (c : control) (name : string) : option string :=
  match option_value c name with VStr s => Some s | _ => None end.

(** The number a value is converted to where the engine compares it with
    a number ([ToNumber]).  An array is converted through its text: that
    of its only element, if it has one. *)
Fixpoint to_number (v : value) : JS.num :=
  match v with
  | VUndefined => None
  | VNull => JS.of_Z 0
  | VBool b => JS.of_Z (if b then 1 else 0)
  | VNum q => Some q
  | VStr s => JS.Number s
  | VFun _ | VObj _ => None
  | VArr [] => JS.of_Z 0
  | VArr [x] =>
      match x with
      | VUndefined | VNull => JS.of_Z 0
      | VBool _ => None
      | _ => to_number x
      end
  | VArr _ => None
  end.

Definition option_number (c : control) (name : string) : JS.num :=
  to_number (option_value c name).

(** [control.getSelected], [control.getSuggestions], [control.visible()],
    [control.enable()] and [control.value()] *)
Definition getSelected (c : control) : option feature := _selected c.
Definition getSuggestions (c : control) : list feature := _suggestions c.
Definition visible (c : control) : bool := negb (hidden (_element c)).
Definition enable (c : control) : bool :=
  negb (input_disabled (_element c)).
Definition get_value (c : control) : string := input_value (_element c).

(** [control.trigger(name)] for one callback name: the callback runs when
    the option holds a function.  Callbacks are observers: they do not
    change the control. *)
Definition trigger (cb : callback) (c : control) : control :=
  let name := match cb with onSelect => "onSelect"
                          | onSuggest => "onSuggest" end in
  if is_function (option_value c name)
  then set_calls (cb :: calls c) c
  else c.

(** *** control.setOptions *)

(** The shapes of a call: no argument, one argument, or a name and a
    value (further arguments are ignored). *)
Inductive arguments : Type :=
| no_argument
| one_argument (v : value)
| name_value (name : string) (v : value).

Definition merge (target : gmap string value)
           (fields : list (string * value)) : gmap string value :=
  fold_left (fun m kv => <[kv.1 := kv.2]> m) fields target.

(** The text an option value brings to a template literal, as far as the
    classes of the document are concerned.  A number is spelled without
    white space and with a digit or a capital letter, which no class that
    the engine reads holds: its spelling is written ["0"] here.  The text
    of an array is that of its elements, joined by commas.  The text of a
    function, its source, is outside the model and left out. *)
Fixpoint class_text (v : value) : string :=
  match v with
  | VStr s => s
  | VUndefined => "undefined"
  | VNull => "null"
  | VBool true => "true"
  | VBool false => "false"
  | VNum _ => "0"
  | VObj _ => "[object Object]"
  | VFun _ => ""
  | VArr l =>
      JS.join ","
        (map (fun x => match x with
                       | VUndefined | VNull => ""
                       | _ => class_text x
                       end) l)
  end.

(** The white space that separates the tokens of a [class] attribute. *)
Definition class_space (c : ascii) : bool :=
  existsb (N.eqb (JS.code c)) [9; 10; 12; 13; 32]%N.

(** [classList.contains(cls)] on an element whose [className] is [names]. *)
Definition has_class (cls names : string) : bool :=
  JS.includes (map JS.str (JS.split_chars class_space (JS.chars names))) cls.

(** [`${first} gc-${size} ${className} ${own}`], the [className] that
    [setOptions] assigns to the control ([first] is [gc-control], [own] is
    the option [controlClassName]) and to the menu ([gc-menu],
    [menuClassName]). *)
Definition class_names (first : string) (o : gmap string value)
           (own : string) : string :=
  let opt name := class_text (default VUndefined (o !! name)) in
  first ++ " gc-" ++ opt "size" ++ " " ++ opt "className" ++ " " ++ opt own.

(** The document once [setOptions] has assigned the two class names: the
    classes that the engine had added to the control ([gc-hidden],
    [gc-busy], [gc-valid], [gc-invalid]) and to the menu ([gc-open]) are
    there only if the options name them.  The text box keeps its value and
    its [disabled] property.  (The class [gc-disabled], the width, the
    placeholder and the title are not read by the engine and are left
    out; the content of the menu stays.) *)
Definition restyle (o : gmap string value) (e : element) : element :=
  let control_names := class_names "gc-control" o "controlClassName" in
  let menu_names := class_names "gc-menu" o "menuClassName" in
  {| input_value := input_value e; input_disabled := input_disabled e;
     hidden := has_class "gc-hidden" control_names;
     busy := has_class "gc-busy" control_names;
     valid := has_class "gc-valid" control_names;
     invalid := has_class "gc-invalid" control_names;
     menu_open := has_class "gc-open" menu_names |}.

(** [None] is a thrown [TypeError] ([Object.keys(null)]); nothing has
    been assigned when it is thrown. *)
Definition setOptions (args : arguments) (c : control) : option control :=
  let newOptions :=
    match args with
    | no_argument => VUndefined
    | one_argument v => v
    | name_value name v => VObj [(name, v)]
    end in
  if negb (is_object newOptions) then Some c
  else
    match newOptions with
    | VNull => None
    | _ =>
        let fields :=
          match newOptions with
          | VObj fields => filter (fun kv => recognized kv.1) fields
          | _ => []   (* an array: every index is an unrecognized name *)
          end in
        let target := default defaultOptions (options c) in
        let o := merge target fields in
        Some (set_selected None
                (set_suggestions []
                   (set_cache ∅
                      (set_element (restyle o (_element c))
                         (set_options (Some o) c)))))
    end.


(** *** gc._locate.parseInput *)

Record input : Type := {
  term : string;
  states : option string;       (* upper-case csv, [None] is undefined *)
  latlon : option (Q * Q);      (* [decLat, decLon], [None] is undefined *)
  cacheKey : string
}.

(** The characters kept by [/[^A-Z0-9\*\-\.]/g]. *)
Definition kept (c : ascii) : bool :=
  JS.is_upper c || JS.is_digit c || JS.is_char "*" c || JS.is_char "-" c
  || JS.is_char "." c.

Definition blank_others (l : list ascii) : list ascii :=
  map (fun c => if kept c then c else " "%char) l.

(** [.replace(/^ST /u, 'SAINT ')] *)
Definition saint (l : list ascii) : list ascii :=
  if JS.starts_with (JS.chars "ST ") l
  then JS.chars "SAINT " ++ skipn 3 l
  else l.

(** The search term of an input text: the chain of [toUpperCase], three
    [replace] calls and [trim], in the order of the source. *)
Definition parse_term (text : string) : string :=
  JS.str
    (JS.trim_chars
       (saint
          (JS.replace_runs JS.is_space " " false
             (blank_others (JS.chars (JS.toUpperCase text)))))).

Definition lower48 : string :=
  "AL AZ AR CA CO CT DE FL GA ID IL IN IA KS KY LA ME MD MA MI MN MS MO MT NE NV NH NJ NM NY NC ND OH OK OR PA RI SC SD TN TX UT VT VA WA WV WI WY".

(** The state list of the [states] option, from
    [(control.options.states || 'ALL')]: [None] is a value that is no
    string.  The shortcuts are expanded and white space is turned into
    commas. *)
Definition state_list (opt_states : option string) : string :=
  let s0 :=
    JS.toUpperCase
      (match opt_states with
       | Some s => if String.eqb s "" then "ALL" else s
       | None => "ALL"
       end) in
  let s1 := if String.eqb s0 "48" then lower48 ++ " DC" else s0 in
  let s2 := if String.eqb s1 "50" then lower48 ++ " AK HI DC" else s1 in
  let s3 :=
    if String.eqb s2 "USGS" then lower48 ++ " AK HI DC GU PR VI" else s2 in
  let s4 :=
    if String.eqb s3 "ALL"
    then lower48 ++ " AK HI DC GU PR VI AS FM MH MP PW UM" else s3 in
  JS.str (JS.replace_runs JS.is_space "," false (JS.chars s4)).

Definition NS (s : string) : JS.num :=
  if String.eqb s "N" then JS.of_Z 1
  else if String.eqb s "S" then JS.of_Z (-1)
  else None.

Definition EW (s : string) : JS.num :=
  if String.eqb s "E" then JS.of_Z 1
  else if String.eqb s "W" then JS.of_Z (-1)
  else None.

(** [Math.sign(d) * (Number(d) + Number(m) / 60 + Number(s) / 3600)] *)
Definition dms2dec (d m s : string) : JS.num :=
  JS.mul (JS.sign (JS.Number d))
    (JS.add (JS.add (JS.Number d) (JS.div_by 60 (JS.Number m)))
       (JS.div_by 3600 (JS.Number s))).

Definition roundCoord (x : Q) : Q := JS.toFixed nCoordDecimals x.

(** The pair assigned to [input.latlon] from the parts of the term, by
    their number; it starts as [[NaN, NaN]]. *)
Definition latlon_of_parts (parts : list string) : JS.num * JS.num :=
  match parts with
  | [p0; p1; p2; p3; p4; p5; p6; p7] =>
      (JS.mul (NS p3) (dms2dec p0 p1 p2),
       JS.mul (EW p7) (dms2dec p4 p5 p6))
  | [p0; p1; p2; p3; p4; p5] =>
      (dms2dec p0 p1 p2, JS.neg (JS.abs (dms2dec p3 p4 p5)))
  | [p0; p1; p2; p3] =>
      (JS.mul (NS p1) (JS.Number p0), JS.mul (EW p3) (JS.Number p2))
  | [p0; p1] =>
      (JS.Number p0, JS.neg (JS.abs (JS.Number p1)))
  | _ => (None, None)
  end.

(** The coordinate of the parts: undefined when a number of the pair is
    [NaN], rounded otherwise. *)
Definition parse_latlon (parts : list string) : option (Q * Q) :=
  match latlon_of_parts parts with
  | (Some lat, Some lon) => Some (roundCoord lat, roundCoord lon)
  | _ => None
  end.

Definition show_undefined (s : option string) : string :=
  match s with Some x => x | None => "undefined" end.

(** [control.options.states === undefined], the test that resets the
    states of the input.  A value that is [null], [false] or [0] is not
    undefined: the list that [(control.options.states || 'ALL')] gave
    stays.  On a truthy value that is no string [toUpperCase] is no
    function and [parseInput] throws; such a value is outside the model
    and read as undefined. *)
Definition states_undefined (c : control) : bool :=
  match option_value c "states" with
  | VUndefined => true
  | VStr _ => false
  | v => truthy v
  end.

Definition parseInput (c : control) : input :=
  let term0 := parse_term (get_value c) in
  let parts := JS.split " " term0 in
  let states0 := state_list (option_string c "states") in
  let lastPart := List.last parts "" in
  let '(term1, states1) :=
    if (1 <? List.length parts)%nat
       && JS.includes (JS.split "," states0) lastPart
    then (JS.join " " (removelast parts), Some lastPart)
    else if states_undefined c then (term0, None)
    else (term0, Some states0) in
  {| term := term1;
     states := states1;
     latlon := parse_latlon parts;
     cacheKey := term1 ++ "|" ++ show_undefined states1 |}.

(** *** gc._locate.getFeature *)

(** One round of the loop over the property descriptors, for a property of
    type ['string']: the flag tells whether the property passed. *)
Definition string_property (dflt : option string)
           (validate : option (string -> bool))
           (format : option (string -> string))
           (raw : option string) : bool * string :=
  let value0 := JS.trim (default "" raw) in
  let '(present, value1) :=
    if String.eqb value0 ""
    then match dflt with
         | Some d => (true, d)
         | None => (false, value0)
         end
    else (true, value0) in
  let valid := match validate with Some v => v value1 | None => true end in
  (present && valid,
   match format with Some f => f value1 | None => value1 end).

(** The same round for a property of type ['number']. *)
Definition number_property (dflt : option JS.num)
           (validate : option (JS.num -> bool))
           (format : option (Q -> Q))
           (raw : JS.num) : bool * JS.num :=
  let '(present, value1) :=
    if JS.isNaN raw
    then match dflt with
         | Some d => (true, d)
         | None => (false, raw)
         end
    else (true, raw) in
  let valid := match validate with Some v => v value1 | None => true end in
  (present && valid,
   match format with Some f => JS.lift1 f value1 | None => value1 end).

(** [(control.options.bounds || [-90, -180, 90, 180]).flat()], read as
    [latMin, lonMin, latMax, lonMax]: the numbers that the comparisons of
    the validator convert the four values to. *)
Definition flat (l : list value) : list value :=
  flat_map (fun v => match v with VArr l' => l' | _ => [v] end) l.

Definition bounds (c : control) : JS.num * JS.num * JS.num * JS.num :=
  let l :=
    match option_value c "bounds" with
    | VArr l => flat l
    | _ => [VNum (inject_Z (-90)); VNum (inject_Z (-180));
            VNum (inject_Z 90); VNum (inject_Z 180)]
    end in
  (to_number (nth 0 l VUndefined), to_number (nth 1 l VUndefined),
   to_number (nth 2 l VUndefined), to_number (nth 3 l VUndefined)).

Definition nonempty (s : option string) : list string :=
  match s with
  | Some x => if String.eqb x "" then [] else [x]
  | None => []
  end.

Definition dBounds : Q := Qmake 1 (Z.to_pos (10 ^ Z.of_nat nCoordDecimals)).

(** [!input.states || input.states.split(',').includes(s)] *)
Definition state_allowed (i : input) (s : string) : bool :=
  match states i with
  | None => true
  | Some l => String.eqb l "" || JS.includes (JS.split "," l) s
  end.

Definition getFeature (c : control) (i : input) (p : record)
  : option feature :=
  let label :=
    JS.str
      (JS.replace_first (JS.chars " ( )") []
         (JS.chars
            (show_undefined (p_Name p) ++ " ("
             ++ JS.join " " (nonempty (p_County p) ++ nonempty (p_State p))
             ++ ")"))) in
  let '(latMin, lonMin, latMax, lonMax) := bounds c in
  let round := Some roundCoord in
  let near (x : JS.num) (d : Q) := Some (JS.add x (Some d)) in
  let '(ok1, county) := string_property (Some "") None None (p_County p) in
  let '(ok2, gnisId) := number_property (Some None) None None (p_GnisId p) in
  let '(ok3, label') := string_property (Some label) None None (p_Label p) in
  let '(ok4, lat) :=
    number_property None
      (Some (fun x => JS.ge x latMin && JS.le x latMax)) round
      (p_Latitude p) in
  let '(ok5, latMax') :=
    number_property (near (p_Latitude p) dBounds) None round
      (p_LatitudeMax p) in
  let '(ok6, latMin') :=
    number_property (near (p_Latitude p) (Qopp dBounds)) None round
      (p_LatitudeMin p) in
  let '(ok7, lon) :=
    number_property None
      (Some (fun x => JS.ge x lonMin && JS.le x lonMax)) round
      (p_Longitude p) in
  let '(ok8, lonMax') :=
    number_property (near (p_Longitude p) dBounds) None round
      (p_LongitudeMax p) in
  let '(ok9, lonMin') :=
    number_property (near (p_Longitude p) (Qopp dBounds)) None round
      (p_LongitudeMin p) in
  let '(ok10, name) := string_property None None None (p_Name p) in
  let '(ok11, score) :=
    number_property (Some (JS.of_Z 100))
      (Some (fun s => JS.ge s (Some minScore))) (Some JS.round)
      (p_Score p) in
  let '(ok12, source) := string_property None None None (p_Source p) in
  let '(ok13, state) :=
    string_property (Some "") (Some (state_allowed i))
      (Some JS.toUpperCase) (p_State p) in
  let '(ok14, type) := string_property None None None (p_Type p) in
  if ok1 && ok2 && ok3 && ok4 && ok5 && ok6 && ok7 && ok8 && ok9 && ok10
     && ok11 && ok12 && ok13 && ok14
  then
    Some {| coordinates := (lon, lat);
            feature_properties :=
              {| County := county; GnisId := gnisId; Label := label';
                 Latitude := lat; LatitudeMax := latMax';
                 LatitudeMin := latMin'; Longitude := lon;
                 LongitudeMax := lonMax'; LongitudeMin := lonMin';
                 Name := name; Score := score; Source := source;
                 State := state; Type_ := type;
                 Bounds := ((latMin', lonMin'), (latMax', lonMax')) |} |}
  else None.

(** *** gc._create and gc.create *)

(** The control as [gc._create] leaves it: an empty enabled input, a closed
    menu, one request controller.  [_cache], [_suggestions] and [_selected]
    are set by the first [setOptions]. *)
Definition _create : control :=
  {| options := None; _cache := ∅; _suggestions := []; _selected := None;
     _element := {| input_value := ""; input_disabled := false;
                    hidden := false; busy := false; valid := false;
                    invalid := false; menu_open := false |};
     contentLength := None; controllers := [false]; calls := [] |}.

(** [gc.create(id, options = {})]: [_create] and then
    [setOptions(options)]. *)
Definition create (opts : value) : option control :=
  setOptions
    (one_argument (match opts with VUndefined => VObj [] | v => v end))
    _create.

(** *** Requests *)

(** An outstanding locate operation: what the closures of its promise
    callbacks hold, the parsed input and the index of its controller. *)
Record cycle : Type := {
  cycle_input : input;
  cycle_controller : nat
}.

(** How the request to the primary service settles: the promise rejects
    (network failure, abort, unreadable body), or the body is an object
    with an [error], a value that is no array, or an array of records. *)
Inductive primary_response : Type :=
| primary_rejected
| primary_error
| primary_not_array
| primary_array (json : list record).

(** The [attributes] of a candidate of the secondary service. *)
Record candidate : Type := {
  a_Type : option string;
  a_Match_addr : option string;
  a_ShortLabel : option string;
  a_Subregion : option string;
  a_RegionAbbr : option string;
  a_Y : JS.num;
  a_X : JS.num;
  a_Ymin : JS.num;
  a_Ymax : JS.num;
  a_Xmin : JS.num;
  a_Xmax : JS.num;
  a_Score : JS.num;
  a_Loc_name : option string
}.

Inductive secondary_response : Type :=
| secondary_rejected
| secondary_no_field
| secondary_candidates (l : list candidate).

Definition aborted (k : nat) (c : control) : bool :=
  default false (controllers c !! k).

(** [controller.abort()] for the controller of index [k]. *)
Definition abort (k : nat) (c : control) : control :=
  set_controllers (<[k := true]> (controllers c)) c.

Definition show_coord (x : Q) : string := JS.show_fixed nCoordDecimals x.

(** The properties [_locate] makes up for a parsed coordinate. *)
Definition latlon_record (ll : Q * Q) : record :=
  let text :=
    "Coordinate (" ++ JS.join ", " [show_coord ll.1; show_coord ll.2] ++ ")" in
  {| p_County := None; p_GnisId := None; p_Label := Some text;
     p_Latitude := Some ll.1; p_LatitudeMax := None; p_LatitudeMin := None;
     p_Longitude := Some ll.2; p_LongitudeMax := None;
     p_LongitudeMin := None; p_Name := Some text; p_Score := None;
     p_Source := Some "latlon"; p_State := None;
     p_Type := Some "Latitude-Longitude Coordinate" |}.

Definition candidate_record (a : candidate) (loc_name : string) : record :=
  let has_type := negb (String.eqb (default "" (a_Type a)) "") in
  {| p_County := a_Subregion a; p_GnisId := None;
     p_Label := a_Match_addr a;
     p_Latitude := a_Y a; p_LatitudeMax := a_Ymax a;
     p_LatitudeMin := a_Ymin a;
     p_Longitude := a_X a; p_LongitudeMax := a_Xmax a;
     p_LongitudeMin := a_Xmin a;
     p_Name := if has_type then a_ShortLabel a else a_Match_addr a;
     p_Score := a_Score a;
     p_Source := Some ("esri-" ++ JS.toLowerCase loc_name);
     p_State := a_RegionAbbr a;
     p_Type := if has_type then a_Type a
               else Some "Addresses and Other Suggestions" |}.

(** Two features name the same place. *)
Definition duplicate (f1 f2 : feature) : bool :=
  let p1 := feature_properties f1 in
  let p2 := feature_properties f2 in
  String.eqb (Type_ p1) (Type_ p2) && String.eqb (Name p1) (Name p2)
  && String.eqb (County p1) (County p2) && String.eqb (State p1) (State p2).

(** The loop over the candidates; [None] is the [TypeError] of a candidate
    without [Loc_name]. *)
Fixpoint collect (c : control) (i : input) (features : list feature)
         (l : list candidate) : option (list feature) :=
  match l with
  | [] => Some features
  | a :: rest =>
      if String.eqb (default "" (a_Type a)) "Country"
      then collect c i features rest
      else if String.eqb (default "" (a_RegionAbbr a)) ""
      then collect c i features rest
      else
        match a_Loc_name a with
        | None => None
        | Some loc_name =>
            match getFeature c i (candidate_record a loc_name) with
            | None => collect c i features rest
            | Some f =>
                if existsb (fun g => duplicate g f) features
                then collect c i features rest
                else collect c i (features ++ [f]) rest
            end
        end
  end.

Section Engine.

(** The length of the menu content the browser reports after
    [_updateMenu] has written the items: rendering is the document's. *)
Variable innerHTML_length : value -> string -> list feature -> nat.

(** [Array.prototype.sort] with the comparator of the secondary results
    (type, state, county).  The comparator never answers 0, so the order of
    features that agree on the three is the engine's choice. *)
Variable sort : list feature -> list feature.

(** [control._updateMenu(term)]; without a term the menu closes. *)
Definition _updateMenu (t : option string) (c : control) : control :=
  let no_term := String.eqb (default "" t) "" in
  let nItems := List.length (_suggestions c) in
  if no_term || (nItems =? 0)%nat || negb (visible c) || negb (enable c)
  then
    let v := if negb no_term && (nItems =? 0)%nat then Some false else None in
    let c1 :=
      set_element (set_menu v false (_element c)) (set_suggestions [] c) in
    let c2 :=
      match contentLength c1 with
      | Some (S _) => trigger onSuggest c1
      | _ => c1
      end in
    set_contentLength (Some 0%nat) c2
  else
    let c1 := set_element (set_menu (Some true) true (_element c)) c in
    let n :=
      innerHTML_length (option_value c "maxSuggestions") (default "" t)
        (_suggestions c) in
    let c2 :=
      if bool_decide (contentLength c1 = Some n) then c1
      else trigger onSuggest c1 in
    set_contentLength (Some n) c2.

(** The helper [endLocate] of a cycle. *)
Definition endLocate (cyc : cycle) (cache : bool) (c : control) : control :=
  let c1 := set_element (set_busy false (_element c)) c in
  if aborted (cycle_controller cyc) c1 then c1
  else
    let c2 :=
      if cache
      then set_cache
             (<[cacheKey (cycle_input cyc) := _suggestions c1]> (_cache c1))
             c1
      else c1 in
    _updateMenu (Some (term (cycle_input cyc))) c2.

(** [gc._locate(control)] up to the request to the primary service: the
    cycle is [Some] when that request is made.  A cache key holds a ['|'],
    so [in] never finds it among the inherited properties of the cache. *)
Definition _locate (c : control) : control * option cycle :=
  let i := parseInput c in
  if JS.lt (JS.of_Z (Z.of_nat (String.length (JS.trim (get_value c)))))
           (option_number c "minCharacters")
  then (_updateMenu None c, None)
  else
    match _cache c !! cacheKey i with
    | Some features =>
        (_updateMenu (Some (term i)) (set_suggestions features c), None)
    | None =>
        match latlon i ≫= (fun ll => getFeature c i (latlon_record ll)) with
        | Some f => (_updateMenu (Some (term i)) (set_suggestions [f] c), None)
        | None =>
            let c1 := set_element (set_busy true (_element c)) c in
            let c2 := set_suggestions [] c1 in
            let c3 := abort (List.length (controllers c2) - 1) c2 in
            let k := List.length (controllers c3) in
            (set_controllers (controllers c3 ++ [false]) c3,
             Some {| cycle_input := i; cycle_controller := k |})
        end
    end.

(** The secondary service is asked only when GNIS places are included. *)
Definition gnis_included (c : control) : bool :=
  JS.str_includes (JS.toLowerCase (default "" (option_string c "include")))
    "gnis".

(** The callbacks of the request to the primary service: [then] for a
    non-empty array, [catch] otherwise.  The flag tells whether the request
    to the secondary service is made. *)
Definition primary_settled (cyc : cycle) (r : primary_response)
           (c : control) : control * bool :=
  match r with
  | primary_array (p :: json) =>
      let features := omap (getFeature c (cycle_input cyc)) (p :: json) in
      (endLocate cyc true (set_suggestions features c), false)
  | _ =>
      if aborted (cycle_controller cyc) c || negb (gnis_included c)
      then (endLocate cyc false c, false)
      else (c, true)
  end.

(** The callbacks of the request to the secondary service. *)
Definition secondary_settled (cyc : cycle) (r : secondary_response)
           (c : control) : control :=
  match r with
  | secondary_candidates (a :: l) =>
      match collect c (cycle_input cyc) [] (a :: l) with
      | Some features =>
          endLocate cyc true (set_suggestions (sort features) c)
      | None => endLocate cyc false c
      end
  | _ => endLocate cyc false c
  end.

(** *** What happens to a control *)

Inductive event : Type :=
| ev_input (text : string)       (* the text is edited; [_locate] runs *)
| ev_primary (cyc : cycle) (r : primary_response)
| ev_secondary (cyc : cycle) (r : secondary_response)
| ev_timeout (k : nat)           (* the timer of a cycle aborts its request *)
| ev_close                       (* blur, ESC, scroll: [_updateMenu()] *)
| ev_click (index : nat)         (* a menu item is chosen *)
| ev_setOptions (args : arguments)
| ev_visible (show : bool)
| ev_enable (on : bool).

Definition set_hidden (b : bool) (e : element) :=
  {| input_value := input_value e; input_disabled := input_disabled e;
     hidden := b; busy := busy e; valid := valid e; invalid := invalid e;
     menu_open := menu_open e |}.

Definition set_disabled (b : bool) (e : element) :=
  {| input_value := input_value e; input_disabled := b;
     hidden := hidden e; busy := busy e; valid := valid e;
     invalid := invalid e; menu_open := menu_open e |}.

Definition handle (e : event) (c : control) : control :=
  match e with
  | ev_input text =>
      (_locate (set_element (set_input_value text (_element c)) c)).1
  | ev_primary cyc r => (primary_settled cyc r c).1
  | ev_secondary cyc r => secondary_settled cyc r c
  | ev_timeout k => abort k c
  | ev_close => _updateMenu None c
  | ev_click index =>
      let c1 := set_selected (_suggestions c !! index) c in
      trigger onSelect
        (set_element (set_input_value "" (_element c1)) c1)
  | ev_setOptions args => default c (setOptions args c)
  | ev_visible show => set_element (set_hidden (negb show) (_element c)) c
  | ev_enable on => set_element (set_disabled (negb on) (_element c)) c
  end.

(** The control after a sequence of events, the first event first. *)
Definition run (events : list event) (c : control) : control :=
  fold_left (fun st e => handle e st) events c.

End Engine.

(** *** gc.debounce *)

Section Debounce.

Variables (A St : Type).

(** The function to debounce, acting on the state of the page. *)
Variable fn : A -> St -> St.

(** What happens to a debounced function: it is called, or the timer it
    armed last expires. *)
Inductive tick : Type :=
| call (args : A)
| expire.

(** The debounced function next to the page.  Its closure holds the timer:
    [Some args] is an armed timer that will pass [args] to [fn], [None] is
    no armed timer (none was set yet, or the last one has fired, on which
    [clearTimeout] does nothing). *)
Definition debounce (t : tick) (st : option A * St) : option A * St :=
  match t with
  | call args => (Some args, st.2)
  | expire =>
      match st.1 with
      | Some args => (None, fn args st.2)
      | None => st
      end
  end.

End Debounce.

Arguments call {A} args.
Arguments expire {A}.
Arguments debounce {A St} fn t st.

(** *** The listeners of the text box *)

Section Listeners.

Variable innerHTML_length : value -> string -> list feature -> nat.
Variable sort : list feature -> list feature.

(** What the user does in the text box: an edit, or no edit for
    [debounceMs], so that the timer expires. *)
Inductive keystroke : Type :=
| edit (text : string)
| pause.

(** The [input] listener,
    [gc.debounce(() => gc._locate(control), gc._config.debounceMs)].  The
    browser has written the edited text to the text box when it calls the
    listener; the debounced function ignores the event it is passed. *)
Definition input_listener (k : keystroke) (st : option unit * control)
  : option unit * control :=
  let locate := debounce (fun _ c => (_locate innerHTML_length c).1) in
  match k with
  | edit text =>
      locate (call tt)
        (st.1, set_element (set_input_value text (_element st.2)) st.2)
  | pause => locate expire st
  end.

Definition typing (keys : list keystroke) (st : option unit * control)
  : option unit * control :=
  fold_left (fun s k => input_listener k s) keys st.

(** The items of the menu in the document: their number, and the index
    ([data-index]) of the item of class [gc-menu-item-active], if there is
    one. *)
Record menu : Type := {
  items : nat;
  active : option nat
}.

Definition no_items : menu := {| items := 0; active := None |}.

(** The menu as [_updateMenu] has just written it, read from the control
    it returns: one item for each suggestion, active when it is alone. *)
Definition written (c : control) : menu :=
  if menu_open (_element c)
  then {| items := List.length (_suggestions c);
          active := if (List.length (_suggestions c) =? 1)%nat
                    then Some 0%nat else None |}
  else no_items.

(** ARROW UP (38) and ARROW DOWN (40) of the [keydown] listener.  [%] is
    the remainder of the truncating division; the item whose index is the
    result becomes the active one. *)
Definition arrow (which : nat) (m : menu) : menu :=
  if (items m =? 0)%nat then m
  else
    let n := Z.of_nat (items m) in
    let iAdd := if (which =? 38)%nat then (-1)%Z else 1%Z in
    let i :=
      match active m with
      | Some a => Z.of_nat a
      | None => if (iAdd <? 0)%Z then 0%Z else (n - 1)%Z
      end in
    let i' := Z.rem (10 * n + i + iAdd) n in
    {| items := items m;
       active := if (0 <=? i')%Z && (i' <? n)%Z
                 then Some (Z.to_nat i') else None |}.

(** The [keydown] listener: ESC (27) closes the menu, ENTER (13) clicks the
    active item and closes the menu, the arrows move the active item. *)
Definition keydown (which : nat) (m : menu) (c : control)
  : menu * control :=
  if (which =? 27)%nat
  then (no_items, _updateMenu innerHTML_length None c)
  else if (which =? 13)%nat
  then match active m with
       | Some i =>
           (no_items,
            _updateMenu innerHTML_length None
              (handle innerHTML_length sort (ev_click i) c))
       | None => (m, c)
       end
  else if (which =? 38)%nat || (which =? 40)%nat
  then (arrow which m, c)
  else (m, c).

End Listeners.
End Geocoder.

(** ** The older widget (search_api.js) *)
Module SearchApi.

(** search_api._all_states *)
Definition _all_states : list string :=
  ["AK"; "AL"; "AR"; "AZ"; "CA"; "CO"; "CT"; "DC"; "DE"; "FL"; "GA"; "HI";
   "IA"; "ID"; "IL"; "IN"; "KS"; "KY"; "LA"; "MA"; "MD"; "ME"; "MI"; "MN";
   "MO"; "MS"; "MT"; "NC"; "ND"; "NE"; "NH"; "NJ"; "NM"; "NV"; "NY"; "OH";
   "OK"; "OR"; "PA"; "PR"; "RI"; "SC"; "SD"; "TN"; "TX"; "UT"; "VA"; "VI";
   "VT"; "WA"; "WI"; "WV"; "WY"; "N/A"].

(** The options the [keyup] handler reads, as [setOpts] leaves them:
    [search_states] is upper-case without white space, and a number option
    holds a number, which may be [NaN] (the checks of [setOpts] let it
    through). *)
Record opts : Type := {
  lat_min : JS.num;
  lat_max : JS.num;
  lon_min : JS.num;
  lon_max : JS.num;
  search_states : string;
  menu_min_char : JS.num
}.

(** The characters deleted by [/[\/\\^$+?()|[\]{}%]/g]. *)
Definition special (c : ascii) : bool :=
  existsb (JS.is_char c) (JS.chars "/\^$+?()|[]{}%").

(** The filtered term of a text box value. *)
Definition filter_term (text : string) : string :=
  let l0 := JS.chars (JS.toUpperCase (JS.trim text)) in
  let l1 := List.filter (fun c => (JS.code c <=? 127)%N) l0 in
  let l2 := List.filter (fun c => negb (JS.code c <=? 31)%N) l1 in
  let l3 := List.filter (fun c => negb (special c)) l2 in
  let l4 := JS.replace_runs (JS.is_char ",") " " false l3 in
  let l5 := JS.replace_runs JS.is_space " " false l4 in
  JS.str (Geocoder.saint l5).

(** [o._getSearchTermStates()]: the term and the states to search. *)
Definition _getSearchTermStates (text : string) (o : opts)
  : string * string :=
  let term0 := filter_term text in
  let parts := JS.split " " term0 in
  let '(term1, states1) :=
    if (2 <=? List.length parts)%nat
       && JS.includes _all_states (List.last parts "")
    then (JS.join " " (removelast parts), List.last parts "")
    else (term0, "") in
  if negb (String.eqb states1 "") && String.eqb (search_states o) "ALL"
  then (term1, states1)
  else if negb (String.eqb states1 "")
  then
    if JS.includes (JS.split "," (search_states o)) states1
    then (term1, states1)
    else (term1 ++ " " ++ states1, search_states o)
  else (term1, search_states o).

Section Menu.

(** The decimal spelling JavaScript gives a number in a string
    concatenation. *)
Variable show_number : Q -> string.

(** A menu entry; the service delivers entries of the same shape. *)
Record item : Type := {
  Id : option string;
  Category : string;
  Label : string;
  Name : string;
  County : string;
  State : string;
  ElevFt : string;
  GnisId : string;
  Lat : Q;
  Lon : Q;
  LatMin : Q;
  LatMax : Q;
  LonMin : Q;
  LonMax : Q;
  PercentMatch : Q;
  Source : string
}.

Definition coordinate_item (lat lon : Q) : item :=
  let text := "Coordinate " ++ show_number lat ++ ", " ++ show_number lon in
  let d := Qmake 1 1000000 in
  {| Id := None; Category := "Latitude-Longitude Coordinate";
     Label := text; Name := text; County := "N/A"; State := "N/A";
     ElevFt := "N/A"; GnisId := "N/A"; Lat := lat; Lon := lon;
     LatMin := Qminus lat d; LatMax := Qplus lat d;
     LonMin := Qminus lon d; LonMax := Qplus lon d;
     PercentMatch := inject_Z 100; Source := "LAT_LON" |}.

(** What one [keyup] event leads to. *)
Inductive outcome : Type :=
| ignored                                   (* a navigation key *)
| closed                                    (* too few characters *)
| updated (term : string) (data : list item)  (* [_menu.update], no request *)
| requested (term states key : string).     (* a service request is set up *)

Definition ignored_keys : list nat :=
  [13; 27; 33; 34; 35; 36; 37; 38; 39; 40]%nat.

(** The coordinate a term spells, when both numbers are in range. *)
Definition lat_lon_of (term : string) (o : opts) : option (Q * Q) :=
  let tokens := map JS.str (JS.split_chars JS.is_space (JS.chars term)) in
  let tokens := if (List.length tokens <? 2)%nat then (tokens ++ ["X"])%list
                else tokens in
  let lat := JS.parseFloat (nth 0 tokens "") in
  let lon := JS.neg (JS.abs (JS.parseFloat (nth 1 tokens ""))) in
  let in_range (x lo hi : JS.num) :=
    negb (JS.isNaN x || JS.lt x lo || JS.gt x hi) in
  match lat, lon with
  | Some la, Some lo =>
      if in_range lat (lat_min o) (lat_max o)
         && in_range lon (lon_min o) (lon_max o)
      then Some (la, lo) else None
  | _, _ => None
  end.

(** The loop "no new request if character added to old request that had no
    results": [n] runs downwards while it is above [menu_min_char]. *)
Fixpoint no_results_before (cache : gmap string (list item))
         (term_cache states : string) (min_char : JS.num) (n : nat) : bool :=
  if negb (JS.gt (JS.of_Z (Z.of_nat n)) min_char) then false
  else
    match cache !! (JS.prefix_of n term_cache ++ "|" ++ states) with
    | Some [] => true
    | _ =>
        match n with
        | O => false
        | S n' => no_results_before cache term_cache states min_char n'
        end
    end.

(** The [keyup] handler of the text box, up to the service request. *)
Definition keyup (which : nat) (text : string) (o : opts)
           (cache : gmap string (list item)) : outcome :=
  if existsb (Nat.eqb which) ignored_keys then ignored
  else if JS.lt (JS.of_Z (Z.of_nat (String.length (JS.trim text))))
                (menu_min_char o)
  then closed
  else
    let '(search_term, states) := _getSearchTermStates text o in
    match lat_lon_of search_term o with
    | Some (lat, lon) => updated search_term [coordinate_item lat lon]
    | None =>
        let term_cache := search_term ++ "|" ++ states in
        match cache !! term_cache with
        | Some data => updated search_term data
        | None =>
            let n :=
              Nat.pred
                (String.length (List.hd "" (JS.split "|" term_cache))) in
            if no_results_before cache term_cache states (menu_min_char o) n
            then updated search_term []
            else requested search_term states term_cache
        end
    end.

(** The [success] callback of the service request for an array of items:
    the menu is updated and the array is saved in the cache. *)
Definition success (term_cache : string) (data : list item)
           (cache : gmap string (list item)) : gmap string (list item) :=
  <[term_cache := data]> cache.

End Menu.

(** *** o.setOpts: the checks of the values *)
Module SetOpts.

(** The options whose values [setOpts] checks, as they are once the types
    are checked: an option of type number holds a number, which may be
    [NaN]. *)
Record values : Type := {
  lat_min : JS.num;
  lat_max : JS.num;
  lon_min : JS.num;
  lon_max : JS.num;
  search_states : string;
  menu_min_char : JS.num;
  menu_max_entries : JS.num;
  menu_height : JS.num;
  fuzzy_percent : JS.num;
  geocoder_timeout : JS.num;
  geocoder_percent : JS.num;
  size : string;
  width : JS.num
}.

(** search_api._opt_default *)
Definition _opt_default : values :=
  {| lat_min := JS.of_Z (-90); lat_max := JS.of_Z 90;
     lon_min := JS.of_Z (-180); lon_max := JS.of_Z 180;
     search_states := "all";
     menu_min_char := JS.of_Z 3; menu_max_entries := JS.of_Z 50;
     menu_height := JS.of_Z 0; fuzzy_percent := JS.of_Z 90;
     geocoder_timeout := JS.of_Z 5; geocoder_percent := JS.of_Z 90;
     size := "md"; width := JS.of_Z 0 |}.

(** [x < lo || x > hi] *)
Definition outside (x : JS.num) (lo hi : Z) : bool :=
  JS.lt x (JS.of_Z lo) || JS.gt x (JS.of_Z hi).

(** The entries [search_states] may list. *)
Definition valid_state (s : string) : bool :=
  JS.includes (_all_states ++ ["ALL"])%list s.

(** "check values - reset to default if problem", statement by statement;
    the warnings are left out. *)
Definition check_values (o : values) : values :=
  let d := _opt_default in
  let lat_min1 := if outside (lat_min o) (-90) 90 then lat_min d
                  else lat_min o in
  let lat_max1 := if outside (lat_max o) (-90) 90 then lat_max d
                  else lat_max o in
  let lon_min1 := if outside (lon_min o) (-180) 180 then lon_min d
                  else lon_min o in
  let lon_max1 := if outside (lon_max o) (-180) 180 then lon_max d
                  else lon_max o in
  let lat :=
    if JS.gt lat_min1 lat_max1 then (lat_min d, lat_max d)
    else (lat_min1, lat_max1) in
  let lon :=
    if JS.gt lon_min1 lon_max1 then (lon_min d, lon_max d)
    else (lon_min1, lon_max1) in
  let states :=
    JS.toUpperCase
      (JS.str (List.filter (fun c => negb (JS.is_space c))
                 (JS.chars (search_states o)))) in
  {| lat_min := lat.1; lat_max := lat.2;
     lon_min := lon.1; lon_max := lon.2;
     search_states :=
       if forallb valid_state (JS.split "," states) then states
       else JS.toUpperCase (search_states d);
     menu_min_char :=
       if JS.lt (menu_min_char o) (JS.of_Z 1) then menu_min_char d
       else menu_min_char o;
     menu_max_entries :=
       if JS.lt (menu_max_entries o) (JS.of_Z 1) then menu_max_entries d
       else menu_max_entries o;
     menu_height :=
       if JS.lt (menu_height o) (JS.of_Z 0) then menu_height d
       else menu_height o;
     fuzzy_percent :=
       if outside (fuzzy_percent o) 0 100 then fuzzy_percent d
       else fuzzy_percent o;
     geocoder_timeout :=
       if JS.le (geocoder_timeout o) (JS.of_Z 0) then geocoder_timeout d
       else geocoder_timeout o;
     geocoder_percent :=
       if outside (geocoder_percent o) 0 100 then geocoder_percent d
       else geocoder_percent o;
     size :=
       if JS.includes ["lg"; "md"; "sm"; "xs"] (size o) then size o
       else size d;
     width :=
       if JS.lt (width o) (JS.of_Z 0) then width d else width o |}.

End SetOpts.
End SearchApi.

(** ** The specification's formulas and sample instances *)
Module Spec.

(** The text upper-cased, its other characters blanked and its white space
    collapsed: the first three steps, on which code and specification
    agree. *)
Definition collapsed (text : string) : list ascii :=
  JS.replace_runs JS.is_space " " false
    (Geocoder.blank_others (JS.chars (JS.toUpperCase text))).

(** The normaliser in the order the specification gives: upper-case, blank
    the other characters, collapse white space, trim, and then expand a
    leading ["ST "]. *)
Definition normalize (text : string) : string :=
  JS.str (Geocoder.saint (JS.trim_chars (collapsed text))).

(** [decimal = sign(degrees) * (|degrees| + minutes/60 + seconds/3600)] *)
Definition dms (d m s : Q) : Q :=
  (JS.sign_of d * (Qabs d + m / inject_Z 60 + s / inject_Z 3600))%Q.

(** A token is numeric when [Number] gives it a value. *)
Definition numeric (tok : string) : bool := negb (JS.isNaN (JS.Number tok)).









(** [q] has six decimals. *)
Definition six_decimals (q : Q) : Prop := exists n : Z, q = Qmake n 1000000.

(** [q] is [x] rounded to six decimals. *)
Definition rounds (x q : Q) : Prop :=
  six_decimals q /\ (Qabs (q - x) <= Qmake 1 2000000)%Q.

(** The text of a record is absent or blank. *)
Definition blank (s : option string) : bool :=
  String.eqb (JS.trim (default "" s)) "".

Definition within (x lo hi : JS.num) : bool := JS.ge x lo && JS.le x hi.

(** The score of a record, 100 when it has none, reaches the minimum. *)
Definition score_ok (p : Geocoder.record) : bool :=
  JS.ge (if JS.isNaN (Geocoder.p_Score p) then JS.of_Z 100
         else Geocoder.p_Score p)
        (Some Geocoder.minScore).

(** The checks of the candidate validator: type, name and source are
    present, latitude and longitude are numbers within the bounds, the
    score reaches the minimum, and the state, blank when absent, is
    allowed. *)
Definition passes (c : Geocoder.control) (i : Geocoder.input)
           (p : Geocoder.record) : bool :=
  let '(latMin, lonMin, latMax, lonMax) := Geocoder.bounds c in
  negb (blank (Geocoder.p_Type p))
  && negb (blank (Geocoder.p_Name p))
  && negb (blank (Geocoder.p_Source p))
  && within (Geocoder.p_Latitude p) latMin latMax
  && within (Geocoder.p_Longitude p) lonMin lonMax
  && score_ok p
  && Geocoder.state_allowed i (JS.trim (default "" (Geocoder.p_State p))).

(** What holds of a surfaced feature under the bounds [b]: latitude and
    longitude are the roundings of numbers within the bounds, the score
    reaches the minimum, and type, name and source are not empty. *)
Definition validated (b : JS.num * JS.num * JS.num * JS.num)
           (f : Geocoder.feature) : Prop :=
  let '(latMin, lonMin, latMax, lonMax) := b in
  let p := Geocoder.feature_properties f in
  (exists lat, within (Some lat) latMin latMax = true
               /\ Geocoder.Latitude p = Some (Geocoder.roundCoord lat))
  /\ (exists lon, within (Some lon) lonMin lonMax = true
                  /\ Geocoder.Longitude p = Some (Geocoder.roundCoord lon))
  /\ (exists s, (Geocoder.minScore <= s)%Q /\ Geocoder.Score p = Some s)
  /\ Geocoder.Type_ p <> ""
  /\ Geocoder.Name p <> ""
  /\ Geocoder.Source p <> ""
  /\ Geocoder.coordinates f = (Geocoder.Longitude p, Geocoder.Latitude p).

(** Nothing was written to the cache, no callback ran and the menu is as
    it was. *)
Definition silent (c c' : Geocoder.control) : Prop :=
  Geocoder._cache c' = Geocoder._cache c
  /\ Geocoder.calls c' = Geocoder.calls c
  /\ Geocoder.contentLength c' = Geocoder.contentLength c
  /\ Geocoder.menu_open (Geocoder._element c')
     = Geocoder.menu_open (Geocoder._element c)
  /\ Geocoder.valid (Geocoder._element c')
     = Geocoder.valid (Geocoder._element c)
  /\ Geocoder.invalid (Geocoder._element c')
     = Geocoder.invalid (Geocoder._element c).

(** The records of a response of the primary service; none when the
    request failed or the body is no array. *)
Definition records (r : Geocoder.primary_response) : list Geocoder.record :=
  match r with
  | Geocoder.primary_array json => json
  | _ => []
  end.

(** The features of a response of the secondary service; [None] when the
    request failed, the body has no candidates or a candidate is broken. *)
Definition collected (c : Geocoder.control) (i : Geocoder.input)
           (r : Geocoder.secondary_response)
  : option (list Geocoder.feature) :=
  match r with
  | Geocoder.secondary_candidates (a :: l) =>
      Geocoder.collect c i [] (a :: l)
  | _ => None
  end.

Definition set_p_State (s : option string) (p : Geocoder.record)
  : Geocoder.record :=
  {| Geocoder.p_County := Geocoder.p_County p;
     Geocoder.p_GnisId := Geocoder.p_GnisId p;
     Geocoder.p_Label := Geocoder.p_Label p;
     Geocoder.p_Latitude := Geocoder.p_Latitude p;
     Geocoder.p_LatitudeMax := Geocoder.p_LatitudeMax p;
     Geocoder.p_LatitudeMin := Geocoder.p_LatitudeMin p;
     Geocoder.p_Longitude := Geocoder.p_Longitude p;
     Geocoder.p_LongitudeMax := Geocoder.p_LongitudeMax p;
     Geocoder.p_LongitudeMin := Geocoder.p_LongitudeMin p;
     Geocoder.p_Name := Geocoder.p_Name p;
     Geocoder.p_Score := Geocoder.p_Score p;
     Geocoder.p_Source := Geocoder.p_Source p;
     Geocoder.p_State := s;
     Geocoder.p_Type := Geocoder.p_Type p |}.

(** Every feature among the suggestions and in the cache of a control is
    validated under the bounds of its options. *)
Definition all_validated (c : Geocoder.control) : Prop :=
  Forall (validated (Geocoder.bounds c)) (Geocoder._suggestions c)
  /\ map_Forall (fun _ l => Forall (validated (Geocoder.bounds c)) l)
                (Geocoder._cache c).

(** No ['|'] among the characters. *)
Definition barless (l : list ascii) : Prop :=
  Forall (fun c => JS.is_char "|" c = false) l.

(** A call of [setOptions] that passes the check of its input: an object
    other than [null], or a name and a value. *)
Definition takes_options (args : Geocoder.arguments) : bool :=
  match args with
  | Geocoder.no_argument => false
  | Geocoder.one_argument v =>
      match v with
      | Geocoder.VArr _ | Geocoder.VObj _ => true
      | _ => false
      end
  | Geocoder.name_value _ _ => true
  end.

End Spec.

(** Predicates of the further properties. *)
Module Inv.

(** A character of a search term: one that [parseInput] keeps, or a
    blank. *)
Definition term_char (c : ascii) : bool :=
  Geocoder.kept c || JS.is_char " " c.

(** No lower-case letter among the characters. *)
Definition no_lower (l : list ascii) : Prop :=
  Forall (fun c => JS.is_lower c = false) l.

(** No two blanks in a row. *)
Fixpoint single_blanks (l : list ascii) : Prop :=
  match l with
  | a :: (b :: _) as r =>
      (JS.is_char " " a && JS.is_char " " b = false) /\ single_blanks r
  | _ => True
  end.

(** The control is hidden or disabled. *)
Definition off (c : Geocoder.control) : bool :=
  negb (Geocoder.visible c && Geocoder.enable c).

(** What a step that neither shows nor enables the control, nor assigns
    its class names, may do to the document: the control stays as visible
    and as enabled as it was, and the menu is open afterwards only if it
    was open before or the control is visible and enabled. *)
Definition menu_step (e e' : Geocoder.element) : Prop :=
  Geocoder.hidden e' = Geocoder.hidden e
  /\ Geocoder.input_disabled e' = Geocoder.input_disabled e
  /\ (Geocoder.menu_open e' = true ->
      Geocoder.menu_open e = true
      \/ (Geocoder.hidden e = false /\ Geocoder.input_disabled e = false)).

(** The events that can show or enable the control, or open its menu
    without suggestions: [visible(true)], [enable(true)], and a call of
    [setOptions], which assigns the class names of the control and of the
    menu anew. *)
Definition switches_on (e : Geocoder.event) : bool :=
  match e with
  | Geocoder.ev_visible true | Geocoder.ev_enable true
  | Geocoder.ev_setOptions _ => true
  | _ => false
  end.

(** The events that assign the selection: a click on a menu item and a
    call of [setOptions]. *)
Definition selects (e : Geocoder.event) : bool :=
  match e with
  | Geocoder.ev_click _ | Geocoder.ev_setOptions _ => true
  | _ => false
  end.

(** Every request controller but the newest has aborted. *)
Definition one_live (c : Geocoder.control) : Prop :=
  Geocoder.controllers c <> []
  /\ forall k, (S k < List.length (Geocoder.controllers c))%nat ->
               Geocoder.aborted k c = true.

(** The value a list of fields gives a name: that of the last field of
    that name. *)
Definition given (fields : list (string * Geocoder.value)) (name : string)
  : option Geocoder.value :=
  fold_left (fun acc kv => if String.eqb kv.1 name then Some kv.2 else acc)
            fields None.

(** The fields of the object of options of a call that [setOptions]
    accepts; the indices of an array are no option names. *)
Definition fields_of (args : Geocoder.arguments)
  : option (list (string * Geocoder.value)) :=
  match args with
  | Geocoder.one_argument (Geocoder.VObj fields) => Some fields
  | Geocoder.one_argument (Geocoder.VArr _) => Some []
  | Geocoder.name_value name v => Some [(name, v)]
  | _ => None
  end.

(** No feature of the list names the same place as a later one. *)
Fixpoint distinct (l : list Geocoder.feature) : Prop :=
  match l with
  | [] => True
  | f :: r => Forall (fun g => Geocoder.duplicate f g = false) r /\ distinct r
  end.

(** A number option after the checks of [setOpts]: [NaN], or a number in
    the range. *)
Definition between (x : JS.num) (lo hi : Z) : Prop :=
  match x with
  | Some q => (inject_Z lo <= q)%Q /\ (q <= inject_Z hi)%Q
  | None => True
  end.

Definition at_least (x : JS.num) (lo : Z) : Prop :=
  match x with
  | Some q => (inject_Z lo <= q)%Q
  | None => True
  end.

Definition above (x : JS.num) (lo : Z) : Prop :=
  match x with
  | Some q => (inject_Z lo < q)%Q
  | None => True
  end.

Definition ordered (x y : JS.num) : Prop :=
  match x, y with
  | Some a, Some b => (a <= b)%Q
  | _, _ => True
  end.

End Inv.

(** Instances of what the engine leaves to the browser, to run the model on
    concrete inputs. *)
Module Sample.

Definition innerHTML_length (maxSuggestions : Geocoder.value)
           (term : string) (features : list Geocoder.feature) : nat :=
  (200 + 100 * List.length features)%nat.

(** The comparator of the secondary results answers 1. *)
Definition after (a b : Geocoder.feature) : bool :=
  let pa := Geocoder.feature_properties a in
  let pb := Geocoder.feature_properties b in
  match String.compare (Geocoder.Type_ pa) (Geocoder.Type_ pb) with
  | Gt => true
  | Lt => false
  | Eq =>
      match String.compare (Geocoder.State pa) (Geocoder.State pb) with
      | Gt => true
      | Lt => false
      | Eq =>
          match String.compare (Geocoder.County pa) (Geocoder.County pb) with
          | Gt => true
          | _ => false
          end
      end
  end.

Fixpoint insert (f : Geocoder.feature) (l : list Geocoder.feature)
  : list Geocoder.feature :=
  match l with
  | [] => [f]
  | g :: r => if after f g then g :: insert f r else f :: l
  end.

(** An insertion sort with that comparator. *)
Definition sort (l : list Geocoder.feature) : list Geocoder.feature :=
  fold_right insert [] l.

Definition show_number (q : Q) : string := JS.show_fixed 6 q.

(** A control with the default options and the text [text] in its input. *)
Definition typed (text : string) (c : Geocoder.control) : Geocoder.control :=
  Geocoder.set_element
    (Geocoder.set_input_value text (Geocoder._element c)) c.

Definition created (opts : list (string * Geocoder.value))
  : Geocoder.control :=
  default Geocoder._create (Geocoder.create (Geocoder.VObj opts)).

Definition locate (c : Geocoder.control)
  : Geocoder.control * option Geocoder.cycle :=
  Geocoder._locate innerHTML_length c.

Definition run (events : list Geocoder.event) (c : Geocoder.control)
  : Geocoder.control :=
  Geocoder.run innerHTML_length sort events c.

(** The cycle that a text starts on a control whose last controller has
    the index [k - 1]. *)
Definition cycle_of (text : string) (c : Geocoder.control) (k : nat)
  : Geocoder.cycle :=
  {| Geocoder.cycle_input := Geocoder.parseInput (typed text c);
     Geocoder.cycle_controller := k |}.

Definition place (name county state : string) (lat lon : Q)
  : Geocoder.record :=
  {| Geocoder.p_County := Some county; Geocoder.p_GnisId := None;
     Geocoder.p_Label := None;
     Geocoder.p_Latitude := Some lat; Geocoder.p_LatitudeMax := None;
     Geocoder.p_LatitudeMin := None;
     Geocoder.p_Longitude := Some lon; Geocoder.p_LongitudeMax := None;
     Geocoder.p_LongitudeMin := None;
     Geocoder.p_Name := Some name; Geocoder.p_Score := None;
     Geocoder.p_Source := Some "gnis"; Geocoder.p_State := Some state;
     Geocoder.p_Type := Some "Populated Place" |}.

Definition austin : Geocoder.record :=
  place "Austin" "Travis" "TX" (Qmake 30267153 1000000)
        (Qmake (-97743057) 1000000).

(** Controls with the default options, with the state filter ["tx"] and
    without GNIS places, and the query ["austin"] on each. *)
Definition plain : Geocoder.control := created [].

Definition texas : Geocoder.control :=
  created [("states", Geocoder.VStr "tx")].

Definition postal : Geocoder.control :=
  created [("include", Geocoder.VStr "postal state")].

Definition austin_query (c : Geocoder.control) : Geocoder.input :=
  Geocoder.parseInput (typed "austin" c).

(** The control without GNIS places once ["austin"] is typed and the
    request is out, and once the primary service has answered [[]]. *)
Definition postal_waiting : Geocoder.control :=
  (locate (typed "austin" postal)).1.

Definition postal_done : Geocoder.control :=
  (Geocoder.primary_settled innerHTML_length
     (cycle_of "austin" postal 1) (Geocoder.primary_array [])
     postal_waiting).1.

(** The same control when ["44 57"] is typed while the request for
    ["austin"] is out, and the primary service then answers [[]]. *)
Definition postal_coordinate : Geocoder.control :=
  Geocoder.run innerHTML_length sort
    [Geocoder.ev_input "austin"; Geocoder.ev_input "44 57";
     Geocoder.ev_primary (cycle_of "austin" postal 1)
       (Geocoder.primary_array [])]
    postal.

(** A control whose northern bound has seven decimals, a record just
    south of that bound, and the control once the primary service has
    answered the query ["austin"] with that record. *)
Definition fenced : Geocoder.control :=
  created
    [("bounds",
      Geocoder.VArr
        [Geocoder.VNum (inject_Z 40); Geocoder.VNum (inject_Z (-95));
         Geocoder.VNum (Qmake 451234567 10000000);
         Geocoder.VNum (inject_Z (-90))])].

Definition border_town : Geocoder.record :=
  place "Border" "Polk" "MN" (Qmake 4512345669 100000000) (inject_Z (-93)).

Definition fenced_events : list Geocoder.event :=
  [Geocoder.ev_setOptions
     (Geocoder.one_argument
        (Geocoder.VObj
           [("bounds",
             Geocoder.VArr
               [Geocoder.VNum (inject_Z 40); Geocoder.VNum (inject_Z (-95));
                Geocoder.VNum (Qmake 451234567 10000000);
                Geocoder.VNum (inject_Z (-90))])]));
   Geocoder.ev_input "austin";
   Geocoder.ev_primary (cycle_of "austin" fenced 1)
     (Geocoder.primary_array [border_town])].

Definition fenced_done : Geocoder.control :=
  Geocoder.run innerHTML_length sort fenced_events Geocoder._create.

(** The control with the default options once ["austin"] is typed and
    the request is out; once its timer has then fired; and once the primary
    service has instead answered with the record of Austin and the user
    has chosen it. *)
Definition plain_waiting : Geocoder.control :=
  (locate (typed "austin" plain)).1.

Definition timed_out : Geocoder.control :=
  run [Geocoder.ev_input "austin"; Geocoder.ev_timeout 1] plain.

Definition picked : Geocoder.control :=
  run [Geocoder.ev_input "austin";
       Geocoder.ev_primary (cycle_of "austin" plain 1)
         (Geocoder.primary_array [austin]);
       Geocoder.ev_click 0]
      plain.

(** The control with the coordinate of the specification in its input. *)
Definition minneapolis : Geocoder.control :=
  typed "44 57 53.2728 N 93 14 27.4812 W" plain.

(** The options of the older widget, with the default minimum of three
    characters and with a minimum of two. *)
Definition widget (min_char : Z) : SearchApi.opts :=
  {| SearchApi.lat_min := JS.of_Z (-90); SearchApi.lat_max := JS.of_Z 90;
     SearchApi.lon_min := JS.of_Z (-180); SearchApi.lon_max := JS.of_Z 180;
     SearchApi.search_states := "ALL";
     SearchApi.menu_min_char := JS.of_Z min_char |}.

(** Options whose bounds of the latitude are [NaN]. *)
Definition unchecked_latitude : SearchApi.opts :=
  {| SearchApi.lat_min := None; SearchApi.lat_max := None;
     SearchApi.lon_min := JS.of_Z (-180); SearchApi.lon_max := JS.of_Z 180;
     SearchApi.search_states := "ALL";
     SearchApi.menu_min_char := JS.of_Z 3 |}.

Definition keyup (which : nat) (text : string) (o : SearchApi.opts)
           (cache : gmap string (list SearchApi.item)) : SearchApi.outcome :=
  SearchApi.keyup show_number which text o cache.

(** The cache of the older widget once the service has answered the key
    [key] with no items. *)
Definition nothing_for (key : string) : gmap string (list SearchApi.item) :=
  SearchApi.success key [] ∅.

Definition austin_item : SearchApi.item :=
  {| SearchApi.Id := Some "1380";
     SearchApi.Category := "Populated Place";
     SearchApi.Label := "Austin (Travis County, TX)";
     SearchApi.Name := "Austin"; SearchApi.County := "Travis";
     SearchApi.State := "TX"; SearchApi.ElevFt := "489";
     SearchApi.GnisId := "1380";
     SearchApi.Lat := Qmake 30267153 1000000;
     SearchApi.Lon := Qmake (-97743057) 1000000;
     SearchApi.LatMin := Qmake 30098659 1000000;
     SearchApi.LatMax := Qmake 30516863 1000000;
     SearchApi.LonMin := Qmake (-97938383) 1000000;
     SearchApi.LonMax := Qmake (-97561489) 1000000;
     SearchApi.PercentMatch := inject_Z 100;
     SearchApi.Source := "GNIS" |}.


(** The control with the default options once the menu shows Austin, and
    a control hidden before anything is typed. *)
Definition shown : Geocoder.control :=
  run [Geocoder.ev_input "austin";
       Geocoder.ev_primary (cycle_of "austin" plain 1)
         (Geocoder.primary_array [austin])]
      plain.

Definition concealed : Geocoder.control :=
  run [Geocoder.ev_visible false] plain.

(** A query and its answer, and the menu closed afterwards. *)
Definition answered : list Geocoder.event :=
  [Geocoder.ev_input "austin";
   Geocoder.ev_primary (cycle_of "austin" plain 1)
     (Geocoder.primary_array [austin]);
   Geocoder.ev_close].

(** A call of [setOptions] with a name that is no option. *)
Definition coloured : list Geocoder.event :=
  [Geocoder.ev_setOptions
     (Geocoder.one_argument
        (Geocoder.VObj [("colour", Geocoder.VStr "red");
                        ("states", Geocoder.VStr "tx")]))].

(** Boston as a locator of the secondary service reports it. *)
Definition boston (loc_name : string) : Geocoder.candidate :=
  {| Geocoder.a_Type := Some "City";
     Geocoder.a_Match_addr := Some "Boston, Massachusetts";
     Geocoder.a_ShortLabel := Some "Boston";
     Geocoder.a_Subregion := Some "Suffolk County";
     Geocoder.a_RegionAbbr := Some "MA";
     Geocoder.a_Y := Some (Qmake 4235866 100000);
     Geocoder.a_X := Some (Qmake (-7105674) 100000);
     Geocoder.a_Ymin := Some (Qmake 4222066 100000);
     Geocoder.a_Ymax := Some (Qmake 4249666 100000);
     Geocoder.a_Xmin := Some (Qmake (-7119474) 100000);
     Geocoder.a_Xmax := Some (Qmake (-7091874) 100000);
     Geocoder.a_Score := Some (inject_Z 100);
     Geocoder.a_Loc_name := Some loc_name |}.

(** The features collected when two locators report Boston. *)
Definition boston_twice : list Geocoder.feature :=
  default []
    (Geocoder.collect plain (austin_query plain) []
       [boston "World"; boston "Gazetteer"]).

(** The options after that call. *)
Definition coloured_options : gmap string Geocoder.value :=
  Geocoder.merge Geocoder.defaultOptions [("states", Geocoder.VStr "tx")].

(** A record of the primary service without a label, a county and a
    state. *)
Definition summit : Geocoder.record :=
  {| Geocoder.p_County := None; Geocoder.p_GnisId := None;
     Geocoder.p_Label := None;
     Geocoder.p_Latitude := Some (Qmake 39117751 1000000);
     Geocoder.p_LatitudeMax := None; Geocoder.p_LatitudeMin := None;
     Geocoder.p_Longitude := Some (Qmake (-106445358) 1000000);
     Geocoder.p_LongitudeMax := None; Geocoder.p_LongitudeMin := None;
     Geocoder.p_Name := Some "Mount Elbert"; Geocoder.p_Score := None;
     Geocoder.p_Source := Some "gnis"; Geocoder.p_State := None;
     Geocoder.p_Type := Some "Summit" |}.

(** Two queries in a row on a new control, and the control after them:
    the second request has replaced the first. *)
Definition two_queries : list Geocoder.event :=
  [Geocoder.ev_setOptions (Geocoder.one_argument (Geocoder.VObj []));
   Geocoder.ev_input "austin";
   Geocoder.ev_input "dallas"].

Definition superseded : Geocoder.control :=
  run two_queries Geocoder._create.
End Sample.

(** * Properties *)

(** ** Text *)

Lemma chars_app (a b : string) :
  JS.chars (a ++ b) = (JS.chars a ++ JS.chars b)%list.
Proof.
  unfold JS.chars. induction a as [|c a IH]; [reflexivity|].
  simpl. rewrite IH. reflexivity.
Qed.

Lemma chars_str (l : list ascii) : JS.chars (JS.str l) = l.
Proof. apply list_ascii_of_string_of_list_ascii. Qed.

Lemma str_chars (s : string) : JS.str (JS.chars s) = s.
Proof. apply string_of_list_ascii_of_string. Qed.

Lemma length_chars (s : string) :
  List.length (JS.chars s) = String.length s.
Proof.
  induction s as [|c s IH]; [reflexivity|]. cbn. f_equal. exact IH.
Qed.

(** ** The normaliser *)

(** C9 (the code differs): the term is trimmed after the expansion of a
    leading ["ST "], not before.  For the text [" st louis"] the engine
    searches ["ST LOUIS"], where the order of the specification, and the
    older widget, give ["SAINT LOUIS"]. *)
Theorem C9_saint_expanded_before_trim :
  Geocoder.parse_term " st louis" = "ST LOUIS"
  /\ Spec.normalize " st louis" = "SAINT LOUIS"
  /\ SearchApi.filter_term " st louis" = "SAINT LOUIS".
Proof. repeat split; vm_compute; reflexivity. Qed.

(** Without white space around the text the two orders can still differ:
    a closing blank makes the engine expand a lone ["st"]. *)
Lemma saint_lone_token :
  Geocoder.parse_term "st " = "SAINT" /\ Spec.normalize "st " = "ST".
Proof. split; vm_compute; reflexivity. Qed.

(** *** Where the two orders agree *)

Lemma trim_start_app (x y : list ascii) :
  JS.trim_start x <> [] ->
  JS.trim_start (x ++ y)%list = (JS.trim_start x ++ y)%list.
Proof.
  induction x as [|c x IH]; intros H; [contradiction|].
  cbn [JS.trim_start app] in *. destruct (JS.is_space c); [|reflexivity].
  apply IH. exact H.
Qed.

Lemma trim_start_suffix (x : list ascii) :
  exists p, x = (p ++ JS.trim_start x)%list.
Proof.
  induction x as [|c x [p IH]]; [exists []; reflexivity|].
  cbn [JS.trim_start]. destruct (JS.is_space c).
  - exists (c :: p). cbn. f_equal. exact IH.
  - exists []. reflexivity.
Qed.

Lemma trim_end_app (a b : list ascii) :
  JS.trim_end b <> [] ->
  JS.trim_end (a ++ b)%list = (a ++ JS.trim_end b)%list.
Proof.
  unfold JS.trim_end. intros H. rewrite rev_app_distr.
  rewrite trim_start_app.
  - rewrite rev_app_distr, rev_involutive. reflexivity.
  - intros E. apply H. rewrite E. reflexivity.
Qed.

Lemma trim_end_prefix (u : list ascii) :
  exists s, u = (JS.trim_end u ++ s)%list.
Proof.
  unfold JS.trim_end. destruct (trim_start_suffix (rev u)) as [p Hp].
  exists (rev p). rewrite <- rev_app_distr, <- Hp, rev_involutive.
  reflexivity.
Qed.

Lemma starts_with_app (p a s : list ascii) :
  JS.starts_with p a = true -> JS.starts_with p (a ++ s)%list = true.
Proof.
  revert a. induction p as [|c p IH]; intros a H; [reflexivity|].
  destruct a as [|d a]; [discriminate H|]. cbn in *.
  apply andb_true_iff in H as [H1 H2]. rewrite H1. cbn. apply IH. exact H2.
Qed.

Lemma starts_with_split (p l : list ascii) :
  JS.starts_with p l = true -> l = (p ++ skipn (List.length p) l)%list.
Proof.
  revert l. induction p as [|c p IH]; intros l H; [reflexivity|].
  destruct l as [|d l]; [discriminate H|]. cbn in *.
  apply andb_true_iff in H as [H1 H2]. apply Ascii.eqb_eq in H1. subst d.
  f_equal. apply IH. exact H2.
Qed.

(** Trimming after the expansion and expanding after trimming give the
    same term when the collapsed text has no leading blank and is not a
    lone ["ST "]. *)
Lemma saint_trim_commute (u : list ascii) :
  JS.trim_start u = u ->
  (JS.starts_with (JS.chars "ST ") u = true ->
   JS.trim_end (skipn 3 u) <> []) ->
  JS.trim_chars (Geocoder.saint u) = Geocoder.saint (JS.trim_chars u).
Proof.
  intros Hu Hrest. unfold JS.trim_chars. rewrite Hu.
  unfold Geocoder.saint at 1.
  destruct (JS.starts_with (JS.chars "ST ") u) eqn:E.
  - specialize (Hrest eq_refl).
    pose proof (starts_with_split _ _ E) as Hsplit.
    change (List.length (JS.chars "ST ")) with 3%nat in Hsplit.
    assert (Ht : JS.trim_end u
                 = (JS.chars "ST " ++ JS.trim_end (skipn 3 u))%list).
    { rewrite Hsplit at 1. apply trim_end_app. exact Hrest. }
    rewrite Ht. change (JS.trim_start (JS.chars "SAINT " ++ skipn 3 u)%list)
      with (JS.chars "SAINT " ++ skipn 3 u)%list.
    rewrite trim_end_app by exact Hrest.
    unfold Geocoder.saint.
    rewrite (starts_with_app (JS.chars "ST ") (JS.chars "ST ")
               (JS.trim_end (skipn 3 u)) eq_refl).
    reflexivity.
  - rewrite Hu. unfold Geocoder.saint.
    destruct (JS.starts_with (JS.chars "ST ") (JS.trim_end u)) eqn:E';
      [|reflexivity].
    destruct (trim_end_prefix u) as [s Hs].
    rewrite Hs in E. rewrite (starts_with_app _ _ s E') in E. discriminate E.
Qed.

Lemma parse_term_as_specified (text : string) :
  JS.trim_start (Spec.collapsed text) = Spec.collapsed text ->
  (JS.starts_with (JS.chars "ST ") (Spec.collapsed text) = true ->
   JS.trim_end (skipn 3 (Spec.collapsed text)) <> []) ->
  Geocoder.parse_term text = Spec.normalize text.
Proof.
  intros H1 H2. unfold Geocoder.parse_term, Spec.normalize.
  f_equal. apply saint_trim_commute; assumption.
Qed.

(** ** Degrees, minutes and seconds *)

Lemma dms2dec_value (d m s : string) (x y z : Q) :
  JS.Number d = Some x -> JS.Number m = Some y -> JS.Number s = Some z ->
  Geocoder.dms2dec d m s
  = Some (JS.sign_of x * (x + y / inject_Z 60 + z / inject_Z 3600))%Q.
Proof.
  intros Hd Hm Hs. unfold Geocoder.dms2dec. rewrite Hd, Hm, Hs. reflexivity.
Qed.

Lemma sign_of_nonneg (x : Q) :
  (0 <= x)%Q -> (JS.sign_of x * x == JS.sign_of x * Qabs x)%Q.
Proof.
  intros H. rewrite Qabs_pos by assumption. reflexivity.
Qed.

(** For degrees that are not negative the engine computes the formula of
    the specification. *)
Lemma dms2dec_nonneg (d m s : string) (x y z : Q) :
  JS.Number d = Some x -> JS.Number m = Some y -> JS.Number s = Some z ->
  (0 <= x)%Q ->
  exists v, Geocoder.dms2dec d m s = Some v /\ (v == Spec.dms x y z)%Q.
Proof.
  intros Hd Hm Hs Hx. eexists. split.
  - apply dms2dec_value; eassumption.
  - unfold Spec.dms. rewrite (Qabs_pos x) by assumption. reflexivity.
Qed.

(** For negative degrees it subtracts the minutes and seconds from the
    magnitude of the degrees, and the result is not negative. *)
Lemma dms2dec_negative (d m s : string) (x y z : Q) :
  JS.Number d = Some x -> JS.Number m = Some y -> JS.Number s = Some z ->
  (x < 0)%Q ->
  exists v, Geocoder.dms2dec d m s = Some v
            /\ (v == Qabs x - y / inject_Z 60 - z / inject_Z 3600)%Q.
Proof.
  intros Hd Hm Hs Hx. eexists. split.
  - apply dms2dec_value; eassumption.
  - unfold JS.sign_of.
    assert (Hc : (x ?= inject_Z 0)%Q = Lt) by (apply Qlt_alt; exact Hx).
    rewrite Hc. rewrite (Qabs_neg x) by (apply Qlt_le_weak; exact Hx).
    change (inject_Z (-1)) with (- (1))%Q. field.
Qed.

(** C3 (the code differs): with negative degrees the minutes and seconds
    move the value towards zero and the sign is lost.  The term
    ["-44 30 0 93 0 0"] gives the latitude 43.5, where the formula of the
    specification gives -44.5. *)
Theorem C3_dms2dec_negative_degrees :
  (exists v, Geocoder.dms2dec "-44" "30" "0" = Some v /\ (v == 87 # 2)%Q)
  /\ (Spec.dms (inject_Z (-44)) (inject_Z 30) (inject_Z 0) == - (89 # 2))%Q
  /\ Geocoder.parse_latlon ["-44"; "30"; "0"; "93"; "0"; "0"]
     = Some (Qmake 43500000 1000000, Qmake (-93000000) 1000000).
Proof.
  split; [|split].
  - eexists. split; [vm_compute; reflexivity|]. vm_compute. reflexivity.
  - vm_compute. reflexivity.
  - vm_compute. reflexivity.
Qed.

(** ** control.setOptions *)

(** C10 (amended): a call of [setOptions] with an object (an empty one, an
    array, one with unrecognised names only) or with a name and a value
    empties the cache and the suggestions and forgets the selection. *)
Theorem C10_setOptions_resets (args : Geocoder.arguments)
        (c : Geocoder.control) :
  Spec.takes_options args = true ->
  exists c', Geocoder.setOptions args c = Some c'
             /\ Geocoder._cache c' = ∅
             /\ Geocoder.getSuggestions c' = []
             /\ Geocoder.getSelected c' = None.
Proof.
  intros H. destruct args as [|v|name v]; simpl in H; try discriminate.
  - destruct v; try discriminate; eexists; (split; [reflexivity|]);
      repeat split; reflexivity.
  - eexists. split; [reflexivity|]. repeat split; reflexivity.
Qed.

(** Any other call changes nothing, apart from [setOptions(null)], which
    throws. *)
Lemma setOptions_refused (args : Geocoder.arguments) (c : Geocoder.control) :
  Spec.takes_options args = false ->
  args <> Geocoder.one_argument Geocoder.VNull ->
  Geocoder.setOptions args c = Some c.
Proof.
  intros H Hn. destruct args as [|v|name v]; simpl in H; try discriminate.
  - reflexivity.
  - destruct v; try discriminate; try reflexivity. congruence.
Qed.

(** ** The coordinate parser *)

Lemma mul_NaN_r (a : JS.num) : JS.mul a None = None.
Proof. destruct a; reflexivity. Qed.



Lemma dms2dec_NaN (d m s : string) :
  Spec.numeric d && Spec.numeric m && Spec.numeric s = false ->
  Geocoder.dms2dec d m s = None.
Proof.
  unfold Spec.numeric, Geocoder.dms2dec.
  destruct (JS.Number d), (JS.Number m), (JS.Number s);
    simpl; intros H; try discriminate; reflexivity.
Qed.

Lemma dms2dec_numeric (d m s : string) :
  Spec.numeric d && Spec.numeric m && Spec.numeric s = true ->
  exists v, Geocoder.dms2dec d m s = Some v.
Proof.
  unfold Spec.numeric, Geocoder.dms2dec.
  destruct (JS.Number d), (JS.Number m), (JS.Number s);
    simpl; intros H; try discriminate; eauto.
Qed.






Lemma floor_bounds (x : Q) :
  (inject_Z (Qfloor x) <= x)%Q /\ (x < inject_Z (Qfloor x) + 1)%Q.
Proof.
  split; [apply Qfloor_le|].
  change 1%Q with (inject_Z 1). rewrite <- inject_Z_plus. apply Qlt_floor.
Qed.

Lemma inject_Z_lt_le (a b : Z) :
  (inject_Z a < inject_Z b + 1)%Q -> (a <= b)%Z.
Proof.
  change 1%Q with (inject_Z 1). rewrite <- inject_Z_plus, <- Zlt_Qlt. lia.
Qed.

Lemma Qle_bool_false (x y : Q) : Qle_bool x y = false -> (y < x)%Q.
Proof.
  intros H. apply Qnot_le_lt. intros L. apply Qle_bool_iff in L.
  rewrite L in H. discriminate H.
Qed.


Lemma round_away_near (y : Q) :
  (Qabs (inject_Z (JS.round_away y) - y) <= 1 # 2)%Q.
Proof.
  unfold JS.round_away. destruct (Qle_bool (inject_Z 0) y) eqn:E.
  - pose proof (Qfloor_le (y + (1 # 2))) as H1.
    pose proof (Qlt_floor (y + (1 # 2))) as H2.
    rewrite inject_Z_plus in H2.
    change (inject_Z 1) with 1%Q in H2.
    apply Qabs_case; intros _; lra.
  - pose proof (Qfloor_le (- y + (1 # 2))) as H1.
    pose proof (Qlt_floor (- y + (1 # 2))) as H2.
    rewrite inject_Z_plus in H2.
    change (inject_Z 1) with 1%Q in H2.
    rewrite inject_Z_opp.
    apply Qabs_case; intros _; lra.
Qed.

Lemma roundCoord_rounds (x : Q) : Spec.rounds x (Geocoder.roundCoord x).
Proof.
  split.
  - eexists. reflexivity.
  - unfold Geocoder.roundCoord, JS.toFixed.
    change (Z.to_pos (10 ^ Z.of_nat Geocoder.nCoordDecimals))
      with 1000000%positive.
    change (inject_Z (10 ^ Z.of_nat Geocoder.nCoordDecimals))
      with (1000000 # 1)%Q.
    pose proof (round_away_near (x * (1000000 # 1))) as H.
    set (n := JS.round_away (x * (1000000 # 1))) in *. clearbody n.
    assert (Hq : (n # 1000000 == inject_Z n * (1 # 1000000))%Q).
    { unfold Qeq. simpl. lia. }
    rewrite Hq.
    apply Qabs_Qle_condition in H. apply Qabs_Qle_condition.
    destruct H as [H1 H2]. split; lra.
Qed.






(** ** The candidate validator *)

Lemma string_property_default (d : string) (raw : option string) :
  Geocoder.string_property (Some d) None None raw
  = (true, if Spec.blank raw then d else JS.trim (default "" raw)).
Proof.
  unfold Geocoder.string_property, Spec.blank.
  destruct (String.eqb (JS.trim (default "" raw)) ""); reflexivity.
Qed.

Lemma string_property_required (raw : option string) :
  Geocoder.string_property None None None raw
  = (negb (Spec.blank raw), JS.trim (default "" raw)).
Proof.
  unfold Geocoder.string_property, Spec.blank.
  destruct (String.eqb (JS.trim (default "" raw)) ""); reflexivity.
Qed.

Lemma string_property_checked (v : string -> bool) (f : string -> string)
      (raw : option string) :
  Geocoder.string_property (Some "") (Some v) (Some f) raw
  = (v (JS.trim (default "" raw)), f (JS.trim (default "" raw))).
Proof.
  unfold Geocoder.string_property.
  destruct (String.eqb (JS.trim (default "" raw)) "") eqn:E; [|reflexivity].
  apply String.eqb_eq in E. rewrite E. reflexivity.
Qed.

Lemma number_property_default (d : JS.num) (f : Q -> Q) (raw : JS.num) :
  Geocoder.number_property (Some d) None (Some f) raw
  = (true, JS.lift1 f (if JS.isNaN raw then d else raw)).
Proof. unfold Geocoder.number_property. destruct raw; reflexivity. Qed.

Lemma number_property_null (raw : JS.num) :
  Geocoder.number_property (Some None) None None raw = (true, raw).
Proof. unfold Geocoder.number_property. destruct raw; reflexivity. Qed.

Lemma number_property_required (v : JS.num -> bool) (f : Q -> Q)
      (raw : JS.num) :
  Geocoder.number_property None (Some v) (Some f) raw
  = (negb (JS.isNaN raw) && v raw, JS.lift1 f raw).
Proof. unfold Geocoder.number_property. destruct raw; reflexivity. Qed.

Lemma number_property_checked (d : JS.num) (v : JS.num -> bool) (f : Q -> Q)
      (raw : JS.num) :
  Geocoder.number_property (Some d) (Some v) (Some f) raw
  = (v (if JS.isNaN raw then d else raw),
     JS.lift1 f (if JS.isNaN raw then d else raw)).
Proof. unfold Geocoder.number_property. destruct raw; reflexivity. Qed.

Ltac getFeature_normal p :=
  unfold Geocoder.getFeature;
  let latMin := fresh "latMin" in
  let lonMin := fresh "lonMin" in
  let latMax := fresh "latMax" in
  let lonMax := fresh "lonMax" in
  destruct (Geocoder.bounds _) as [[[latMin lonMin] latMax] lonMax];
  cbv beta iota zeta;
  rewrite ?string_property_default, ?string_property_required,
    ?string_property_checked, ?number_property_default,
    ?number_property_null, ?number_property_required,
    ?number_property_checked;
  cbv beta iota zeta;
  fold (Spec.within (Geocoder.p_Latitude p) latMin latMax);
  fold (Spec.within (Geocoder.p_Longitude p) lonMin lonMax);
  fold (Spec.score_ok p).

Lemma is_Some_if {A : Type} (b : bool) (x : A) :
  is_Some (if b then Some x else None) <-> b = true.
Proof.
  destruct b; split; intros H; try discriminate H; eauto.
  destruct H as [? H]. discriminate H.
Qed.

Lemma within_NaN (lo hi : JS.num) : Spec.within None lo hi = false.
Proof. unfold Spec.within, JS.ge, JS.le. destruct lo; reflexivity. Qed.

Lemma getFeature_passes (c : Geocoder.control) (i : Geocoder.input)
      (p : Geocoder.record) :
  is_Some (Geocoder.getFeature c i p) <-> Spec.passes c i p = true.
Proof.
  unfold Spec.passes. getFeature_normal p. rewrite is_Some_if.
  assert (Hlat : negb (JS.isNaN (Geocoder.p_Latitude p))
                 && Spec.within (Geocoder.p_Latitude p) latMin latMax
                 = Spec.within (Geocoder.p_Latitude p) latMin latMax).
  { destruct (Geocoder.p_Latitude p); [reflexivity | rewrite within_NaN; reflexivity]. }
  assert (Hlon : negb (JS.isNaN (Geocoder.p_Longitude p))
                 && Spec.within (Geocoder.p_Longitude p) lonMin lonMax
                 = Spec.within (Geocoder.p_Longitude p) lonMin lonMax).
  { destruct (Geocoder.p_Longitude p); [reflexivity | rewrite within_NaN; reflexivity]. }
  rewrite Hlat, Hlon.
  destruct (Spec.blank (Geocoder.p_Type p)),
    (Spec.blank (Geocoder.p_Name p)), (Spec.blank (Geocoder.p_Source p)),
    (Spec.within (Geocoder.p_Latitude p) latMin latMax),
    (Spec.within (Geocoder.p_Longitude p) lonMin lonMax),
    (Spec.score_ok p),
    (Geocoder.state_allowed i
       (JS.trim (default "" (Geocoder.p_State p))));
    simpl; split; intros H; try discriminate H; reflexivity.
Qed.

Lemma round_keeps_minimum (s : Q) :
  (Geocoder.minScore <= s)%Q -> (Geocoder.minScore <= JS.round s)%Q.
Proof.
  unfold JS.round, Geocoder.minScore. intros H.
  rewrite <- Zle_Qle. rewrite <- (Qfloor_Z 80).
  apply Qfloor_resp_le.
  change (inject_Z 80) with (80 # 1)%Q in *. lra.
Qed.

Lemma blank_false (raw : option string) :
  Spec.blank raw = false -> JS.trim (default "" raw) <> "".
Proof. unfold Spec.blank. intros H. apply String.eqb_neq. exact H. Qed.

(** A record the validator returns as a feature passed its checks, and the
    feature holds the rounded numbers. *)
Lemma getFeature_validated (c : Geocoder.control) (i : Geocoder.input)
      (p : Geocoder.record) (f : Geocoder.feature) :
  Geocoder.getFeature c i p = Some f -> Spec.validated (Geocoder.bounds c) f.
Proof.
  unfold Spec.validated. getFeature_normal p.
  match goal with
  | |- (if ?b then _ else _) = _ -> _ => destruct b eqn:HB
  end; [|discriminate].
  intros [= <-]. cbn [Geocoder.feature_properties Geocoder.coordinates
    Geocoder.Latitude Geocoder.Longitude Geocoder.Score Geocoder.Type_
    Geocoder.Name Geocoder.Source].
  repeat match type of HB with
         | _ && _ = true =>
             let H := fresh "H" in apply andb_true_iff in HB as [HB H]
         end.
  repeat match goal with
         | H : negb _ = true |- _ => apply negb_true_iff in H
         end.
  split; [|split; [|split; [|split; [|split; [|split]]]]].
  - destruct (Geocoder.p_Latitude p) as [lat|];
      [|rewrite within_NaN in *; discriminate].
    exists lat. split; [assumption | reflexivity].
  - destruct (Geocoder.p_Longitude p) as [lon|];
      [|rewrite within_NaN in *; discriminate].
    exists lon. split; [assumption | reflexivity].
  - unfold Spec.score_ok in *.
    destruct (Geocoder.p_Score p) as [s|]; simpl in *.
    + exists (JS.round s). split; [|reflexivity].
      apply round_keeps_minimum. apply Qle_bool_iff. assumption.
    + eexists. split; [|reflexivity]. apply round_keeps_minimum.
      apply Qle_bool_iff. assumption.
  - apply blank_false. assumption.
  - apply blank_false. assumption.
  - apply blank_false. assumption.
  - reflexivity.
Qed.

(** C7 (amended): the validator rejects a record whose state is not an entry
    of the state list of the query, and the state of a record that has none
    is the empty text: such a record is rejected as soon as a state filter
    is active (unless the list has an empty entry); without a state filter
    the state of a record plays no part. *)
Theorem C7_state_rule (c : Geocoder.control) (i : Geocoder.input)
        (p : Geocoder.record) :
  (forall s, Geocoder.p_State p = Some s ->
             Geocoder.state_allowed i (JS.trim s) = false ->
             Geocoder.getFeature c i p = None)
  /\ (forall l, Spec.blank (Geocoder.p_State p) = true ->
                Geocoder.states i = Some l ->
                JS.includes (JS.split "," l) "" = false ->
                Geocoder.getFeature c i p = None)
  /\ (forall s, Geocoder.states i = None ->
                is_Some (Geocoder.getFeature c i p)
                <-> is_Some (Geocoder.getFeature c i (Spec.set_p_State s p))).
Proof.
  split; [|split].
  - intros s Hs Hno.
    destruct (Geocoder.getFeature c i p) eqn:E; [|reflexivity].
    assert (H : is_Some (Geocoder.getFeature c i p)) by (rewrite E; eauto).
    apply getFeature_passes in H. unfold Spec.passes in H.
    destruct (Geocoder.bounds c) as [[[? ?] ?] ?].
    rewrite Hs in H. simpl default in H. rewrite Hno in H.
    rewrite andb_false_r in H. discriminate H.
  - intros l Hb Hl Hno.
    destruct (Geocoder.getFeature c i p) eqn:E; [|reflexivity].
    assert (H : is_Some (Geocoder.getFeature c i p)) by (rewrite E; eauto).
    apply getFeature_passes in H. unfold Spec.passes in H.
    destruct (Geocoder.bounds c) as [[[? ?] ?] ?].
    unfold Spec.blank in Hb. apply String.eqb_eq in Hb. rewrite Hb in H.
    unfold Geocoder.state_allowed in H. rewrite Hl, Hno in H.
    destruct (String.eqb_spec l "") as [->|_]; [discriminate Hno|].
    rewrite andb_false_r in H. discriminate H.
  - intros s Hno. rewrite !getFeature_passes. unfold Spec.passes.
    destruct (Geocoder.bounds c) as [[[? ?] ?] ?].
    unfold Geocoder.state_allowed, Spec.score_ok. rewrite Hno. simpl.
    reflexivity.
Qed.

(** The rule at work under the state filter ["tx"]: a record of Oklahoma
    and a record without a state are rejected. *)
Lemma C7_state_rule_examples :
  Geocoder.getFeature Sample.texas (Sample.austin_query Sample.texas)
    (Spec.set_p_State (Some "OK") Sample.austin) = None
  /\ Geocoder.getFeature Sample.texas (Sample.austin_query Sample.texas)
       (Spec.set_p_State None Sample.austin) = None
  /\ (is_Some (Geocoder.getFeature Sample.plain
                 (Sample.austin_query Sample.plain) Sample.austin)
      <-> is_Some (Geocoder.getFeature Sample.plain
                     (Sample.austin_query Sample.plain)
                     (Spec.set_p_State None Sample.austin))).
Proof.
  split; [|split].
  - apply (proj1 (C7_state_rule Sample.texas
                    (Sample.austin_query Sample.texas) _) "OK");
      vm_compute; reflexivity.
  - apply (proj1 (proj2 (C7_state_rule Sample.texas
                    (Sample.austin_query Sample.texas) _)) "TX");
      vm_compute; reflexivity.
  - apply (proj2 (proj2 (C7_state_rule Sample.plain
                    (Sample.austin_query Sample.plain) Sample.austin)) None).
    vm_compute. reflexivity.
Defined.

(** C7 (as stated, refuted): under the state filter ["tx"] the record of
    Austin passes with its state and is rejected without it, so it is
    rejected for the absence of its state alone. *)
Lemma C7_absent_state_rejected :
  Geocoder.states (Sample.austin_query Sample.texas) = Some "TX"
  /\ is_Some (Geocoder.getFeature Sample.texas
                (Sample.austin_query Sample.texas) Sample.austin)
  /\ Geocoder.getFeature Sample.texas (Sample.austin_query Sample.texas)
       (Spec.set_p_State None Sample.austin) = None.
Proof.
  split; [|split].
  - vm_compute. reflexivity.
  - vm_compute. eexists. reflexivity.
  - vm_compute. reflexivity.
Qed.

(** *** When the coordinate candidate passes *)

Lemma trim_start_last (l : list ascii) (c : ascii) :
  JS.is_space c = false -> JS.trim_start (l ++ [c])%list <> [].
Proof.
  intros Hc. induction l as [|d l IH]; cbn [app JS.trim_start].
  - rewrite Hc. discriminate.
  - destruct (JS.is_space d); [exact IH | discriminate].
Qed.

Lemma trim_chars_first (c : ascii) (l : list ascii) :
  JS.is_space c = false -> JS.trim_chars (c :: l) <> [].
Proof.
  intros Hc. unfold JS.trim_chars, JS.trim_end. cbn [JS.trim_start].
  rewrite Hc. cbn [rev]. intros E.
  apply (f_equal (@rev ascii)) in E. rewrite rev_involutive in E.
  exact (trim_start_last _ _ Hc E).
Qed.

Lemma blank_text (c : ascii) (s : string) :
  JS.is_space c = false -> Spec.blank (Some (String c s)) = false.
Proof.
  intros Hc. unfold Spec.blank. apply String.eqb_neq.
  unfold JS.trim. cbn [default from_option JS.chars list_ascii_of_string].
  intros E. apply (f_equal JS.chars) in E. rewrite chars_str in E.
  exact (trim_chars_first _ _ Hc E).
Qed.

(** The candidate made from a coordinate passes the validator exactly when
    the coordinate is within the bounds and the empty state is allowed,
    that is, when no state filter is active. *)
Lemma latlon_record_passes (c : Geocoder.control) (i : Geocoder.input)
      (ll : Q * Q) :
  Spec.passes c i (Geocoder.latlon_record ll)
  = let '(latMin, lonMin, latMax, lonMax) := Geocoder.bounds c in
    Spec.within (Some ll.1) latMin latMax
    && Spec.within (Some ll.2) lonMin lonMax
    && Geocoder.state_allowed i "".
Proof.
  unfold Spec.passes. destruct (Geocoder.bounds c) as [[[? ?] ?] ?].
  unfold Geocoder.latlon_record.
  cbn [Geocoder.p_Type Geocoder.p_Name Geocoder.p_Source Geocoder.p_Latitude
       Geocoder.p_Longitude Geocoder.p_State].
  rewrite (blank_text "L" _ eq_refl), (blank_text "l" _ eq_refl).
  change ("Coordinate (" ++ ?x) with (String "C" ("oordinate (" ++ x)).
  rewrite (blank_text "C" _ eq_refl).
  unfold Spec.score_ok. cbn [Geocoder.p_Score JS.isNaN].
  change (JS.ge (JS.of_Z 100) (Some Geocoder.minScore)) with true.
  change (JS.trim (default "" None)) with "".
  cbn [negb andb]. rewrite andb_true_r. reflexivity.
Qed.

(** ** The request cycle *)

Section Cycle.

Variable innerHTML_length : Geocoder.value -> string -> list Geocoder.feature -> nat.
Variable sort : list Geocoder.feature -> list Geocoder.feature.

Local Abbreviation _updateMenu := (Geocoder._updateMenu innerHTML_length).
Local Abbreviation endLocate := (Geocoder.endLocate innerHTML_length).
Local Abbreviation _locate := (Geocoder._locate innerHTML_length).
Local Abbreviation primary_settled := (Geocoder.primary_settled innerHTML_length).
Local Abbreviation secondary_settled := (Geocoder.secondary_settled innerHTML_length sort).
Local Abbreviation handle := (Geocoder.handle innerHTML_length sort).
Local Abbreviation run := (Geocoder.run innerHTML_length sort).

Lemma trigger_fields (cb : Geocoder.callback) (c : Geocoder.control) :
  Geocoder.options (Geocoder.trigger cb c) = Geocoder.options c
  /\ Geocoder._cache (Geocoder.trigger cb c) = Geocoder._cache c
  /\ Geocoder._suggestions (Geocoder.trigger cb c) = Geocoder._suggestions c
  /\ Geocoder._selected (Geocoder.trigger cb c) = Geocoder._selected c
  /\ Geocoder._element (Geocoder.trigger cb c) = Geocoder._element c
  /\ Geocoder.controllers (Geocoder.trigger cb c) = Geocoder.controllers c.
Proof.
  unfold Geocoder.trigger.
  destruct (Geocoder.is_function _); repeat split; reflexivity.
Qed.

(** [_updateMenu] leaves the options, the cache, the selection and the
    controllers alone; the suggestions stay or are emptied. *)
Lemma updateMenu_fields (t : option string) (c : Geocoder.control) :
  Geocoder.options (_updateMenu t c) = Geocoder.options c
  /\ Geocoder._cache (_updateMenu t c) = Geocoder._cache c
  /\ Geocoder._selected (_updateMenu t c) = Geocoder._selected c
  /\ Geocoder.controllers (_updateMenu t c) = Geocoder.controllers c
  /\ (Geocoder._suggestions (_updateMenu t c) = Geocoder._suggestions c
      \/ Geocoder._suggestions (_updateMenu t c) = []).
Proof.
  unfold Geocoder._updateMenu.
  destruct (_ || _ || _ || _).
  - cbn [Geocoder.contentLength Geocoder.set_element
           Geocoder.set_suggestions].
    destruct (Geocoder.contentLength c) as [[|n0]|];
      cbn; try (repeat split; auto; fail).
    match goal with
    | |- context [Geocoder.trigger ?cb ?c'] =>
        destruct (trigger_fields cb c') as (H1 & H2 & H3 & H4 & H5 & H6)
    end.
    rewrite H1, H2, H3, H4, H6. cbn. repeat split; auto.
  - destruct (bool_decide _); cbn; try (repeat split; auto; fail).
    match goal with
    | |- context [Geocoder.trigger ?cb ?c'] =>
        destruct (trigger_fields cb c') as (H1 & H2 & H3 & H4 & H5 & H6)
    end.
    rewrite H1, H2, H3, H4, H6. cbn. repeat split; auto.
Qed.

(** With a term, suggestions, and a visible and enabled control, the menu
    shows the suggestions it was given. *)
Lemma updateMenu_shows (t : string) (c : Geocoder.control) :
  t <> "" -> Geocoder._suggestions c <> [] ->
  Geocoder.visible c = true -> Geocoder.enable c = true ->
  Geocoder._suggestions (_updateMenu (Some t) c) = Geocoder._suggestions c.
Proof.
  intros Ht Hs Hv He. unfold Geocoder._updateMenu.
  simpl default. apply String.eqb_neq in Ht. rewrite Ht, Hv, He.
  destruct (Geocoder._suggestions c) eqn:E; [contradiction|].
  cbn [List.length Nat.eqb orb negb].
  destruct (bool_decide _); cbn.
  - assumption.
  - destruct (trigger_fields Geocoder.onSuggest
      (Geocoder.set_element
         (Geocoder.set_menu (Some true) true (Geocoder._element c)) c))
      as (_ & _ & H3 & _).
    rewrite H3. cbn. assumption.
Qed.

Lemma aborted_set_element (k : nat) (e : Geocoder.element)
      (c : Geocoder.control) :
  Geocoder.aborted k (Geocoder.set_element e c) = Geocoder.aborted k c.
Proof. reflexivity. Qed.

(** The end of an aborted cycle clears the busy mark and nothing else. *)
Lemma endLocate_aborted (cyc : Geocoder.cycle) (cache : bool)
      (c : Geocoder.control) :
  Geocoder.aborted (Geocoder.cycle_controller cyc) c = true ->
  endLocate cyc cache c
  = Geocoder.set_element (Geocoder.set_busy false (Geocoder._element c)) c.
Proof.
  intros H. unfold Geocoder.endLocate. rewrite aborted_set_element, H.
  reflexivity.
Qed.

(** The end of a cycle that was not aborted writes the cache when asked
    to, and only then. *)
Lemma endLocate_cache (cyc : Geocoder.cycle) (cache : bool)
      (c : Geocoder.control) :
  Geocoder.aborted (Geocoder.cycle_controller cyc) c = false ->
  Geocoder._cache (endLocate cyc cache c)
  = if cache
    then <[Geocoder.cacheKey (Geocoder.cycle_input cyc)
           := Geocoder._suggestions c]> (Geocoder._cache c)
    else Geocoder._cache c.
Proof.
  intros H. unfold Geocoder.endLocate. rewrite aborted_set_element, H.
  match goal with
  | |- Geocoder._cache (Geocoder._updateMenu _ ?t ?c') = _ =>
      destruct (updateMenu_fields t c') as (_ & -> & _)
  end.
  destruct cache; reflexivity.
Qed.

(** A controller that has aborted stays aborted, whatever happens. *)
Lemma aborted_insert (k j : nat) (l : list bool) :
  default false (l !! k) = true ->
  default false (<[j := true]> l !! k) = true.
Proof.
  intros H. destruct (decide (j = k)) as [->|Hne].
  - destruct (l !! k) eqn:E; [|discriminate H].
    rewrite list_lookup_insert_eq; [reflexivity|].
    apply lookup_lt_Some in E. exact E.
  - rewrite list_lookup_insert_ne by assumption. exact H.
Qed.

Lemma aborted_app (k : nat) (l l' : list bool) :
  default false (l !! k) = true -> default false ((l ++ l')%list !! k) = true.
Proof.
  intros H. destruct (l !! k) eqn:E; [|discriminate H].
  rewrite (lookup_app_l_Some _ _ _ _ E). exact H.
Qed.

Lemma endLocate_controllers (cyc : Geocoder.cycle) (cache : bool)
      (c : Geocoder.control) :
  Geocoder.controllers (endLocate cyc cache c) = Geocoder.controllers c.
Proof.
  unfold Geocoder.endLocate. rewrite aborted_set_element.
  destruct (Geocoder.aborted _ c); [reflexivity|].
  match goal with
  | |- Geocoder.controllers (Geocoder._updateMenu _ ?t ?c') = _ =>
      destruct (updateMenu_fields t c') as (_ & _ & _ & -> & _)
  end.
  destruct cache; reflexivity.
Qed.

Lemma aborted_stable (k : nat) (e : Geocoder.event) (c : Geocoder.control) :
  Geocoder.aborted k c = true -> Geocoder.aborted k (handle e c) = true.
Proof.
  unfold Geocoder.aborted. intros H.
  destruct e as [text|cyc r|cyc r|j| |index|args|show|on]; cbn [Geocoder.handle].
  - unfold Geocoder._locate.
    repeat match goal with
           | |- context [if ?b then _ else _] => destruct b
           | |- context [match ?x with Some _ => _ | None => _ end] =>
               destruct x
           end; cbn [fst];
      try (match goal with
           | |- context [Geocoder._updateMenu _ ?t ?c'] =>
               destruct (updateMenu_fields t c') as (_ & _ & _ & -> & _)
           end; exact H).
    cbn. apply aborted_app. apply aborted_insert. exact H.
  - unfold Geocoder.primary_settled.
    destruct r as [| | |[|p json]];
      repeat match goal with
             | |- context [if ?b then _ else _] => destruct b
             end; cbn [fst]; rewrite ?endLocate_controllers; exact H.
  - unfold Geocoder.secondary_settled.
    destruct r as [| |[|a l]];
      repeat match goal with
             | |- context [match ?x with Some _ => _ | None => _ end] =>
                 destruct x
             end; rewrite ?endLocate_controllers; exact H.
  - cbn. apply aborted_insert. exact H.
  - destruct (updateMenu_fields None c) as (_ & _ & _ & -> & _). exact H.
  - match goal with
    | |- context [Geocoder.trigger ?cb ?c'] =>
        destruct (trigger_fields cb c') as (_ & _ & _ & _ & _ & ->)
    end. exact H.
  - unfold Geocoder.setOptions.
    destruct args as [|[]|]; cbn; exact H.
  - exact H.
  - exact H.
Qed.

(** C6: when the controller of a cycle has aborted, the callbacks of its
    requests write nothing to the cache, run no [onSuggest] callback and
    leave the menu as it is, whatever the services answer; no request to
    the secondary service is made; and the controller stays aborted, so
    this holds at any later time. *)
Theorem C6_aborted_cycle_is_silent (cyc : Geocoder.cycle)
        (c : Geocoder.control) :
  Geocoder.aborted (Geocoder.cycle_controller cyc) c = true ->
  (forall r, Spec.silent c (primary_settled cyc r c).1
             /\ (primary_settled cyc r c).2 = false)
  /\ (forall r, Spec.silent c (secondary_settled cyc r c))
  /\ (forall events,
        Geocoder.aborted (Geocoder.cycle_controller cyc) (run events c)
        = true).
Proof.
  intros H. split; [|split].
  - intros r. unfold Geocoder.primary_settled.
    destruct r as [| | |[|p json]]; rewrite ?H; cbn [orb fst snd];
      rewrite endLocate_aborted by exact H;
      (split; [repeat split|reflexivity]).
  - intros r. unfold Geocoder.secondary_settled.
    destruct r as [| |[|a l]];
      try destruct (Geocoder.collect _ _ _ _);
      rewrite endLocate_aborted by exact H; repeat split.
  - intros events. revert c H.
    induction events as [|e events IH]; intros c H; [exact H|].
    cbn. apply IH. apply aborted_stable. exact H.
Qed.


Lemma locate_cache (c : Geocoder.control) :
  Geocoder._cache (_locate c).1 = Geocoder._cache c.
Proof.
  unfold Geocoder._locate.
  repeat match goal with
         | |- context [if ?b then _ else _] => destruct b
         | |- context [match ?x with Some _ => _ | None => _ end] =>
             destruct x
         end; cbn [fst];
    try (match goal with
         | |- context [Geocoder._updateMenu _ ?t ?c'] =>
             destruct (updateMenu_fields t c') as (_ & -> & _)
         end); reflexivity.
Qed.

Lemma secondary_settled_collected (cyc : Geocoder.cycle)
      (r : Geocoder.secondary_response) (c : Geocoder.control) :
  secondary_settled cyc r c
  = match Spec.collected c (Geocoder.cycle_input cyc) r with
    | Some features =>
        endLocate cyc true (Geocoder.set_suggestions (sort features) c)
    | None => endLocate cyc false c
    end.
Proof. destruct r as [| |[|a l]]; reflexivity. Qed.

(** Without a cache write the end of a cycle leaves the suggestions as
    they are or empties them. *)
Lemma endLocate_suggestions (cyc : Geocoder.cycle) (c : Geocoder.control) :
  Geocoder._suggestions (endLocate cyc false c) = Geocoder._suggestions c
  \/ Geocoder._suggestions (endLocate cyc false c) = [].
Proof.
  unfold Geocoder.endLocate. rewrite aborted_set_element.
  destruct (Geocoder.aborted _ c); [left; reflexivity|].
  match goal with
  | |- context [Geocoder._updateMenu _ ?t ?c'] =>
      destruct (updateMenu_fields t c') as (_ & _ & _ & _ & [E|E]);
        rewrite E
  end; [left; reflexivity | right; reflexivity].
Qed.

Lemma endLocate_no_suggestions (cyc : Geocoder.cycle) (cache : bool)
      (c : Geocoder.control) :
  Geocoder._suggestions c = [] ->
  Geocoder._suggestions (endLocate cyc cache c) = [].
Proof.
  intros H. unfold Geocoder.endLocate. rewrite aborted_set_element.
  destruct (Geocoder.aborted _ c); [exact H|].
  match goal with
  | |- Geocoder._suggestions (Geocoder._updateMenu _ ?t ?c') = _ =>
      destruct (updateMenu_fields t c') as (_ & _ & _ & _ & [E|E]);
        rewrite E
  end; [|reflexivity].
  destruct cache; exact H.
Qed.

(** What is known of the control when [_locate] has started a cycle: the
    controller of the cycle has not aborted, the suggestions are empty and
    the options are as they were. *)
Lemma locate_cycle (c : Geocoder.control) (cyc : Geocoder.cycle) :
  (_locate c).2 = Some cyc ->
  Geocoder.aborted (Geocoder.cycle_controller cyc) (_locate c).1 = false
  /\ Geocoder._suggestions (_locate c).1 = []
  /\ Geocoder.options (_locate c).1 = Geocoder.options c.
Proof.
  unfold Geocoder._locate.
  destruct (JS.lt _ _); [discriminate|].
  destruct (Geocoder._cache c !! _); [discriminate|].
  destruct (Geocoder.latlon _ ≫= _); [discriminate|].
  cbn [fst snd]. intros H. apply (inj Some) in H. subst cyc.
  split; [|split; reflexivity].
  unfold Geocoder.aborted, Geocoder.abort.
  cbn [Geocoder.cycle_controller Geocoder.controllers
       Geocoder.set_controllers Geocoder.set_suggestions
       Geocoder.set_element].
  rewrite lookup_app_r by lia. rewrite Nat.sub_diag. reflexivity.
Qed.

Lemma gnis_included_options (c c' : Geocoder.control) :
  Geocoder.options c' = Geocoder.options c ->
  Geocoder.gnis_included c' = Geocoder.gnis_included c.
Proof.
  intros H. unfold Geocoder.gnis_included, Geocoder.option_string,
    Geocoder.option_value. rewrite H. reflexivity.
Qed.

(** C1 (amended): a cycle that was not aborted writes the cache under the
    key of its query when it ends with success, and only then.  The
    primary service answered a non-empty array: the validated features are
    cached, even when none is left.  The secondary service answered
    candidates: the features collected from them are cached, sorted, even
    when none is left.  In every other case the cache is not written: the
    primary service answered nothing and GNIS places are not included (no
    request to the secondary service is made, the suggestions are left as
    they are or emptied), the secondary service answered nothing or
    failed, or [_locate] ended before any request.  When the empty answer
    of the primary service meets the control as [_locate] left it, with
    GNIS places not included, the cycle ends with no suggestions and the
    cache as it was before the query. *)
Theorem C1_cache_written_on_success (cyc : Geocoder.cycle)
        (c : Geocoder.control) :
  Geocoder.aborted (Geocoder.cycle_controller cyc) c = false ->
  (forall r,
      Spec.records r <> [] ->
      Geocoder._cache (primary_settled cyc r c).1
      = <[Geocoder.cacheKey (Geocoder.cycle_input cyc)
          := omap (Geocoder.getFeature c (Geocoder.cycle_input cyc))
                  (Spec.records r)]> (Geocoder._cache c)
      /\ (primary_settled cyc r c).2 = false)
  /\ (forall r,
        Spec.records r = [] -> Geocoder.gnis_included c = false ->
        Geocoder._cache (primary_settled cyc r c).1 = Geocoder._cache c
        /\ (primary_settled cyc r c).2 = false
        /\ (Geocoder._suggestions (primary_settled cyc r c).1
            = Geocoder._suggestions c
            \/ Geocoder._suggestions (primary_settled cyc r c).1 = []))
  /\ (forall r,
        Spec.records r = [] -> Geocoder.gnis_included c = true ->
        primary_settled cyc r c = (c, true))
  /\ (forall r features,
        Spec.collected c (Geocoder.cycle_input cyc) r = Some features ->
        Geocoder._cache (secondary_settled cyc r c)
        = <[Geocoder.cacheKey (Geocoder.cycle_input cyc) := sort features]>
            (Geocoder._cache c))
  /\ (forall r,
        Spec.collected c (Geocoder.cycle_input cyc) r = None ->
        Geocoder._cache (secondary_settled cyc r c) = Geocoder._cache c)
  /\ (forall c0, Geocoder._cache (_locate c0).1 = Geocoder._cache c0)
  /\ (forall c0 cyc0 r,
        (_locate c0).2 = Some cyc0 ->
        Spec.records r = [] -> Geocoder.gnis_included c0 = false ->
        Geocoder._suggestions (primary_settled cyc0 r (_locate c0).1).1 = []
        /\ Geocoder._cache (primary_settled cyc0 r (_locate c0).1).1
           = Geocoder._cache c0
        /\ (primary_settled cyc0 r (_locate c0).1).2 = false).
Proof.
  intros H. split; [|split; [|split; [|split; [|split; [|split]]]]].
  - intros r Hr. destruct r as [| | |[|p json]]; try contradiction.
    cbn [Geocoder.primary_settled fst snd Spec.records].
    rewrite endLocate_cache by exact H. split; reflexivity.
  - intros r Hr Hg.
    assert (E : primary_settled cyc r c = (endLocate cyc false c, false)).
    { destruct r as [| | |[|p json]]; try discriminate Hr;
        cbn [Geocoder.primary_settled]; rewrite H, Hg; reflexivity. }
    rewrite E. cbn [fst snd]. rewrite endLocate_cache by exact H.
    split; [reflexivity|]. split; [reflexivity|].
    apply endLocate_suggestions.
  - intros r Hr Hg.
    destruct r as [| | |[|p json]]; try discriminate Hr;
      cbn [Geocoder.primary_settled]; rewrite H, Hg; reflexivity.
  - intros r features Hc. rewrite secondary_settled_collected, Hc.
    rewrite endLocate_cache by exact H. reflexivity.
  - intros r Hc. rewrite secondary_settled_collected, Hc.
    rewrite endLocate_cache by exact H. reflexivity.
  - apply locate_cache.
  - intros c0 cyc0 r Hc Hr Hg.
    destruct (locate_cycle c0 cyc0 Hc) as (Ha & Hs & Ho).
    rewrite <- (gnis_included_options _ _ Ho) in Hg.
    assert (E : primary_settled cyc0 r (_locate c0).1
                = (endLocate cyc0 false (_locate c0).1, false)).
    { destruct r as [| | |[|p json]]; try discriminate Hr;
        cbn [Geocoder.primary_settled]; rewrite Ha, Hg; reflexivity. }
    rewrite E. cbn [fst snd]. rewrite endLocate_cache by exact Ha.
    split; [apply endLocate_no_suggestions; exact Hs|].
    split; [apply locate_cache | reflexivity].
Qed.

(** *** Coordinates *)

Lemma latlon_feature (c : Geocoder.control) (i : Geocoder.input)
      (ll : Q * Q) (f : Geocoder.feature) :
  Geocoder.getFeature c i (Geocoder.latlon_record ll) = Some f ->
  Geocoder.Source (Geocoder.feature_properties f) = "latlon"
  /\ Geocoder.Type_ (Geocoder.feature_properties f)
     = "Latitude-Longitude Coordinate"
  /\ Geocoder.Latitude (Geocoder.feature_properties f)
     = Some (Geocoder.roundCoord ll.1)
  /\ Geocoder.Longitude (Geocoder.feature_properties f)
     = Some (Geocoder.roundCoord ll.2).
Proof.
  getFeature_normal (Geocoder.latlon_record ll).
  match goal with
  | |- (if ?b then _ else _) = _ -> _ => destruct b
  end; [|discriminate].
  intros H. apply (inj Some) in H. rewrite <- H. repeat split.
Qed.

(** C5 (amended): when the text has enough characters, the key of the
    query is not in the cache, the term parses as a coordinate and the
    validator accepts the candidate made from it, [_locate] sets that one
    candidate, whose source is ["latlon"], as the suggestions, updates the
    menu and ends: no request is made and no controller is touched. *)
Theorem C5_coordinate_bypasses_services (c : Geocoder.control) (ll : Q * Q)
        (f : Geocoder.feature) :
  JS.lt (JS.of_Z (Z.of_nat (String.length (JS.trim (Geocoder.get_value c)))))
        (Geocoder.option_number c "minCharacters") = false ->
  Geocoder._cache c !! Geocoder.cacheKey (Geocoder.parseInput c) = None ->
  Geocoder.latlon (Geocoder.parseInput c) = Some ll ->
  Geocoder.getFeature c (Geocoder.parseInput c) (Geocoder.latlon_record ll)
  = Some f ->
  _locate c
  = (_updateMenu (Some (Geocoder.term (Geocoder.parseInput c)))
       (Geocoder.set_suggestions [f] c), None)
  /\ Geocoder.Source (Geocoder.feature_properties f) = "latlon"
  /\ Geocoder.Latitude (Geocoder.feature_properties f)
     = Some (Geocoder.roundCoord ll.1)
  /\ Geocoder.Longitude (Geocoder.feature_properties f)
     = Some (Geocoder.roundCoord ll.2)
  /\ Geocoder.controllers (_locate c).1 = Geocoder.controllers c
  /\ (Geocoder.visible c = true -> Geocoder.enable c = true ->
      Geocoder.term (Geocoder.parseInput c) <> "" ->
      Geocoder._suggestions (_locate c).1 = [f]).
Proof.
  intros Hmin Hcache Hll Hf.
  assert (E : _locate c
              = (_updateMenu (Some (Geocoder.term (Geocoder.parseInput c)))
                   (Geocoder.set_suggestions [f] c), None)).
  { unfold Geocoder._locate. rewrite Hmin, Hcache, Hll. cbn [mbind option_bind].
    rewrite Hf. reflexivity. }
  destruct (latlon_feature _ _ _ _ Hf) as (Hs & _ & Hlat & Hlon).
  rewrite E. cbn [fst].
  split; [reflexivity|]. split; [exact Hs|]. split; [exact Hlat|].
  split; [exact Hlon|]. split.
  - match goal with
    | |- Geocoder.controllers (Geocoder._updateMenu _ ?t ?c') = _ =>
        destruct (updateMenu_fields t c') as (_ & _ & _ & -> & _)
    end. reflexivity.
  - intros Hv He Ht. rewrite updateMenu_shows; try assumption; try reflexivity.
    discriminate.
Qed.


(** *** Surfaced candidates *)

Hypothesis sort_permutation : forall l, Permutation (sort l) l.

Lemma bounds_options (c c' : Geocoder.control) :
  Geocoder.options c' = Geocoder.options c ->
  Geocoder.bounds c' = Geocoder.bounds c.
Proof.
  intros H. unfold Geocoder.bounds, Geocoder.option_value. rewrite H.
  reflexivity.
Qed.

Lemma all_validated_intro (c c' : Geocoder.control) :
  Geocoder.options c' = Geocoder.options c ->
  Forall (Spec.validated (Geocoder.bounds c)) (Geocoder._suggestions c') ->
  map_Forall (fun _ l => Forall (Spec.validated (Geocoder.bounds c)) l)
             (Geocoder._cache c') ->
  Spec.all_validated c'.
Proof.
  intros Ho Hs Hc. unfold Spec.all_validated.
  rewrite (bounds_options _ _ Ho). split; assumption.
Qed.

Lemma all_validated_updateMenu (t : option string) (c : Geocoder.control) :
  Spec.all_validated c -> Spec.all_validated (_updateMenu t c).
Proof.
  intros [Hs Hc].
  destruct (updateMenu_fields t c) as (Ho & Hca & _ & _ & Hsu).
  apply (all_validated_intro c); [exact Ho| |rewrite Hca; exact Hc].
  destruct Hsu as [E|E]; rewrite E; [exact Hs | constructor].
Qed.

Lemma all_validated_suggestions (l : list Geocoder.feature)
      (c : Geocoder.control) :
  Spec.all_validated c ->
  Forall (Spec.validated (Geocoder.bounds c)) l ->
  Spec.all_validated (Geocoder.set_suggestions l c).
Proof.
  intros [Hs Hc] Hl.
  apply (all_validated_intro c); [reflexivity | exact Hl | exact Hc].
Qed.

Lemma all_validated_element (e : Geocoder.element) (c : Geocoder.control) :
  Spec.all_validated c -> Spec.all_validated (Geocoder.set_element e c).
Proof.
  intros [Hs Hc].
  apply (all_validated_intro c); [reflexivity | exact Hs | exact Hc].
Qed.

Lemma all_validated_endLocate (cyc : Geocoder.cycle) (cache : bool)
      (c : Geocoder.control) :
  Spec.all_validated c -> Spec.all_validated (endLocate cyc cache c).
Proof.
  intros H. unfold Geocoder.endLocate.
  destruct (Geocoder.aborted _ _); [apply all_validated_element; exact H|].
  apply all_validated_updateMenu.
  destruct cache; [|apply all_validated_element; exact H].
  destruct H as [Hs Hc].
  apply (all_validated_intro c); [reflexivity | exact Hs |].
  apply map_Forall_insert_2; [exact Hs | exact Hc].
Qed.

Lemma omap_getFeature_validated (c : Geocoder.control) (i : Geocoder.input)
      (json : list Geocoder.record) :
  Forall (Spec.validated (Geocoder.bounds c))
         (omap (Geocoder.getFeature c i) json).
Proof.
  induction json as [|p json IH]; [constructor|].
  cbn [omap list_omap]. destruct (Geocoder.getFeature c i p) eqn:E;
    [|exact IH].
  constructor; [|exact IH]. apply (getFeature_validated c i p). exact E.
Qed.

Lemma collect_validated (c : Geocoder.control) (i : Geocoder.input)
      (l : list Geocoder.candidate) :
  forall acc features,
    Forall (Spec.validated (Geocoder.bounds c)) acc ->
    Geocoder.collect c i acc l = Some features ->
    Forall (Spec.validated (Geocoder.bounds c)) features.
Proof.
  induction l as [|a l IH]; intros acc features Hacc H;
    cbn [Geocoder.collect] in H.
  - injection H as <-. exact Hacc.
  - destruct (String.eqb _ "Country"); [eapply IH; eassumption|].
    destruct (String.eqb _ ""); [eapply IH; eassumption|].
    destruct (Geocoder.a_Loc_name a) as [loc|]; [|discriminate H].
    destruct (Geocoder.getFeature c i _) as [f|] eqn:E;
      [|eapply IH; eassumption].
    destruct (existsb _ acc); [eapply IH; eassumption|].
    eapply IH; [|exact H].
    apply Forall_app. split; [exact Hacc|].
    constructor; [|constructor].
    apply (getFeature_validated c i _ f E).
Qed.

Lemma all_validated_setOptions (args : Geocoder.arguments)
      (c : Geocoder.control) :
  Spec.all_validated c ->
  Spec.all_validated (default c (Geocoder.setOptions args c)).
Proof.
  intros H. unfold Geocoder.setOptions.
  destruct (negb (Geocoder.is_object _)); [exact H|].
  match goal with
  | |- context [match ?v with Geocoder.VNull => None | _ => _ end] =>
      destruct v
  end; try exact H; cbn [default from_option];
    (split; [constructor | apply map_Forall_empty]).
Qed.

(** Every event keeps the suggestions and the cache validated. *)
Lemma all_validated_handle (e : Geocoder.event) (c : Geocoder.control) :
  Spec.all_validated c -> Spec.all_validated (handle e c).
Proof.
  intros H.
  destruct e as [text|cyc r|cyc r|j| |index|args|show|on];
    cbn [Geocoder.handle].
  - set (c1 := Geocoder.set_element _ c).
    assert (H1 : Spec.all_validated c1)
      by (apply all_validated_element; exact H).
    clearbody c1. clear H c. unfold Geocoder._locate.
    destruct (JS.lt _ _); [apply all_validated_updateMenu; exact H1|].
    destruct (Geocoder._cache c1 !! _) as [features|] eqn:Ec.
    { cbn [fst]. apply all_validated_updateMenu.
      apply all_validated_suggestions; [exact H1|].
      destruct H1 as [_ Hc]. exact (Hc _ _ Ec). }
    destruct (Geocoder.latlon _ ≫= _) as [f|] eqn:Ef; cbn [fst].
    { apply all_validated_updateMenu.
      apply all_validated_suggestions; [exact H1|].
      constructor; [|constructor].
      destruct (Geocoder.latlon (Geocoder.parseInput c1)) as [ll|];
        [|discriminate Ef].
      cbn [mbind option_bind] in Ef.
      apply (getFeature_validated c1 _ _ f Ef). }
    destruct H1 as [Hs Hc].
    apply (all_validated_intro c1); [reflexivity | constructor | exact Hc].
  - unfold Geocoder.primary_settled.
    destruct r as [| | |[|p json]];
      try (destruct (_ || _); cbn [fst];
           [apply all_validated_endLocate; exact H | exact H]).
    cbn [fst]. apply all_validated_endLocate.
    apply all_validated_suggestions; [exact H|].
    apply omap_getFeature_validated.
  - rewrite secondary_settled_collected.
    destruct (Spec.collected _ _ _) as [features|] eqn:E;
      [|apply all_validated_endLocate; exact H].
    apply all_validated_endLocate.
    apply all_validated_suggestions; [exact H|].
    rewrite (sort_permutation features).
    destruct r as [| |[|a l]]; try discriminate E.
    apply (collect_validated c (Geocoder.cycle_input cyc) (a :: l) []
             features);
      [constructor | exact E].
  - destruct H as [Hs Hc].
    apply (all_validated_intro c); [reflexivity | exact Hs | exact Hc].
  - apply all_validated_updateMenu. exact H.
  - destruct H as [Hs Hc].
    match goal with
    | |- Spec.all_validated (Geocoder.trigger ?cb ?c') =>
        destruct (trigger_fields cb c') as (Ho & Hca & Hsu & _)
    end.
    apply (all_validated_intro c);
      [rewrite Ho; reflexivity | rewrite Hsu; exact Hs | rewrite Hca; exact Hc].
  - apply all_validated_setOptions. exact H.
  - apply all_validated_element. exact H.
  - apply all_validated_element. exact H.
Qed.

Lemma all_validated_run (events : list Geocoder.event)
      (c : Geocoder.control) :
  Spec.all_validated c -> Spec.all_validated (run events c).
Proof.
  revert c. induction events as [|e events IH]; intros c H; [exact H|].
  cbn. apply IH. apply all_validated_handle. exact H.
Qed.

Lemma all_validated_create : Spec.all_validated Geocoder._create.
Proof. split; [constructor | apply map_Forall_empty]. Qed.

(** The rounded number stays within bounds that have six decimals, and
    within half a unit of the sixth decimal of any bounds. *)
Lemma rounded_within (x lo hi : Q) :
  Spec.six_decimals lo -> Spec.six_decimals hi ->
  (lo <= x)%Q -> (x <= hi)%Q ->
  (lo <= Geocoder.roundCoord x)%Q /\ (Geocoder.roundCoord x <= hi)%Q.
Proof.
  intros [a ->] [b ->] Hlo Hhi.
  destruct (roundCoord_rounds x) as [[n Hn] Hnear]. rewrite Hn in *.
  apply Qabs_Qle_condition in Hnear. destruct Hnear as [H1 H2].
  assert (Ha : (a # 1000000 <= (n # 1000000) + (1 # 2000000))%Q) by lra.
  assert (Hb : ((n # 1000000) - (1 # 2000000) <= b # 1000000)%Q) by lra.
  unfold Qle, Qplus, Qminus, Qopp in *. simpl in Ha, Hb |- *. lia.
Qed.

Lemma rounded_near (x lo hi : Q) :
  (lo <= x)%Q -> (x <= hi)%Q ->
  (lo - (1 # 2000000) <= Geocoder.roundCoord x)%Q
  /\ (Geocoder.roundCoord x <= hi + (1 # 2000000))%Q.
Proof.
  intros Hlo Hhi. destruct (roundCoord_rounds x) as [_ Hnear].
  apply Qabs_Qle_condition in Hnear. destruct Hnear as [H1 H2].
  split; lra.
Qed.

(** C8 (amended): whatever happens to a control, every feature among its
    suggestions and in its cache is validated: its latitude and longitude
    are the roundings to six decimals of numbers within the bounds (the
    validator checks before it rounds), its score reaches the minimum, its
    type, name and source are not empty.  A record that fails a check of
    the validator gives no feature at all. *)
Theorem C8_surfaced_candidates_validated (events : list Geocoder.event) :
  (forall f,
      f ∈ Geocoder._suggestions (run events Geocoder._create) ->
      Spec.validated (Geocoder.bounds (run events Geocoder._create)) f)
  /\ (forall key l f,
        Geocoder._cache (run events Geocoder._create) !! key = Some l ->
        f ∈ l ->
        Spec.validated (Geocoder.bounds (run events Geocoder._create)) f)
  /\ (forall c i p,
        Spec.passes c i p = false -> Geocoder.getFeature c i p = None).
Proof.
  destruct (all_validated_run events _ all_validated_create) as [Hs Hc].
  split; [|split].
  - intros f Hf. rewrite Forall_forall in Hs. apply Hs. exact Hf.
  - intros key l f Hl Hf. specialize (Hc key l Hl).
    rewrite Forall_forall in Hc. apply Hc. exact Hf.
  - intros c i p Hp.
    destruct (Geocoder.getFeature c i p) eqn:E; [|reflexivity].
    assert (H : is_Some (Geocoder.getFeature c i p)) by (rewrite E; eauto).
    apply getFeature_passes in H. congruence.
Qed.

End Cycle.

(** ** The properties at work on concrete controls *)

Ltac evaluate :=
  repeat match goal with |- _ /\ _ => split end;
  vm_compute; try reflexivity; try (eexists; reflexivity).

Lemma Sample_insert_permutation (f : Geocoder.feature)
      (l : list Geocoder.feature) :
  Permutation (Sample.insert f l) (f :: l).
Proof.
  induction l as [|g l IH]; [reflexivity|].
  cbn [Sample.insert]. destruct (Sample.after f g); [|reflexivity].
  rewrite IH. apply perm_swap.
Qed.

Lemma Sample_sort_permutation (l : list Geocoder.feature) :
  Permutation (Sample.sort l) l.
Proof.
  induction l as [|f l IH]; [reflexivity|].
  unfold Sample.sort in *. cbn [fold_right].
  rewrite Sample_insert_permutation. rewrite IH. reflexivity.
Qed.

(** C10 at work: a call with an object of unrecognised options only. *)
Lemma C10_unrecognised_options_reset :
  exists c',
    Geocoder.setOptions
      (Geocoder.one_argument (Geocoder.VObj [("colour", Geocoder.VStr "red")]))
      Sample.picked = Some c'
    /\ Geocoder._cache c' = ∅
    /\ Geocoder.getSuggestions c' = []
    /\ Geocoder.getSelected c' = None.
Proof.
  apply (C10_setOptions_resets
           (Geocoder.one_argument
              (Geocoder.VObj [("colour", Geocoder.VStr "red")]))
           Sample.picked).
  reflexivity.
Defined.

(** C10 (as stated, refuted): after a place was chosen, the call
    [setOptions('states')], a name without a value, is refused with a
    warning: the control is as before, with its selection, its suggestions
    and its cache. *)
Lemma C10_name_alone_resets_nothing :
  Geocoder.setOptions (Geocoder.one_argument (Geocoder.VStr "states"))
    Sample.picked = Some Sample.picked
  /\ is_Some (Geocoder.getSelected Sample.picked)
  /\ List.length (Geocoder.getSuggestions Sample.picked) = 1%nat
  /\ is_Some (Geocoder._cache Sample.picked !! "AUSTIN|undefined").
Proof.
  split; [reflexivity|]. split; [|split].
  - vm_compute. eexists. reflexivity.
  - vm_compute. reflexivity.
  - vm_compute. eexists. reflexivity.
Qed.

(** C6 at work: the timer of the cycle for ["austin"] has fired; the
    answer of the primary service, with the record of Austin, then changes
    neither the cache nor the menu, and runs no callback. *)
Lemma C6_timed_out_cycle_is_silent :
  Geocoder.aborted 1 Sample.timed_out = true
  /\ Spec.silent Sample.timed_out
       (Geocoder.primary_settled Sample.innerHTML_length
          (Sample.cycle_of "austin" Sample.plain 1)
          (Geocoder.primary_array [Sample.austin]) Sample.timed_out).1.
Proof.
  assert (H : Geocoder.aborted 1 Sample.timed_out = true)
    by (vm_compute; reflexivity).
  split; [exact H|].
  apply (proj1 (C6_aborted_cycle_is_silent Sample.innerHTML_length
                  Sample.sort (Sample.cycle_of "austin" Sample.plain 1)
                  Sample.timed_out H)
               (Geocoder.primary_array [Sample.austin])).
Defined.

(** C1 at work: the cycle for ["austin"] is not aborted and the primary
    service answers with the record of Austin; the validated features are
    put in the cache under the key of the query. *)
Lemma C1_austin_is_cached :
  Geocoder.aborted 1 Sample.plain_waiting = false
  /\ Geocoder._cache
       (Geocoder.primary_settled Sample.innerHTML_length
          (Sample.cycle_of "austin" Sample.plain 1)
          (Geocoder.primary_array [Sample.austin]) Sample.plain_waiting).1
     = <[Geocoder.cacheKey (Sample.austin_query Sample.plain)
         := omap (Geocoder.getFeature Sample.plain_waiting
                    (Sample.austin_query Sample.plain))
                 [Sample.austin]]> (Geocoder._cache Sample.plain_waiting).
Proof.
  assert (H : Geocoder.aborted 1 Sample.plain_waiting = false)
    by (vm_compute; reflexivity).
  split; [exact H|].
  apply (proj1 (C1_cache_written_on_success Sample.innerHTML_length
                  Sample.sort (Sample.cycle_of "austin" Sample.plain 1)
                  Sample.plain_waiting H)
               (Geocoder.primary_array [Sample.austin])).
  discriminate.
Defined.

(** C1 (as stated, refuted): GNIS places are not included, so the secondary
    service is disabled; ["austin"] is typed, the request to the primary
    service is made, and the service answers [[]].  The cycle is not
    aborted and ends, without a request to the secondary service, with no
    suggestions; the key of the query is not in the cache. *)
Lemma C1_empty_answer_is_not_cached :
  Sample.locate (Sample.typed "austin" Sample.postal)
  = (Sample.postal_waiting, Some (Sample.cycle_of "austin" Sample.postal 1))
  /\ Geocoder.gnis_included Sample.postal_waiting = false
  /\ Geocoder.aborted 1 Sample.postal_waiting = false
  /\ Geocoder.primary_settled Sample.innerHTML_length
       (Sample.cycle_of "austin" Sample.postal 1)
       (Geocoder.primary_array []) Sample.postal_waiting
     = (Sample.postal_done, false)
  /\ Geocoder.getSuggestions Sample.postal_done = []
  /\ Geocoder.cacheKey (Sample.austin_query Sample.postal)
     = "AUSTIN|undefined"
  /\ Geocoder._cache Sample.postal_done !! "AUSTIN|undefined" = None.
Proof. evaluate. Qed.

(** A coordinate typed while the request is out does not abort the cycle:
    ["austin"] is typed, then ["44 57"], and the primary service answers
    ["austin"] with [[]].  The cycle ends with the suggestion of the
    coordinate, and still without an entry under the key of its query. *)
Lemma coordinate_typed_meanwhile :
  Geocoder.aborted 1
    (Sample.run [Geocoder.ev_input "austin"; Geocoder.ev_input "44 57"]
       Sample.postal) = false
  /\ map (fun f => Geocoder.Source (Geocoder.feature_properties f))
         (Geocoder.getSuggestions Sample.postal_coordinate) = ["latlon"]
  /\ Geocoder._cache Sample.postal_coordinate !! "AUSTIN|undefined" = None.
Proof. evaluate. Qed.

(** C5 at work: the coordinate of the specification gives one candidate,
    at latitude 44.964798 and longitude -93.240967, and no request. *)
Lemma C5_minneapolis :
  exists f,
    Sample.locate Sample.minneapolis
    = (Geocoder._updateMenu Sample.innerHTML_length
         (Some "44 57 53.2728 N 93 14 27.4812 W")
         (Geocoder.set_suggestions [f] Sample.minneapolis), None)
    /\ Geocoder.Source (Geocoder.feature_properties f) = "latlon"
    /\ Geocoder.Latitude (Geocoder.feature_properties f)
       = Some (Qmake 44964798 1000000)
    /\ Geocoder.Longitude (Geocoder.feature_properties f)
       = Some (Qmake (-93240967) 1000000)
    /\ Geocoder.controllers (Sample.locate Sample.minneapolis).1
       = Geocoder.controllers Sample.minneapolis
    /\ Geocoder._suggestions (Sample.locate Sample.minneapolis).1 = [f].
Proof.
  destruct (Geocoder.getFeature Sample.minneapolis
              (Geocoder.parseInput Sample.minneapolis)
              (Geocoder.latlon_record
                 (Qmake 44964798 1000000, Qmake (-93240967) 1000000)))
    as [f|] eqn:Hf; [|vm_compute in Hf; discriminate Hf].
  destruct (C5_coordinate_bypasses_services Sample.innerHTML_length
              Sample.minneapolis
              (Qmake 44964798 1000000, Qmake (-93240967) 1000000) f)
    as (E & Hs & Hlat & Hlon & Hc & Hsug);
    [vm_compute; reflexivity | vm_compute; reflexivity
     | vm_compute; reflexivity | exact Hf |].
  exists f. split; [exact E|]. split; [exact Hs|].
  split; [exact Hlat|]. split; [exact Hlon|]. split; [exact Hc|].
  apply Hsug; [reflexivity | reflexivity | vm_compute; discriminate].
Defined.

(** C5 (as stated, refuted): the term ["95 10"] parses as a coordinate,
    which the validator rejects for its latitude; [_locate] goes on to the
    request to the primary service. *)
Lemma C5_rejected_coordinate_is_searched :
  Geocoder.latlon (Geocoder.parseInput (Sample.typed "95 10" Sample.plain))
  = Some (Qmake 95000000 1000000, Qmake (-10000000) 1000000)
  /\ Geocoder.getFeature (Sample.typed "95 10" Sample.plain)
       (Geocoder.parseInput (Sample.typed "95 10" Sample.plain))
       (Geocoder.latlon_record
          (Qmake 95000000 1000000, Qmake (-10000000) 1000000))
     = None
  /\ (Sample.locate (Sample.typed "95 10" Sample.plain)).2
     = Some (Sample.cycle_of "95 10" Sample.plain 1).
Proof. evaluate. Qed.

(** C8 at work: the suggestions of the control with the seven decimal
    bound are validated. *)
Lemma C8_fenced_suggestions_validated :
  Forall (Spec.validated (Geocoder.bounds Sample.fenced_done))
         (Geocoder._suggestions Sample.fenced_done).
Proof.
  unfold Sample.fenced_done. apply Forall_forall. intros f Hf.
  exact (proj1 (C8_surfaced_candidates_validated Sample.innerHTML_length
                  Sample.sort Sample_sort_permutation Sample.fenced_events)
               f Hf).
Defined.

(** C8 (as stated, refuted): the northern bound is 45.1234567 and the
    service answers with a record at latitude 45.12345669, which is within
    the bounds; the feature among the suggestions has the rounded latitude
    45.123457, north of the bound. *)
Lemma C8_rounded_past_the_bound :
  Geocoder.bounds Sample.fenced_done
  = (Some (inject_Z 40), Some (inject_Z (-95)),
     Some (Qmake 451234567 10000000), Some (inject_Z (-90)))
  /\ Spec.within (Geocoder.p_Latitude Sample.border_town)
       (Some (inject_Z 40)) (Some (Qmake 451234567 10000000)) = true
  /\ map (fun f => Geocoder.Latitude (Geocoder.feature_properties f))
         (Geocoder.getSuggestions Sample.fenced_done)
     = [Some (Qmake 45123457 1000000)]
  /\ Spec.within (Some (Qmake 45123457 1000000))
       (Some (inject_Z 40)) (Some (Qmake 451234567 10000000)) = false.
Proof. evaluate. Qed.

(** ** The older widget: no request after a prefix without results *)

Lemma special_bar (c : ascii) :
  SearchApi.special c = false -> JS.is_char "|" c = false.
Proof.
  intros H. destruct (JS.is_char "|" c) eqn:E; [|reflexivity].
  unfold JS.is_char in E. apply Ascii.eqb_eq in E. subst c.
  vm_compute in H. discriminate H.
Qed.

Lemma barless_replace_runs (class : ascii -> bool) (sep : ascii)
      (l : list ascii) :
  JS.is_char "|" sep = false -> Spec.barless l ->
  forall in_run, Spec.barless (JS.replace_runs class sep in_run l).
Proof.
  intros Hsep. induction 1 as [|c l Hc Hl IH]; intros in_run; cbn.
  - constructor.
  - destruct (class c); [destruct in_run|];
      try constructor; try assumption; apply IH.
Qed.

Lemma barless_skipn (n : nat) (l : list ascii) :
  Spec.barless l -> Spec.barless (skipn n l).
Proof.
  intros H. apply Forall_drop. exact H.
Qed.

Lemma barless_saint (l : list ascii) :
  Spec.barless l -> Spec.barless (Geocoder.saint l).
Proof.
  intros H. unfold Geocoder.saint.
  destruct (JS.starts_with _ l); [|exact H].
  apply Forall_app. split.
  - vm_compute. repeat constructor.
  - apply barless_skipn. exact H.
Qed.

Lemma barless_filter_term (text : string) :
  Spec.barless (JS.chars (SearchApi.filter_term text)).
Proof.
  unfold SearchApi.filter_term. rewrite chars_str.
  apply barless_saint.
  apply barless_replace_runs; [reflexivity|].
  apply barless_replace_runs; [reflexivity|].
  unfold Spec.barless. rewrite Forall_forall. intros c Hc.
  rewrite list_elem_of_In in Hc. apply filter_In in Hc as [_ Hc].
  apply special_bar. apply negb_true_iff. exact Hc.
Qed.

Lemma barless_split_chars (is_sep : ascii -> bool) (l : list ascii) :
  Spec.barless l -> Forall Spec.barless (JS.split_chars is_sep l).
Proof.
  induction 1 as [|c l Hc Hl IH]; cbn.
  - repeat constructor.
  - destruct (is_sep c).
    + constructor; [constructor | exact IH].
    + destruct (JS.split_chars is_sep l) as [|h t].
      * repeat constructor. exact Hc.
      * apply Forall_cons in IH as [Hh Ht].
        constructor; [constructor; assumption | exact Ht].
Qed.

Lemma barless_parts (sep : ascii) (s : string) :
  Spec.barless (JS.chars s) ->
  Forall (fun p => Spec.barless (JS.chars p)) (JS.split sep s).
Proof.
  intros H. unfold JS.split. apply Forall_map.
  eapply Forall_impl; [apply barless_split_chars; exact H|].
  intros l Hl. cbn. rewrite chars_str. exact Hl.
Qed.

Lemma barless_join (l : list string) :
  Forall (fun p => Spec.barless (JS.chars p)) l ->
  Spec.barless (JS.chars (JS.join " " l)).
Proof.
  induction 1 as [|p l Hp Hl IH]; [constructor|].
  cbn [JS.join]. destruct l as [|q l]; [exact Hp|].
  rewrite !chars_app. apply Forall_app. split; [exact Hp|].
  apply Forall_app. split; [repeat constructor | exact IH].
Qed.

Lemma barless_removelast (l : list string) :
  Forall (fun p => Spec.barless (JS.chars p)) l ->
  Forall (fun p => Spec.barless (JS.chars p)) (removelast l).
Proof.
  induction 1 as [|p l Hp Hl IH]; [constructor|].
  cbn [removelast]. destruct l; [constructor|].
  constructor; assumption.
Qed.

Lemma barless_last (l : list string) :
  Forall (fun p => Spec.barless (JS.chars p)) l ->
  Spec.barless (JS.chars (List.last l "")).
Proof.
  induction 1 as [|p l Hp Hl IH]; [constructor|].
  cbn [List.last]. destruct l; assumption.
Qed.

(** The term of the older widget holds no ['|']. *)
Lemma barless_term (text : string) (o : SearchApi.opts) :
  Spec.barless (JS.chars (SearchApi._getSearchTermStates text o).1).
Proof.
  unfold SearchApi._getSearchTermStates.
  pose proof (barless_filter_term text) as H0.
  pose proof (barless_parts " " _ H0) as Hp.
  set (parts := JS.split " " (SearchApi.filter_term text)) in *.
  assert (H1 : Spec.barless (JS.chars (JS.join " " (removelast parts))))
    by (apply barless_join, barless_removelast; exact Hp).
  assert (H2 : Spec.barless (JS.chars (List.last parts "")))
    by (apply barless_last; exact Hp).
  destruct (_ && JS.includes SearchApi._all_states _); cbn [fst snd];
    repeat match goal with
           | |- context [if ?b then _ else _] => destruct b
           end; cbn [fst]; try assumption.
  all: rewrite !chars_app.
  all: repeat (apply Forall_app; split); try assumption.
  all: repeat constructor.
Qed.

Lemma split_chars_head (is_sep : ascii -> bool) (l r : list ascii)
      (s : ascii) :
  Forall (fun c => is_sep c = false) l -> is_sep s = true ->
  JS.split_chars is_sep (l ++ s :: r) = l :: JS.split_chars is_sep r.
Proof.
  intros Hl Hs. induction Hl as [|c l Hc Hl IH]; cbn.
  - rewrite Hs. reflexivity.
  - rewrite Hc, IH. reflexivity.
Qed.

Lemma term_before_bar (term states : string) :
  Spec.barless (JS.chars term) ->
  List.hd "" (JS.split "|" (term ++ "|" ++ states)) = term.
Proof.
  intros H. unfold JS.split. rewrite chars_app.
  change (JS.chars ("|" ++ states)) with ("|"%char :: JS.chars states).
  rewrite (split_chars_head _ _ _ _ H) by reflexivity.
  cbn. apply str_chars.
Qed.

Lemma prefix_of_term (n : nat) (term rest : string) :
  (n <= String.length term)%nat ->
  JS.prefix_of n (term ++ rest) = JS.prefix_of n term.
Proof.
  intros H. unfold JS.prefix_of. rewrite chars_app.
  rewrite firstn_app. rewrite length_chars.
  replace (n - String.length term)%nat with 0%nat by lia.
  cbn. rewrite app_nil_r. reflexivity.
Qed.

Section Widget.

Variable show_number : Q -> string.

Local Abbreviation keyup := (SearchApi.keyup show_number).

(** The loop finds a prefix without results at any length it visits. *)
Lemma no_results_before_found (cache : gmap string (list SearchApi.item))
      (term_cache states : string) (min_char : JS.num) (n : nat) :
  JS.lt min_char (JS.of_Z (Z.of_nat n)) = true ->
  cache !! (JS.prefix_of n term_cache ++ "|" ++ states) = Some [] ->
  forall n0, (n <= n0)%nat ->
    SearchApi.no_results_before cache term_cache states min_char n0 = true.
Proof.
  intros Hmin Hhit.
  assert (G : forall k, (n <= k)%nat ->
                        JS.gt (JS.of_Z (Z.of_nat k)) min_char = true).
  { intros k Hk. unfold JS.gt, JS.lt, JS.of_Z in *.
    destruct min_char as [m|]; [|discriminate Hmin].
    apply negb_true_iff in Hmin. apply negb_true_iff.
    destruct (Qle_bool (inject_Z (Z.of_nat k)) m) eqn:E; [|reflexivity].
    apply Qle_bool_iff in E. exfalso.
    assert (L : (inject_Z (Z.of_nat n) <= m)%Q).
    { eapply Qle_trans; [|exact E]. rewrite <- Zle_Qle. lia. }
    apply Qle_bool_iff in L. rewrite L in Hmin. discriminate Hmin. }
  induction n0 as [|n0 IH]; intros Hle.
  - assert (n = 0)%nat by lia. subst n. cbn [SearchApi.no_results_before].
    rewrite (G 0%nat) by lia. cbn [negb]. rewrite Hhit. reflexivity.
  - cbn [SearchApi.no_results_before]. rewrite (G (S n0)) by lia.
    cbn [negb].
    destruct (decide (n = S n0)) as [->|Hne].
    + rewrite Hhit. reflexivity.
    + destruct (cache !! (JS.prefix_of (S n0) term_cache ++ "|" ++ states))
        as [[|? ?]|]; try reflexivity; apply IH; lia.
Qed.

(** C2 (amended): when a strict prefix of the term, longer than the
    minimum number of characters, is in the cache without results under
    the states of the query, the handler makes no request: it updates the
    menu with the coordinate when the term spells one, with the cached
    items when the key of the query itself is in the cache, and with no
    items otherwise. *)
Theorem C2_no_request_after_empty_prefix (which : nat) (text : string)
        (o : SearchApi.opts) (cache : gmap string (list SearchApi.item))
        (n : nat) :
  existsb (Nat.eqb which) SearchApi.ignored_keys = false ->
  JS.lt (JS.of_Z (Z.of_nat (String.length (JS.trim text))))
        (SearchApi.menu_min_char o) = false ->
  JS.lt (SearchApi.menu_min_char o) (JS.of_Z (Z.of_nat n)) = true ->
  (n < String.length (SearchApi._getSearchTermStates text o).1)%nat ->
  cache !! (JS.prefix_of n (SearchApi._getSearchTermStates text o).1
            ++ "|" ++ (SearchApi._getSearchTermStates text o).2) = Some [] ->
  keyup which text o cache
  = SearchApi.updated (SearchApi._getSearchTermStates text o).1
      match SearchApi.lat_lon_of (SearchApi._getSearchTermStates text o).1 o
      with
      | Some (lat, lon) => [SearchApi.coordinate_item show_number lat lon]
      | None =>
          match cache !! ((SearchApi._getSearchTermStates text o).1 ++ "|"
                          ++ (SearchApi._getSearchTermStates text o).2) with
          | Some data => data
          | None => []
          end
      end.
Proof.
  intros Hkey Hlen Hmin Hn Hhit. unfold SearchApi.keyup.
  rewrite Hkey, Hlen.
  pose proof (barless_term text o) as Hbar.
  destruct (SearchApi._getSearchTermStates text o) as [term states].
  cbn [fst snd] in *.
  destruct (SearchApi.lat_lon_of term o) as [[lat lon]|]; [reflexivity|].
  destruct (cache !! (term ++ "|" ++ states)) as [data|]; [reflexivity|].
  rewrite (term_before_bar term states Hbar).
  rewrite (no_results_before_found cache (term ++ "|" ++ states) states
             (SearchApi.menu_min_char o) n Hmin); [reflexivity| |lia].
  rewrite prefix_of_term by lia. exact Hhit.
Qed.

End Widget.

(** C2 at work: ["AUSTI"] is in the cache without results, and ["austin"]
    is typed. *)
Lemma C2_austin_after_austi :
  Sample.keyup 78 "austin" (Sample.widget 3) (Sample.nothing_for "AUSTI|ALL")
  = SearchApi.updated "AUSTIN" [].
Proof.
  apply (C2_no_request_after_empty_prefix Sample.show_number 78 "austin"
           (Sample.widget 3) (Sample.nothing_for "AUSTI|ALL") 5);
    vm_compute; reflexivity.
Defined.

(** C2 (as stated, refuted).  With a minimum of three characters, ["AUS"]
    is in the cache without results and ["aust"] is typed: a request is
    set up, because the loop stops above the minimum.  With a minimum of
    two characters, the term ["12 "] was searched and is in the cache
    without results, and ["12 5"] is typed: the menu shows a coordinate.
    With ["AUSTI"] in the cache without results and ["AUSTIN"] in the cache
    with an item, ["austin"] is typed: the menu shows the cached item. *)
Lemma C2_prefix_without_results_ignored :
  Sample.keyup 84 "aust" (Sample.widget 3) (Sample.nothing_for "AUS|ALL")
  = SearchApi.requested "AUST" "ALL" "AUST|ALL"
  /\ Sample.keyup 188 "12 ," (Sample.widget 2) ∅
     = SearchApi.requested "12 " "ALL" "12 |ALL"
  /\ Sample.keyup 53 "12 5" (Sample.widget 2) (Sample.nothing_for "12 |ALL")
     = SearchApi.updated "12 5"
         [SearchApi.coordinate_item Sample.show_number
            (inject_Z 12) (inject_Z (-5))]
  /\ Sample.keyup 78 "austin" (Sample.widget 3)
       (SearchApi.success "AUSTIN|ALL" [Sample.austin_item]
          (Sample.nothing_for "AUSTI|ALL"))
     = SearchApi.updated "AUSTIN" [Sample.austin_item].
Proof. evaluate. Qed.

(** * Further properties of the code *)

(** ** The search term and the cache key ([gc._locate.parseInput]) *)

Lemma Forall_replace_runs (P : ascii -> Prop) (class : ascii -> bool)
      (sep : ascii) (l : list ascii) :
  P sep -> Forall P l ->
  forall in_run, Forall P (JS.replace_runs class sep in_run l).
Proof.
  intros Hsep. induction 1 as [|c l Hc Hl IH]; intros in_run; cbn.
  - constructor.
  - destruct (class c); [destruct in_run|];
      try constructor; try assumption; apply IH.
Qed.

Lemma Forall_saint (P : ascii -> Prop) (l : list ascii) :
  Forall P (JS.chars "SAINT ") -> Forall P l -> Forall P (Geocoder.saint l).
Proof.
  intros Hs H. unfold Geocoder.saint.
  destruct (JS.starts_with _ l); [|exact H].
  apply Forall_app. split; [exact Hs|]. apply Forall_drop. exact H.
Qed.

Lemma Forall_trim_start (P : ascii -> Prop) (l : list ascii) :
  Forall P l -> Forall P (JS.trim_start l).
Proof.
  intros H. destruct (trim_start_suffix l) as [p Hp].
  rewrite Hp in H. apply Forall_app in H. apply H.
Qed.

Lemma Forall_trim_end (P : ascii -> Prop) (l : list ascii) :
  Forall P l -> Forall P (JS.trim_end l).
Proof.
  intros H. destruct (trim_end_prefix l) as [s Hs].
  rewrite Hs in H. apply Forall_app in H. apply H.
Qed.

Lemma Forall_trim_chars (P : ascii -> Prop) (l : list ascii) :
  Forall P l -> Forall P (JS.trim_chars l).
Proof.
  intros H. apply Forall_trim_end, Forall_trim_start. exact H.
Qed.

Lemma term_char_blank_others (l : list ascii) :
  Forall (fun c => Inv.term_char c = true) (Geocoder.blank_others l).
Proof.
  unfold Geocoder.blank_others. apply Forall_map.
  apply Forall_forall. intros c _. cbn. unfold Inv.term_char.
  destruct (Geocoder.kept c) eqn:E; [rewrite E|]; reflexivity.
Qed.

(** *** Trimming twice *)

Lemma trim_start_idem (l : list ascii) :
  JS.trim_start (JS.trim_start l) = JS.trim_start l.
Proof.
  induction l as [|c l IH]; [reflexivity|]. cbn [JS.trim_start].
  destruct (JS.is_space c) eqn:E; [exact IH|].
  cbn [JS.trim_start]. rewrite E. reflexivity.
Qed.

Lemma trim_start_keeps_last (x : list ascii) (c : ascii) :
  JS.is_space c = false ->
  exists y, JS.trim_start (x ++ [c])%list = (y ++ [c])%list.
Proof.
  intros Hc. induction x as [|d x IH]; cbn [app JS.trim_start].
  - rewrite Hc. exists []. reflexivity.
  - destruct (JS.is_space d); [exact IH|]. exists (d :: x). reflexivity.
Qed.

Lemma trim_start_fixed (c : ascii) (r : list ascii) :
  JS.trim_start (c :: r) = c :: r -> JS.is_space c = false.
Proof.
  cbn [JS.trim_start]. destruct (JS.is_space c); [|reflexivity].
  intros H. destruct (trim_start_suffix r) as [p Hp].
  apply (f_equal (@List.length ascii)) in Hp.
  rewrite H, length_app in Hp. cbn in Hp. lia.
Qed.

Lemma trim_start_end (l : list ascii) :
  JS.trim_start l = l -> JS.trim_start (JS.trim_end l) = JS.trim_end l.
Proof.
  destruct l as [|c r]; [reflexivity|]. intros H.
  apply trim_start_fixed in H. unfold JS.trim_end. cbn [rev].
  destruct (trim_start_keeps_last (rev r) c H) as [y Hy]. rewrite Hy.
  rewrite rev_app_distr. cbn [rev app JS.trim_start]. rewrite H.
  reflexivity.
Qed.

Lemma trim_end_idem (l : list ascii) :
  JS.trim_end (JS.trim_end l) = JS.trim_end l.
Proof.
  unfold JS.trim_end. rewrite rev_involutive, trim_start_idem. reflexivity.
Qed.

Lemma trim_chars_idem (l : list ascii) :
  JS.trim_chars (JS.trim_chars l) = JS.trim_chars l.
Proof.
  unfold JS.trim_chars.
  rewrite (trim_start_end (JS.trim_start l) (trim_start_idem l)).
  apply trim_end_idem.
Qed.

(** *** One blank between the tokens *)

Lemma blank_is_space (c : ascii) :
  JS.is_space c = false -> JS.is_char " " c = false.
Proof.
  intros H. destruct (JS.is_char " " c) eqn:E; [|reflexivity].
  unfold JS.is_char in E. apply Ascii.eqb_eq in E. subst c.
  discriminate H.
Qed.

Lemma single_blanks_replace_runs (l : list ascii) :
  forall in_run,
    Inv.single_blanks (JS.replace_runs JS.is_space " " in_run l)
    /\ (in_run = true ->
        forall c r, JS.replace_runs JS.is_space " " in_run l = c :: r ->
                    JS.is_char " " c = false).
Proof.
  induction l as [|c l IH]; intros in_run; cbn [JS.replace_runs].
  - split; [exact I | intros _ ? ? [=]].
  - destruct (JS.is_space c) eqn:E.
    + destruct in_run.
      * apply IH.
      * split; [|intros [=]].
        destruct (IH true) as [H1 H2].
        destruct (JS.replace_runs JS.is_space " " true l) as [|b r] eqn:R;
          [exact I|].
        split; [|exact H1].
        rewrite (H2 eq_refl b r eq_refl). apply andb_false_r.
    + pose proof (blank_is_space c E) as Hc. split.
      * destruct (IH false) as [H1 _].
        destruct (JS.replace_runs JS.is_space " " false l) as [|b r];
          [exact I|].
        split; [rewrite Hc; reflexivity | exact H1].
      * intros _ c' r [= <- _]. exact Hc.
Qed.

Lemma single_blanks_app (a b : list ascii) :
  Inv.single_blanks (a ++ b)%list ->
  Inv.single_blanks a /\ Inv.single_blanks b.
Proof.
  induction a as [|x a IH]; intros H; [split; [exact I | exact H]|].
  destruct a as [|y a].
  - split; [exact I|]. destruct b; [exact I|]. apply H.
  - destruct H as [H1 H2]. destruct (IH H2) as [Ha Hb].
    split; [split; assumption | exact Hb].
Qed.

Lemma single_blanks_saint (l : list ascii) :
  Inv.single_blanks l -> Inv.single_blanks (Geocoder.saint l).
Proof.
  intros H. unfold Geocoder.saint.
  destruct (JS.starts_with (JS.chars "ST ") l) eqn:E; [|exact H].
  rewrite (starts_with_split _ _ E) in H.
  change (List.length (JS.chars "ST ")) with 3%nat in H.
  destruct (skipn 3 l) as [|b r].
  - cbn. repeat split.
  - cbn in H. cbn. destruct H as (_ & _ & H3 & H4).
    repeat split; assumption.
Qed.

Lemma single_blanks_trim_chars (l : list ascii) :
  Inv.single_blanks l -> Inv.single_blanks (JS.trim_chars l).
Proof.
  intros H. unfold JS.trim_chars.
  destruct (trim_start_suffix l) as [p Hp]. rewrite Hp in H.
  apply single_blanks_app in H as [_ H].
  destruct (trim_end_prefix (JS.trim_start l)) as [s Hs]. rewrite Hs in H.
  apply single_blanks_app in H as [H _]. exact H.
Qed.

Lemma parse_term_chars (text : string) :
  Forall (fun c => Inv.term_char c = true)
         (JS.chars (Geocoder.parse_term text)).
Proof.
  unfold Geocoder.parse_term. rewrite chars_str.
  apply Forall_trim_chars, Forall_saint.
  - apply Forall_forall. intros c Hc.
    assert (B : forallb Inv.term_char (JS.chars "SAINT ") = true)
      by (vm_compute; reflexivity).
    rewrite forallb_forall in B. apply B, list_elem_of_In, Hc.
  - apply Forall_replace_runs; [reflexivity|]. apply term_char_blank_others.
Qed.

(** X1: the search term that [parseInput] makes of any text holds only
    the kept characters (capital letters, digits, [*], [-], [.]) and
    blanks, has no white space at either end, and never two blanks in a
    row. *)
Theorem X1_parse_term_shape (text : string) :
  Forall (fun c => Inv.term_char c = true)
         (JS.chars (Geocoder.parse_term text))
  /\ JS.trim (Geocoder.parse_term text) = Geocoder.parse_term text
  /\ Inv.single_blanks (JS.chars (Geocoder.parse_term text)).
Proof.
  split; [apply parse_term_chars|].
  unfold Geocoder.parse_term, JS.trim. rewrite !chars_str. split.
  - rewrite trim_chars_idem. reflexivity.
  - apply single_blanks_trim_chars, single_blanks_saint.
    apply single_blanks_replace_runs.
Qed.

(** *** The cache key tells the query *)

Lemma Forall_split_chars (P : ascii -> Prop) (is_sep : ascii -> bool)
      (l : list ascii) :
  Forall P l -> Forall (Forall P) (JS.split_chars is_sep l).
Proof.
  induction 1 as [|c l Hc Hl IH]; cbn.
  - repeat constructor.
  - destruct (is_sep c).
    + constructor; [constructor | exact IH].
    + destruct (JS.split_chars is_sep l) as [|h t].
      * repeat constructor. exact Hc.
      * apply Forall_cons in IH as [Hh Ht].
        constructor; [constructor; assumption | exact Ht].
Qed.

Lemma Forall_parts (P : ascii -> Prop) (sep : ascii) (s : string) :
  Forall P (JS.chars s) ->
  Forall (fun p => Forall P (JS.chars p)) (JS.split sep s).
Proof.
  intros H. unfold JS.split. apply Forall_map.
  eapply Forall_impl; [apply Forall_split_chars; exact H|].
  intros l Hl. cbn. rewrite chars_str. exact Hl.
Qed.

Lemma Forall_last_part (P : ascii -> Prop) (l : list string) :
  Forall (fun p => Forall P (JS.chars p)) l ->
  Forall P (JS.chars (List.last l "")).
Proof.
  induction 1 as [|p l Hp Hl IH]; [constructor|].
  cbn [List.last]. destruct l; assumption.
Qed.

Lemma term_char_barless (c : ascii) :
  Inv.term_char c = true -> JS.is_char "|" c = false.
Proof.
  intros H. destruct (JS.is_char "|" c) eqn:E; [|reflexivity].
  unfold JS.is_char in E. apply Ascii.eqb_eq in E. subst c.
  vm_compute in H. discriminate H.
Qed.

Lemma term_char_no_lower (c : ascii) :
  Inv.term_char c = true -> JS.is_lower c = false.
Proof.
  destruct c as [[] [] [] [] [] [] [] []]; vm_compute; congruence.
Qed.

Lemma no_lower_check (l : list ascii) :
  forallb (fun c => negb (JS.is_lower c)) l = true -> Inv.no_lower l.
Proof.
  intros H. apply Forall_forall. intros c Hc.
  rewrite forallb_forall in H. apply negb_true_iff, H.
  apply list_elem_of_In. exact Hc.
Qed.

Lemma upper_char_no_lower (c : ascii) : Inv.no_lower (JS.upper_char c).
Proof.
  apply no_lower_check.
  destruct c as [[] [] [] [] [] [] [] []]; vm_compute; reflexivity.
Qed.

Lemma toUpperCase_no_lower (s : string) :
  Inv.no_lower (JS.chars (JS.toUpperCase s)).
Proof.
  unfold JS.toUpperCase. rewrite chars_str.
  induction (JS.chars s) as [|c l IH]; [constructor|].
  cbn [flat_map]. apply Forall_app. split; [apply upper_char_no_lower | exact IH].
Qed.

Lemma state_list_no_lower (opt_states : option string) :
  Inv.no_lower (JS.chars (Geocoder.state_list opt_states)).
Proof.
  unfold Geocoder.state_list. rewrite chars_str.
  apply Forall_replace_runs; [reflexivity|].
  repeat match goal with
         | |- context [if String.eqb ?a ?b then _ else _] =>
             destruct (String.eqb a b)
         end;
    try apply toUpperCase_no_lower;
    apply no_lower_check; vm_compute; reflexivity.
Qed.

Lemma app_bar_inj (a b s t : list ascii) :
  Spec.barless a -> Spec.barless b ->
  (a ++ "|"%char :: s)%list = (b ++ "|"%char :: t)%list -> a = b /\ s = t.
Proof.
  revert b. induction a as [|x a IH]; intros [|y b] Ha Hb H; cbn in H.
  - injection H as ->. split; reflexivity.
  - injection H as <- _. apply Forall_cons in Hb as [Hb _]. discriminate Hb.
  - injection H as -> _. apply Forall_cons in Ha as [Ha _]. discriminate Ha.
  - injection H as -> H. apply Forall_cons in Ha as [_ Ha].
    apply Forall_cons in Hb as [_ Hb].
    destruct (IH b Ha Hb H) as [-> ->]. split; reflexivity.
Qed.

Lemma show_undefined_inj (s t : option string) :
  (forall x, s = Some x -> Inv.no_lower (JS.chars x)) ->
  (forall x, t = Some x -> Inv.no_lower (JS.chars x)) ->
  Geocoder.show_undefined s = Geocoder.show_undefined t -> s = t.
Proof.
  assert (U : ~ Inv.no_lower (JS.chars "undefined")).
  { intros H. apply Forall_cons in H as [H _]. discriminate H. }
  intros Hs Ht. destruct s as [x|], t as [y|]; cbn; intros E.
  - rewrite E. reflexivity.
  - exfalso. apply U. rewrite <- E. apply Hs. reflexivity.
  - exfalso. apply U. rewrite E. apply Ht. reflexivity.
  - reflexivity.
Qed.

(** The term of a parsed input holds no ['|'], its states are upper-case,
    and the cache key is made of the two. *)
Lemma parseInput_key (c : Geocoder.control) :
  Spec.barless (JS.chars (Geocoder.term (Geocoder.parseInput c)))
  /\ (forall x, Geocoder.states (Geocoder.parseInput c) = Some x ->
                Inv.no_lower (JS.chars x))
  /\ Geocoder.cacheKey (Geocoder.parseInput c)
     = Geocoder.term (Geocoder.parseInput c) ++ "|"
       ++ Geocoder.show_undefined (Geocoder.states (Geocoder.parseInput c)).
Proof.
  unfold Geocoder.parseInput.
  pose proof (parse_term_chars (Geocoder.get_value c)) as H0.
  set (term0 := Geocoder.parse_term (Geocoder.get_value c)) in *.
  assert (Hb : Spec.barless (JS.chars term0)).
  { eapply Forall_impl; [exact H0|]. apply term_char_barless. }
  assert (Hl : Inv.no_lower (JS.chars term0)).
  { eapply Forall_impl; [exact H0|]. apply term_char_no_lower. }
  pose proof (barless_parts " " _ Hb) as Hp.
  pose proof (Forall_parts _ " " _ Hl) as Hq.
  set (parts := JS.split " " term0) in *.
  destruct (_ && JS.includes _ _); cbn [Geocoder.term Geocoder.states
                                          Geocoder.cacheKey].
  - split; [apply barless_join, barless_removelast; exact Hp|].
    split; [|reflexivity].
    intros x [= <-]. apply Forall_last_part. exact Hq.
  - destruct (Geocoder.states_undefined c);
      cbn [Geocoder.term Geocoder.states Geocoder.cacheKey].
    + split; [exact Hb|]. split; [|reflexivity]. intros x [=].
    + split; [exact Hb|]. split; [|reflexivity].
      intros x [= <-]. apply state_list_no_lower.
Qed.

(** X2: the cache key of a query tells its term and its state filter: two
    controls, whatever their options and texts, get the same key only for
    the same term and the same states.  The key of one query is never
    the key of another. *)
Theorem X2_cacheKey_injective (c1 c2 : Geocoder.control) :
  Geocoder.cacheKey (Geocoder.parseInput c1)
  = Geocoder.cacheKey (Geocoder.parseInput c2) ->
  Geocoder.term (Geocoder.parseInput c1)
  = Geocoder.term (Geocoder.parseInput c2)
  /\ Geocoder.states (Geocoder.parseInput c1)
     = Geocoder.states (Geocoder.parseInput c2).
Proof.
  destruct (parseInput_key c1) as (B1 & L1 & K1).
  destruct (parseInput_key c2) as (B2 & L2 & K2).
  rewrite K1, K2. intros E. apply (f_equal JS.chars) in E.
  rewrite !chars_app in E.
  change (JS.chars "|") with ["|"%char] in E. cbn [app] in E.
  apply app_bar_inj in E as [Et Es]; [|assumption..].
  apply (f_equal JS.str) in Et, Es. rewrite !str_chars in Et, Es.
  split; [exact Et|]. apply show_undefined_inj; assumption.
Qed.

(** ** Rounded coordinates ([gc._locate.getFeature], [parseInput]) *)

(** One unit further, the rounded integer is one or two further. *)
Lemma round_away_step (x y : Q) :
  (x == y + 1)%Q ->
  (JS.round_away y + 1 <= JS.round_away x <= JS.round_away y + 2)%Z.
Proof.
  intros E. unfold JS.round_away.
  destruct (Qle_bool (inject_Z 0) y) eqn:Ey;
    destruct (Qle_bool (inject_Z 0) x) eqn:Ex;
    try apply Qle_bool_iff in Ey; try apply Qle_bool_iff in Ex;
    try apply Qle_bool_false in Ey; try apply Qle_bool_false in Ex;
    change (inject_Z 0) with 0%Q in *.
  - destruct (floor_bounds (y + (1 # 2))) as [A1 A2].
    destruct (floor_bounds (x + (1 # 2))) as [B1 B2].
    split.
    + apply inject_Z_lt_le. rewrite inject_Z_plus.
      change (inject_Z 1) with 1%Q. lra.
    + assert (H : (Qfloor (x + (1 # 2)) <= Qfloor (y + (1 # 2)) + 1)%Z).
      { apply inject_Z_lt_le. rewrite inject_Z_plus.
        change (inject_Z 1) with 1%Q. lra. }
      lia.
  - lra.
  - destruct (floor_bounds (- y + (1 # 2))) as [A1 A2].
    destruct (floor_bounds (x + (1 # 2))) as [B1 B2].
    assert (H1 : (1 <= Qfloor (- y + (1 # 2)) + Qfloor (x + (1 # 2)))%Z).
    { apply inject_Z_lt_le. rewrite inject_Z_plus.
      change (inject_Z 1) with 1%Q. lra. }
    assert (H2 : (Qfloor (- y + (1 # 2)) + Qfloor (x + (1 # 2)) <= 2)%Z).
    { apply inject_Z_lt_le. rewrite inject_Z_plus.
      change (inject_Z 2) with 2%Q. lra. }
    lia.
  - destruct (floor_bounds (- y + (1 # 2))) as [A1 A2].
    destruct (floor_bounds (- x + (1 # 2))) as [B1 B2].
    assert (H1 : (Qfloor (- y + (1 # 2)) <= Qfloor (- x + (1 # 2)) + 1)%Z).
    { apply inject_Z_lt_le. rewrite inject_Z_plus.
      change (inject_Z 1) with 1%Q. lra. }
    assert (H2 : (Qfloor (- x + (1 # 2)) + 1 <= Qfloor (- y + (1 # 2)))%Z).
    { apply inject_Z_lt_le. rewrite inject_Z_plus.
      change (inject_Z 1) with 1%Q. lra. }
    lia.
Qed.

Lemma round_away_nonpos (y : Q) : (y <= 0)%Q -> (JS.round_away y <= 0)%Z.
Proof.
  intros H. unfold JS.round_away.
  destruct (Qle_bool (inject_Z 0) y) eqn:Ey.
  - destruct (floor_bounds (y + (1 # 2))) as [A1 _].
    apply inject_Z_lt_le. change (inject_Z 0) with 0%Q. lra.
  - destruct (floor_bounds (- y + (1 # 2))) as [_ A2].
    assert (H1 : (0 <= Qfloor (- y + (1 # 2)))%Z).
    { apply inject_Z_lt_le. change (inject_Z 0) with 0%Q. lra. }
    lia.
Qed.

(** The rounded value one millionth further. *)
Lemma roundCoord_step (x d : Q) :
  (d == 1 # 1000000)%Q ->
  exists k : Z,
    (1 <= k <= 2)%Z
    /\ (Geocoder.roundCoord (x + d)
        == Geocoder.roundCoord x + inject_Z k * (1 # 1000000))%Q.
Proof.
  intros Hd. unfold Geocoder.roundCoord, JS.toFixed.
  change (Z.to_pos (10 ^ Z.of_nat Geocoder.nCoordDecimals)) with 1000000%positive.
  change (inject_Z (10 ^ Z.of_nat Geocoder.nCoordDecimals))
    with (inject_Z 1000000).
  assert (E : ((x + d) * inject_Z 1000000 == x * inject_Z 1000000 + 1)%Q).
  { rewrite Hd. change (inject_Z 1000000) with (1000000 # 1)%Q. field. }
  pose proof (round_away_step _ _ E) as H.
  set (a := JS.round_away ((x + d) * inject_Z 1000000)) in *.
  set (b := JS.round_away (x * inject_Z 1000000)) in *.
  exists (a - b)%Z. split; [lia|].
  unfold Qeq, Qplus, Qmult, inject_Z. cbn. lia.
Qed.

Lemma roundCoord_back (x d : Q) :
  (d == 1 # 1000000)%Q ->
  exists k : Z,
    (1 <= k <= 2)%Z
    /\ (Geocoder.roundCoord (x + - d)
        == Geocoder.roundCoord x - inject_Z k * (1 # 1000000))%Q.
Proof.
  intros Hd. unfold Geocoder.roundCoord, JS.toFixed.
  change (Z.to_pos (10 ^ Z.of_nat Geocoder.nCoordDecimals)) with 1000000%positive.
  change (inject_Z (10 ^ Z.of_nat Geocoder.nCoordDecimals))
    with (inject_Z 1000000).
  assert (E : (x * inject_Z 1000000 == (x + - d) * inject_Z 1000000 + 1)%Q).
  { rewrite Hd. change (inject_Z 1000000) with (1000000 # 1)%Q. field. }
  pose proof (round_away_step _ _ E) as H.
  set (a := JS.round_away (x * inject_Z 1000000)) in *.
  set (b := JS.round_away ((x + - d) * inject_Z 1000000)) in *.
  exists (a - b)%Z. split; [lia|].
  unfold Qeq, Qminus, Qplus, Qopp, Qmult, inject_Z. cbn. lia.
Qed.

(** What the validator returns, property by property. *)
Lemma getFeature_fields (c : Geocoder.control) (i : Geocoder.input)
      (p : Geocoder.record) (f : Geocoder.feature) :
  Geocoder.getFeature c i p = Some f ->
  Geocoder.Latitude (Geocoder.feature_properties f)
  = JS.lift1 Geocoder.roundCoord (Geocoder.p_Latitude p)
  /\ Geocoder.LatitudeMax (Geocoder.feature_properties f)
     = JS.lift1 Geocoder.roundCoord
         (if JS.isNaN (Geocoder.p_LatitudeMax p)
          then JS.add (Geocoder.p_Latitude p) (Some Geocoder.dBounds)
          else Geocoder.p_LatitudeMax p)
  /\ Geocoder.LatitudeMin (Geocoder.feature_properties f)
     = JS.lift1 Geocoder.roundCoord
         (if JS.isNaN (Geocoder.p_LatitudeMin p)
          then JS.add (Geocoder.p_Latitude p) (Some (- Geocoder.dBounds)%Q)
          else Geocoder.p_LatitudeMin p)
  /\ Geocoder.Longitude (Geocoder.feature_properties f)
     = JS.lift1 Geocoder.roundCoord (Geocoder.p_Longitude p)
  /\ Geocoder.LongitudeMax (Geocoder.feature_properties f)
     = JS.lift1 Geocoder.roundCoord
         (if JS.isNaN (Geocoder.p_LongitudeMax p)
          then JS.add (Geocoder.p_Longitude p) (Some Geocoder.dBounds)
          else Geocoder.p_LongitudeMax p)
  /\ Geocoder.LongitudeMin (Geocoder.feature_properties f)
     = JS.lift1 Geocoder.roundCoord
         (if JS.isNaN (Geocoder.p_LongitudeMin p)
          then JS.add (Geocoder.p_Longitude p) (Some (- Geocoder.dBounds)%Q)
          else Geocoder.p_LongitudeMin p)
  /\ Geocoder.Source (Geocoder.feature_properties f)
     = JS.trim (default "" (Geocoder.p_Source p))
  /\ Geocoder.Name (Geocoder.feature_properties f)
     = JS.trim (default "" (Geocoder.p_Name p))
  /\ Geocoder.Type_ (Geocoder.feature_properties f)
     = JS.trim (default "" (Geocoder.p_Type p))
  /\ Geocoder.County (Geocoder.feature_properties f)
     = (if Spec.blank (Geocoder.p_County p) then ""
        else JS.trim (default "" (Geocoder.p_County p)))
  /\ Geocoder.State (Geocoder.feature_properties f)
     = JS.toUpperCase (JS.trim (default "" (Geocoder.p_State p)))
  /\ Geocoder.Bounds (Geocoder.feature_properties f)
     = ((Geocoder.LatitudeMin (Geocoder.feature_properties f),
         Geocoder.LongitudeMin (Geocoder.feature_properties f)),
        (Geocoder.LatitudeMax (Geocoder.feature_properties f),
         Geocoder.LongitudeMax (Geocoder.feature_properties f)))
  /\ Geocoder.coordinates f
     = (Geocoder.Longitude (Geocoder.feature_properties f),
        Geocoder.Latitude (Geocoder.feature_properties f)).
Proof.
  getFeature_normal p.
  match goal with
  | |- (if ?b then _ else _) = _ -> _ => destruct b
  end; [|discriminate].
  intros H. apply (inj Some) in H. rewrite <- H.
  cbn [Geocoder.feature_properties Geocoder.coordinates Geocoder.Latitude
       Geocoder.LatitudeMax Geocoder.LatitudeMin Geocoder.Longitude
       Geocoder.LongitudeMax Geocoder.LongitudeMin Geocoder.Source
       Geocoder.Name Geocoder.Type_ Geocoder.County Geocoder.State
       Geocoder.Bounds].
  repeat split.
Qed.

(** The extent made up around a number, in exact arithmetic: strictly
    around its rounding, one or two millionths away on each side. *)
Lemma default_extent (x : Q) :
  exists lo hi,
    JS.lift1 Geocoder.roundCoord
      (JS.add (Some x) (Some (- Geocoder.dBounds)%Q)) = Some lo
    /\ JS.lift1 Geocoder.roundCoord
         (JS.add (Some x) (Some Geocoder.dBounds)) = Some hi
    /\ (lo < Geocoder.roundCoord x)%Q /\ (Geocoder.roundCoord x < hi)%Q
    /\ (Geocoder.roundCoord x - lo <= 2 # 1000000)%Q
    /\ (hi - Geocoder.roundCoord x <= 2 # 1000000)%Q.
Proof.
  assert (Hd : (Geocoder.dBounds == 1 # 1000000)%Q) by reflexivity.
  destruct (roundCoord_step x _ Hd) as (k & Hk & Ek).
  destruct (roundCoord_back x _ Hd) as (j & Hj & Ej).
  eexists _, _. split; [reflexivity|]. split; [reflexivity|].
  assert (K1 : (1 <= inject_Z k)%Q)
    by (change 1%Q with (inject_Z 1); rewrite <- Zle_Qle; lia).
  assert (K2 : (inject_Z k <= 2)%Q)
    by (change 2%Q with (inject_Z 2); rewrite <- Zle_Qle; lia).
  assert (J1 : (1 <= inject_Z j)%Q)
    by (change 1%Q with (inject_Z 1); rewrite <- Zle_Qle; lia).
  assert (J2 : (inject_Z j <= 2)%Q)
    by (change 2%Q with (inject_Z 2); rewrite <- Zle_Qle; lia).
  rewrite Ek, Ej. repeat split; lra.
Qed.

(** X3: for a record that passes the validator and brings a latitude and
    a longitude but no extent, the extent of the feature is made up around
    the point: the rounded point lies between the minimum and the maximum,
    less than three millionths of a degree from each.  (With exact numbers
    the distance is one or two millionths, see [default_extent]; the
    rounding of doubles can move a bound by one decimal, onto the point as
    well, which this statement allows for.) *)
Theorem X3_default_extent (c : Geocoder.control) (i : Geocoder.input)
        (p : Geocoder.record) (f : Geocoder.feature) (lat lon : Q) :
  Geocoder.p_Latitude p = Some lat ->
  Geocoder.p_LatitudeMin p = None -> Geocoder.p_LatitudeMax p = None ->
  Geocoder.p_Longitude p = Some lon ->
  Geocoder.p_LongitudeMin p = None -> Geocoder.p_LongitudeMax p = None ->
  Geocoder.getFeature c i p = Some f ->
  exists south north west east,
    Geocoder.Bounds (Geocoder.feature_properties f)
    = ((Some south, Some west), (Some north, Some east))
    /\ Geocoder.coordinates f
       = (Some (Geocoder.roundCoord lon), Some (Geocoder.roundCoord lat))
    /\ (south <= Geocoder.roundCoord lat)%Q
    /\ (Geocoder.roundCoord lat <= north)%Q
    /\ (west <= Geocoder.roundCoord lon)%Q
    /\ (Geocoder.roundCoord lon <= east)%Q
    /\ (Geocoder.roundCoord lat - south < 3 # 1000000)%Q
    /\ (north - Geocoder.roundCoord lat < 3 # 1000000)%Q
    /\ (Geocoder.roundCoord lon - west < 3 # 1000000)%Q
    /\ (east - Geocoder.roundCoord lon < 3 # 1000000)%Q.
Proof.
  intros H1 H2 H3 H4 H5 H6 H.
  destruct (getFeature_fields c i p f H)
    as (F1 & F2 & F3 & F4 & F5 & F6 & _ & _ & _ & _ & _ & FB & FC).
  rewrite H1, H3 in F2. rewrite H1, H2 in F3. rewrite H1 in F1.
  rewrite H4, H6 in F5. rewrite H4, H5 in F6. rewrite H4 in F4.
  cbn [JS.isNaN] in F2, F3, F5, F6. cbn [JS.lift1] in F1, F4.
  destruct (default_extent lat) as (s & n & Es & En & A1 & A2 & A3 & A4).
  destruct (default_extent lon) as (w & e & Ew & Ee & B1 & B2 & B3 & B4).
  exists s, n, w, e.
  rewrite FB, FC, F1, F2, F3, F4, F5, F6, Es, En, Ew, Ee.
  repeat split; lra.
Qed.

Lemma roundCoord_nonpos (x : Q) :
  (x <= 0)%Q -> (Geocoder.roundCoord x <= 0)%Q.
Proof.
  intros H. unfold Geocoder.roundCoord, JS.toFixed.
  change (inject_Z (10 ^ Z.of_nat Geocoder.nCoordDecimals))
    with (1000000 # 1)%Q.
  assert (H' : (x * (1000000 # 1) <= 0)%Q) by lra.
  apply round_away_nonpos in H'.
  unfold Qle. cbn. lia.
Qed.

(** X4: a coordinate given by two numbers or by six (degrees, minutes,
    seconds twice), that is without the letters E or W, never has a
    longitude east of Greenwich: the western hemisphere is assumed,
    whatever the sign typed. *)
Theorem X4_west_assumed (parts : list string) (lat lon : Q) :
  List.length parts = 2%nat \/ List.length parts = 6%nat ->
  Geocoder.parse_latlon parts = Some (lat, lon) ->
  (lon <= 0)%Q.
Proof.
  intros Hn. unfold Geocoder.parse_latlon.
  assert (W : forall x : JS.num,
             match JS.neg (JS.abs x) with
             | Some q => (q <= 0)%Q
             | None => True
             end).
  { intros [q|]; cbn; [|exact I]. pose proof (Qabs_nonneg q). lra. }
  destruct parts as [|p0 [|p1 [|p2 [|p3 [|p4 [|p5 [|p6 r]]]]]]];
    cbn in Hn; try lia; cbn [Geocoder.latlon_of_parts].
  - specialize (W (JS.Number p1)).
    destruct (JS.Number p0); [|discriminate].
    destruct (JS.neg (JS.abs (JS.Number p1))); [|discriminate].
    intros H. apply (inj Some) in H. injection H as _ <-.
    apply roundCoord_nonpos. exact W.
  - specialize (W (Geocoder.dms2dec p3 p4 p5)).
    destruct (Geocoder.dms2dec p0 p1 p2); [|discriminate].
    destruct (JS.neg (JS.abs (Geocoder.dms2dec p3 p4 p5))); [|discriminate].
    intros H. apply (inj Some) in H. injection H as _ <-.
    apply roundCoord_nonpos. exact W.
Qed.

(** ** The menu, the selection and the requests over the events *)

Section Events.

Variable innerHTML_length : Geocoder.value -> string -> list Geocoder.feature -> nat.
Variable sort : list Geocoder.feature -> list Geocoder.feature.

Local Abbreviation _updateMenu := (Geocoder._updateMenu innerHTML_length).
Local Abbreviation endLocate := (Geocoder.endLocate innerHTML_length).
Local Abbreviation _locate := (Geocoder._locate innerHTML_length).
Local Abbreviation primary_settled := (Geocoder.primary_settled innerHTML_length).
Local Abbreviation secondary_settled := (Geocoder.secondary_settled innerHTML_length sort).
Local Abbreviation handle := (Geocoder.handle innerHTML_length sort).
Local Abbreviation run := (Geocoder.run innerHTML_length sort).

(** X5: [_updateMenu] runs the [onSuggest] callback at most once, only
    when the option holds a function, and never when the length of the
    menu content is what it was; closing a menu that was just closed
    changes nothing, so the callback does not run again. *)
Theorem X5_onSuggest_only_on_change (t : option string)
        (c : Geocoder.control) :
  (Geocoder.calls (_updateMenu t c) = Geocoder.calls c
   \/ (Geocoder.calls (_updateMenu t c)
       = Geocoder.onSuggest :: Geocoder.calls c
       /\ Geocoder.is_function (Geocoder.option_value c "onSuggest") = true))
  /\ (Geocoder.contentLength (_updateMenu t c) = Geocoder.contentLength c ->
      Geocoder.calls (_updateMenu t c) = Geocoder.calls c)
  /\ _updateMenu None (_updateMenu None c) = _updateMenu None c.
Proof.
  split; [|split].
  - unfold Geocoder._updateMenu.
    destruct (_ || _ || _ || _).
    + cbn [Geocoder.contentLength Geocoder.set_element
             Geocoder.set_suggestions].
      destruct (Geocoder.contentLength c) as [[|n0]|]; cbn; auto.
      unfold Geocoder.trigger, Geocoder.option_value. cbn.
      fold (Geocoder.option_value c "onSuggest").
      destruct (Geocoder.is_function _); cbn; auto.
    + destruct (bool_decide _); cbn; auto.
      unfold Geocoder.trigger, Geocoder.option_value. cbn.
      fold (Geocoder.option_value c "onSuggest").
      destruct (Geocoder.is_function _); cbn; auto.
  - unfold Geocoder._updateMenu.
    destruct (_ || _ || _ || _).
    + cbn [Geocoder.contentLength Geocoder.set_element
             Geocoder.set_suggestions].
      destruct (Geocoder.contentLength c) as [[|n0]|]; cbn; auto.
      intros [=].
    + cbn [Geocoder.contentLength Geocoder.set_element].
      destruct (bool_decide_reflect
                  (Geocoder.contentLength c
                   = Some (innerHTML_length
                             (Geocoder.option_value c "maxSuggestions")
                             (default "" t) (Geocoder._suggestions c))))
        as [E|E]; cbn; auto.
      intros E'. symmetry in E'. contradiction.
  - unfold Geocoder._updateMenu. cbn [default from_option String.eqb orb].
    cbn [Geocoder.contentLength Geocoder.set_element Geocoder.set_suggestions
         negb andb].
    destruct (Geocoder.contentLength c) as [[|n0]|]; try reflexivity.
    unfold Geocoder.trigger, Geocoder.option_value. cbn.
    destruct (Geocoder.is_function _); reflexivity.
Qed.

(** *** What each step leaves alone *)

Lemma menu_step_refl (e : Geocoder.element) : Inv.menu_step e e.
Proof. repeat split; auto. Qed.

Lemma menu_step_trans (e1 e2 e3 : Geocoder.element) :
  Inv.menu_step e1 e2 -> Inv.menu_step e2 e3 -> Inv.menu_step e1 e3.
Proof.
  intros (A1 & A2 & A3) (B1 & B2 & B3). split; [|split].
  - congruence.
  - congruence.
  - intros H. destruct (B3 H) as [H'|[H1 H2]].
    + exact (A3 H').
    + right. split; congruence.
Qed.

Lemma updateMenu_menu_step (t : option string) (c : Geocoder.control) :
  Inv.menu_step (Geocoder._element c) (Geocoder._element (_updateMenu t c)).
Proof.
  unfold Geocoder._updateMenu.
  destruct (_ || _ || _ || _) eqn:E.
  - cbn [Geocoder.contentLength Geocoder.set_element
           Geocoder.set_suggestions].
    destruct (Geocoder.contentLength c) as [[|n0]|];
      try (cbn; repeat split; auto; discriminate).
    unfold Geocoder.trigger. destruct (Geocoder.is_function _);
      cbn; repeat split; auto; discriminate.
  - apply orb_false_iff in E as [E He]. apply orb_false_iff in E as [_ Hv].
    unfold Geocoder.visible in Hv. unfold Geocoder.enable in He.
    apply negb_false_iff, negb_true_iff in Hv.
    apply negb_false_iff, negb_true_iff in He.
    destruct (bool_decide _); [|unfold Geocoder.trigger;
                                destruct (Geocoder.is_function _)];
      cbn; repeat split; auto.
Qed.

Lemma endLocate_frame (cyc : Geocoder.cycle) (cache : bool)
      (c : Geocoder.control) :
  Geocoder.options (endLocate cyc cache c) = Geocoder.options c
  /\ Geocoder._selected (endLocate cyc cache c) = Geocoder._selected c
  /\ Inv.menu_step (Geocoder._element c)
       (Geocoder._element (endLocate cyc cache c))
  /\ Geocoder.busy (Geocoder._element (endLocate cyc cache c)) = false.
Proof.
  unfold Geocoder.endLocate. rewrite aborted_set_element.
  destruct (Geocoder.aborted _ c).
  - cbn. repeat split; auto.
  - match goal with
    | |- context [Geocoder._updateMenu _ ?t ?c'] =>
        destruct (updateMenu_fields innerHTML_length t c')
          as (H1 & _ & H3 & _);
        pose proof (updateMenu_menu_step t c') as H4;
        assert (H5 : Geocoder.busy (Geocoder._element (_updateMenu t c'))
                     = Geocoder.busy (Geocoder._element c'))
    end.
    { unfold Geocoder._updateMenu.
      destruct (_ || _ || _ || _).
      - cbn [Geocoder.contentLength Geocoder.set_element
               Geocoder.set_suggestions].
        match goal with
        | |- context [match ?x with _ => _ end] => destruct x as [[|n0]|]
        end; try reflexivity.
        unfold Geocoder.trigger. destruct (Geocoder.is_function _);
          reflexivity.
      - destruct (bool_decide _); [|unfold Geocoder.trigger;
                                    destruct (Geocoder.is_function _)];
          reflexivity. }
    rewrite H1, H3, H5. destruct cache; cbn; repeat split; auto;
      destruct H4 as (A1 & A2 & A3); cbn in A1, A2, A3; auto.
Qed.

Lemma updateMenu_frame (t : option string) (c : Geocoder.control) :
  Geocoder.options (_updateMenu t c) = Geocoder.options c
  /\ Geocoder._selected (_updateMenu t c) = Geocoder._selected c
  /\ Geocoder.controllers (_updateMenu t c) = Geocoder.controllers c
  /\ Inv.menu_step (Geocoder._element c)
       (Geocoder._element (_updateMenu t c)).
Proof.
  destruct (updateMenu_fields innerHTML_length t c) as (H1 & _ & H3 & H4 & _).
  repeat split; try assumption; apply updateMenu_menu_step.
Qed.

(** [_locate] either ends at once and leaves the controllers alone, or
    starts a cycle: the newest controller is aborted and a new one is
    made for the cycle. *)
Lemma locate_frame (c : Geocoder.control) :
  Geocoder.options (_locate c).1 = Geocoder.options c
  /\ Geocoder._selected (_locate c).1 = Geocoder._selected c
  /\ Inv.menu_step (Geocoder._element c) (Geocoder._element (_locate c).1)
  /\ (((_locate c).2 = None
       /\ Geocoder.controllers (_locate c).1 = Geocoder.controllers c)
      \/ ((_locate c).2
          = Some {| Geocoder.cycle_input := Geocoder.parseInput c;
                    Geocoder.cycle_controller
                    := List.length (Geocoder.controllers c) |}
          /\ Geocoder.controllers (_locate c).1
             = (<[(List.length (Geocoder.controllers c) - 1)%nat := true]>
                  (Geocoder.controllers c) ++ [false])%list
          /\ Geocoder._suggestions (_locate c).1 = []
          /\ Geocoder.menu_open (Geocoder._element (_locate c).1)
             = Geocoder.menu_open (Geocoder._element c)
          /\ Geocoder.calls (_locate c).1 = Geocoder.calls c)).
Proof.
  assert (E : forall t c',
             Geocoder.options c' = Geocoder.options c ->
             Geocoder._selected c' = Geocoder._selected c ->
             Geocoder.controllers c' = Geocoder.controllers c ->
             Geocoder._element c' = Geocoder._element c ->
             Geocoder.options (_updateMenu t c') = Geocoder.options c
             /\ Geocoder._selected (_updateMenu t c') = Geocoder._selected c
             /\ Inv.menu_step (Geocoder._element c)
                  (Geocoder._element (_updateMenu t c'))
             /\ Geocoder.controllers (_updateMenu t c')
                = Geocoder.controllers c).
  { intros t c' H1 H2 H3 H4.
    destruct (updateMenu_frame t c') as (A1 & A2 & A3 & A4).
    rewrite A1, A2, A3, <- H4. repeat split; auto; apply A4. }
  unfold Geocoder._locate.
  destruct (JS.lt _ _).
  { cbn [fst snd].
    destruct (E None c) as (H1 & H2 & H3 & H4); try reflexivity.
    split; [exact H1|]. split; [exact H2|]. split; [exact H3|].
    left. split; [reflexivity | exact H4]. }
  destruct (Geocoder._cache c !! _) as [features|].
  { cbn [fst snd].
    destruct (E (Some (Geocoder.term (Geocoder.parseInput c)))
                (Geocoder.set_suggestions features c))
      as (H1 & H2 & H3 & H4); try reflexivity.
    split; [exact H1|]. split; [exact H2|]. split; [exact H3|].
    left. split; [reflexivity | exact H4]. }
  destruct (Geocoder.latlon (Geocoder.parseInput c) ≫= _) as [f|].
  { cbn [fst snd].
    destruct (E (Some (Geocoder.term (Geocoder.parseInput c)))
                (Geocoder.set_suggestions [f] c))
      as (H1 & H2 & H3 & H4); try reflexivity.
    split; [exact H1|]. split; [exact H2|]. split; [exact H3|].
    left. split; [reflexivity | exact H4]. }
  cbn [fst snd]. split; [reflexivity|]. split; [reflexivity|].
  split; [cbn; repeat split; auto|].
  right. cbn. rewrite length_insert. repeat split; reflexivity.
Qed.

Lemma primary_frame (cyc : Geocoder.cycle) (r : Geocoder.primary_response)
      (c : Geocoder.control) :
  Geocoder.options (primary_settled cyc r c).1 = Geocoder.options c
  /\ Geocoder._selected (primary_settled cyc r c).1 = Geocoder._selected c
  /\ Geocoder.controllers (primary_settled cyc r c).1
     = Geocoder.controllers c
  /\ Inv.menu_step (Geocoder._element c)
       (Geocoder._element (primary_settled cyc r c).1)
  /\ (((primary_settled cyc r c).2 = false
       /\ Geocoder.busy (Geocoder._element (primary_settled cyc r c).1)
          = false)
      \/ primary_settled cyc r c = (c, true)).
Proof.
  assert (E : forall cache c',
             Geocoder.options c' = Geocoder.options c ->
             Geocoder._selected c' = Geocoder._selected c ->
             Geocoder.controllers c' = Geocoder.controllers c ->
             Geocoder._element c' = Geocoder._element c ->
             Geocoder.options (endLocate cyc cache c') = Geocoder.options c
             /\ Geocoder._selected (endLocate cyc cache c')
                = Geocoder._selected c
             /\ Geocoder.controllers (endLocate cyc cache c')
                = Geocoder.controllers c
             /\ Inv.menu_step (Geocoder._element c)
                  (Geocoder._element (endLocate cyc cache c'))
             /\ (((endLocate cyc cache c', false).2 = false
                  /\ Geocoder.busy (Geocoder._element (endLocate cyc cache c'))
                     = false)
                 \/ (endLocate cyc cache c', false) = (c, true))).
  { intros cache c' H1 H2 H3 H4.
    destruct (endLocate_frame cyc cache c') as (A1 & A2 & A3 & A4).
    rewrite A1, A2, endLocate_controllers, <- H4.
    split; [exact H1|]. split; [exact H2|]. split; [exact H3|].
    split; [exact A3|]. left. split; [reflexivity | exact A4]. }
  unfold Geocoder.primary_settled.
  destruct r as [| | |[|p json]];
    try (destruct (_ || _); [apply E; reflexivity|];
         cbn [fst snd]; split; [reflexivity|]; split; [reflexivity|];
         split; [reflexivity|]; split; [apply menu_step_refl|];
         right; reflexivity).
  apply E; reflexivity.
Qed.

Lemma secondary_frame (cyc : Geocoder.cycle)
      (r : Geocoder.secondary_response) (c : Geocoder.control) :
  Geocoder.options (secondary_settled cyc r c) = Geocoder.options c
  /\ Geocoder._selected (secondary_settled cyc r c) = Geocoder._selected c
  /\ Geocoder.controllers (secondary_settled cyc r c)
     = Geocoder.controllers c
  /\ Inv.menu_step (Geocoder._element c)
       (Geocoder._element (secondary_settled cyc r c))
  /\ Geocoder.busy (Geocoder._element (secondary_settled cyc r c)) = false.
Proof.
  assert (E : forall cache c',
             Geocoder.options c' = Geocoder.options c ->
             Geocoder._selected c' = Geocoder._selected c ->
             Geocoder.controllers c' = Geocoder.controllers c ->
             Geocoder._element c' = Geocoder._element c ->
             Geocoder.options (endLocate cyc cache c') = Geocoder.options c
             /\ Geocoder._selected (endLocate cyc cache c')
                = Geocoder._selected c
             /\ Geocoder.controllers (endLocate cyc cache c')
                = Geocoder.controllers c
             /\ Inv.menu_step (Geocoder._element c)
                  (Geocoder._element (endLocate cyc cache c'))
             /\ Geocoder.busy (Geocoder._element (endLocate cyc cache c'))
                = false).
  { intros cache c' H1 H2 H3 H4.
    destruct (endLocate_frame cyc cache c') as (A1 & A2 & A3 & A4).
    rewrite A1, A2, endLocate_controllers, <- H4.
    split; [exact H1|]. split; [exact H2|]. split; [exact H3|].
    split; [exact A3 | exact A4]. }
  unfold Geocoder.secondary_settled.
  destruct r as [| |[|a l]]; try (apply E; reflexivity).
  destruct (Geocoder.collect _ _ _ _); apply E; reflexivity.
Qed.

(** [setOptions] leaves the controllers, the callbacks that have run and
    the text box alone. *)
Lemma setOptions_frame (args : Geocoder.arguments) (c : Geocoder.control) :
  Geocoder.controllers (default c (Geocoder.setOptions args c))
  = Geocoder.controllers c
  /\ Geocoder.calls (default c (Geocoder.setOptions args c))
     = Geocoder.calls c
  /\ Geocoder.input_value
       (Geocoder._element (default c (Geocoder.setOptions args c)))
     = Geocoder.input_value (Geocoder._element c)
  /\ Geocoder.input_disabled
       (Geocoder._element (default c (Geocoder.setOptions args c)))
     = Geocoder.input_disabled (Geocoder._element c).
Proof.
  unfold Geocoder.setOptions.
  destruct args as [|[]|]; cbn; repeat split; reflexivity.
Qed.

(** Every event but showing, enabling and [setOptions] is a step that
    opens the menu only on a visible and enabled control. *)
Lemma handle_menu_step (e : Geocoder.event) (c : Geocoder.control) :
  match e with
  | Geocoder.ev_visible _ | Geocoder.ev_enable _
  | Geocoder.ev_setOptions _ => True
  | _ => Inv.menu_step (Geocoder._element c) (Geocoder._element (handle e c))
  end.
Proof.
  destruct e as [text|cyc r|cyc r|k| |index|args|show|on];
    cbn [Geocoder.handle]; try exact I.
  - eapply menu_step_trans; [|apply locate_frame].
    cbn. repeat split; auto.
  - apply primary_frame.
  - apply secondary_frame.
  - apply menu_step_refl.
  - apply updateMenu_frame.
  - destruct (trigger_fields Geocoder.onSelect
                (Geocoder.set_element
                   (Geocoder.set_input_value ""
                      (Geocoder._element
                         (Geocoder.set_selected
                            (Geocoder._suggestions c !! index) c)))
                   (Geocoder.set_selected
                      (Geocoder._suggestions c !! index) c)))
      as (_ & _ & _ & _ & -> & _).
    cbn. repeat split; auto.
Qed.

Lemma menu_step_off (e e' : Geocoder.element) :
  Inv.menu_step e e' ->
  negb (negb (Geocoder.hidden e) && negb (Geocoder.input_disabled e)) = true ->
  negb (negb (Geocoder.hidden e') && negb (Geocoder.input_disabled e')) = true
  /\ (Geocoder.menu_open e' = true -> Geocoder.menu_open e = true).
Proof.
  intros (H1 & H2 & H3) H. rewrite H1, H2. split; [exact H|].
  intros Ho. destruct (H3 Ho) as [H'|[A B]]; [exact H'|].
  rewrite A, B in H. discriminate H.
Qed.

(** X6: a hidden or disabled control does not open its menu: as long as no
    event shows or enables the control and [setOptions] is not called, it
    stays hidden or disabled, and its menu is open after the events only if
    it was open before them, whatever texts are typed and whatever the
    services answer.  ([setOptions] assigns the class names anew, which
    shows a hidden control again.) *)
Theorem X6_hidden_control_opens_no_menu (events : list Geocoder.event)
        (c : Geocoder.control) :
  Inv.off c = true ->
  existsb Inv.switches_on events = false ->
  Inv.off (run events c) = true
  /\ (Geocoder.menu_open (Geocoder._element (run events c)) = true ->
      Geocoder.menu_open (Geocoder._element c) = true).
Proof.
  revert c. induction events as [|e events IH]; intros c Hc He.
  - split; [exact Hc | auto].
  - cbn [existsb] in He. apply orb_false_iff in He as [He1 He2].
    assert (S : Inv.off (handle e c) = true
                /\ (Geocoder.menu_open (Geocoder._element (handle e c)) = true
                    -> Geocoder.menu_open (Geocoder._element c) = true)).
    { pose proof (handle_menu_step e c) as M.
      unfold Inv.off, Geocoder.visible, Geocoder.enable in *.
      destruct e as [text|cyc r|cyc r|k| |index|args|show|on];
        try (apply (menu_step_off _ _ M Hc)).
      - discriminate He1.
      - destruct show; [discriminate He1|]. cbn. split; auto.
      - destruct on; [discriminate He1|]. cbn.
        rewrite andb_false_r. split; auto. }
    destruct S as [S1 S2].
    destruct (IH (handle e c) S1 He2) as [I1 I2].
    split; [exact I1|]. intros H. apply S2, I2, H.
Qed.

(** *** One live request *)

Lemma handle_controllers (e : Geocoder.event) (c : Geocoder.control) :
  Geocoder.controllers (handle e c) = Geocoder.controllers c
  \/ (exists k, Geocoder.controllers (handle e c)
                = <[k := true]> (Geocoder.controllers c))
  \/ Geocoder.controllers (handle e c)
     = (<[(List.length (Geocoder.controllers c) - 1)%nat := true]>
          (Geocoder.controllers c) ++ [false])%list.
Proof.
  destruct e as [text|cyc r|cyc r|k| |index|args|show|on];
    cbn [Geocoder.handle].
  - destruct (locate_frame
                (Geocoder.set_element
                   (Geocoder.set_input_value text (Geocoder._element c)) c))
      as (_ & _ & _ & [[_ H]|(_ & H & _)]).
    + left. exact H.
    + right. right. exact H.
  - left. apply primary_frame.
  - left. apply secondary_frame.
  - right. left. exists k. reflexivity.
  - left. apply updateMenu_frame.
  - left.
    match goal with
    | |- context [Geocoder.trigger ?cb ?c'] =>
        destruct (trigger_fields cb c') as (_ & _ & _ & _ & _ & ->)
    end.
    reflexivity.
  - left. apply setOptions_frame.
  - left. reflexivity.
  - left. reflexivity.
Qed.

Lemma one_live_abort (k : nat) (l : list bool) :
  (forall j, (S j < List.length l)%nat -> default false (l !! j) = true) ->
  forall j, (S j < List.length (<[k := true]> l))%nat ->
            default false (<[k := true]> l !! j) = true.
Proof.
  intros H j Hj. rewrite length_insert in Hj.
  apply aborted_insert, H, Hj.
Qed.

Lemma one_live_renew (l : list bool) :
  (forall j, (S j < List.length l)%nat -> default false (l !! j) = true) ->
  forall j,
    (j < List.length l)%nat ->
    default false
      ((<[(List.length l - 1)%nat := true]> l ++ [false])%list !! j) = true.
Proof.
  intros H j Hj. apply aborted_app.
  destruct (decide (j = (List.length l - 1)%nat)) as [->|Hne].
  - rewrite list_lookup_insert_eq by lia. reflexivity.
  - apply aborted_insert, H. lia.
Qed.

Lemma one_live_handle (e : Geocoder.event) (c : Geocoder.control) :
  Inv.one_live c -> Inv.one_live (handle e c).
Proof.
  intros [Hn H]. unfold Inv.one_live, Geocoder.aborted in *.
  destruct (handle_controllers e c) as [E|[[k E]|E]]; rewrite E.
  - split; assumption.
  - split.
    + intros E'. apply (f_equal (@List.length bool)) in E'.
      rewrite length_insert in E'. destruct (Geocoder.controllers c);
        [contradiction | discriminate E'].
    + apply one_live_abort. exact H.
  - split.
    + intros E'. apply (f_equal (@List.length bool)) in E'.
      rewrite length_app in E'. cbn in E'. lia.
    + intros j Hj. rewrite length_app, length_insert in Hj. cbn in Hj.
      apply one_live_renew; [exact H | lia].
Qed.

(** X7: at most one request cycle is live.  After any sequence of events
    on a new control every request controller but the newest has aborted;
    and when [_locate] starts a cycle, the cycle gets a new controller
    that has not aborted, while the controllers of all earlier cycles
    have. *)
Theorem X7_one_live_cycle :
  (forall events, Inv.one_live (run events Geocoder._create))
  /\ (forall c cyc,
        Inv.one_live c -> (_locate c).2 = Some cyc ->
        Geocoder.cycle_controller cyc = List.length (Geocoder.controllers c)
        /\ Geocoder.aborted (Geocoder.cycle_controller cyc) (_locate c).1
           = false
        /\ (forall k, (k < Geocoder.cycle_controller cyc)%nat ->
                      Geocoder.aborted k (_locate c).1 = true)).
Proof.
  split.
  - intros events.
    assert (G : forall c, Inv.one_live c -> Inv.one_live (run events c)).
    { induction events as [|e events IH]; intros c Hc; [exact Hc|].
      apply (IH (handle e c)), one_live_handle, Hc. }
    apply G. split; [discriminate|]. intros k Hk. cbn in Hk. lia.
  - intros c cyc [Hn H] Hc.
    destruct (locate_frame c) as (_ & _ & _ & [[E _]|(E & Hl & _)]);
      rewrite E in Hc; [discriminate Hc|].
    apply (inj Some) in Hc. subst cyc. cbn [Geocoder.cycle_controller].
    unfold Geocoder.aborted. rewrite Hl. split; [reflexivity|]. split.
    + rewrite lookup_app_r by (rewrite length_insert; lia).
      rewrite length_insert, Nat.sub_diag. reflexivity.
    + intros k Hk. apply one_live_renew; assumption.
Qed.

(** *** The selection *)

Lemma handle_selected (e : Geocoder.event) (c : Geocoder.control) :
  Inv.selects e = false ->
  Geocoder.getSelected (handle e c) = Geocoder.getSelected c.
Proof.
  unfold Geocoder.getSelected.
  destruct e as [text|cyc r|cyc r|k| |index|args|show|on];
    cbn [Geocoder.handle Inv.selects]; intros He; try discriminate He.
  - destruct (locate_frame
                (Geocoder.set_element
                   (Geocoder.set_input_value text (Geocoder._element c)) c))
      as (_ & -> & _).
    reflexivity.
  - apply primary_frame.
  - apply secondary_frame.
  - reflexivity.
  - apply updateMenu_frame.
  - reflexivity.
  - reflexivity.
Qed.

(** X8: the selection is assigned by a click on a menu item and by
    [setOptions] only: texts typed, answers of the services, timeouts,
    closing, hiding and disabling leave [getSelected()] as it was, so a
    new search does not forget the place chosen last. *)
Theorem X8_selection_kept (events : list Geocoder.event)
        (c : Geocoder.control) :
  existsb Inv.selects events = false ->
  Geocoder.getSelected (run events c) = Geocoder.getSelected c.
Proof.
  revert c. induction events as [|e events IH]; intros c He; [reflexivity|].
  cbn [existsb] in He. apply orb_false_iff in He as [He1 He2].
  change (run (e :: events) c) with (run events (handle e c)).
  rewrite (IH _ He2). apply handle_selected. exact He1.
Qed.

(** X9: while a request is out the list of suggestions is empty although
    the menu still shows what it showed: a click on one of its items then
    sets the selection to undefined, clears the text box and still runs
    the [onSelect] callback. *)
Theorem X9_click_while_pending (c : Geocoder.control) (cyc : Geocoder.cycle)
        (index : nat) :
  (_locate c).2 = Some cyc ->
  Geocoder.menu_open (Geocoder._element (_locate c).1)
  = Geocoder.menu_open (Geocoder._element c)
  /\ Geocoder.getSuggestions (_locate c).1 = []
  /\ Geocoder.getSelected (handle (Geocoder.ev_click index) (_locate c).1)
     = None
  /\ Geocoder.get_value (handle (Geocoder.ev_click index) (_locate c).1) = ""
  /\ Geocoder.calls (handle (Geocoder.ev_click index) (_locate c).1)
     = if Geocoder.is_function (Geocoder.option_value c "onSelect")
       then Geocoder.onSelect :: Geocoder.calls c
       else Geocoder.calls c.
Proof.
  intros Hc.
  destruct (locate_frame c) as (Ho & _ & _ & [[E _]|(_ & _ & Hs & Hm & Hk)]);
    [rewrite E in Hc; discriminate Hc|].
  split; [exact Hm|]. split; [exact Hs|].
  cbn [Geocoder.handle]. unfold Geocoder.getSelected, Geocoder.get_value.
  unfold Geocoder.trigger, Geocoder.option_value.
  cbn [Geocoder.options Geocoder.set_element Geocoder.set_selected].
  rewrite Ho. fold (Geocoder.option_value c "onSelect").
  destruct (Geocoder.is_function _); cbn; rewrite Hs, ?Hk;
    repeat split; reflexivity.
Qed.

(** X10: the end of a cycle clears the busy mark of the control, also
    when the cycle was aborted: every answer of the secondary service
    does, and so does every answer of the primary service after which the
    secondary service is not asked.  The answer to a request that a newer
    one has replaced thus clears the mark while the newer request is still
    out. *)
Theorem X10_busy_cleared (cyc : Geocoder.cycle)
        (r1 : Geocoder.primary_response) (r2 : Geocoder.secondary_response)
        (c : Geocoder.control) :
  Geocoder.busy (Geocoder._element (secondary_settled cyc r2 c)) = false
  /\ (((primary_settled cyc r1 c).2 = false
       /\ Geocoder.busy (Geocoder._element (primary_settled cyc r1 c).1)
          = false)
      \/ primary_settled cyc r1 c = (c, true)).
Proof.
  split; [apply secondary_frame | apply primary_frame].
Qed.

(** *** The options *)

Lemma recognized_default (name : string) :
  is_Some (Geocoder.defaultOptions !! name) <-> Geocoder.recognized name = true.
Proof.
  unfold Geocoder.recognized. rewrite bool_decide_eq_true. reflexivity.
Qed.

Lemma merge_snoc (target : gmap string Geocoder.value)
      (fields : list (string * Geocoder.value)) (kv : string * Geocoder.value) :
  Geocoder.merge target (fields ++ [kv])%list
  = <[kv.1 := kv.2]> (Geocoder.merge target fields).
Proof. unfold Geocoder.merge. rewrite fold_left_app. reflexivity. Qed.

Lemma given_snoc (fields : list (string * Geocoder.value))
      (kv : string * Geocoder.value) (name : string) :
  Inv.given (fields ++ [kv])%list name
  = if String.eqb kv.1 name then Some kv.2 else Inv.given fields name.
Proof. unfold Inv.given. rewrite fold_left_app. reflexivity. Qed.

(** Looking a name up after the merge: the last field of that name, or
    what the target held. *)
Lemma merge_lookup (target : gmap string Geocoder.value)
      (fields : list (string * Geocoder.value)) (name : string) :
  Geocoder.merge target fields !! name
  = match Inv.given fields name with
    | Some v => Some v
    | None => target !! name
    end.
Proof.
  induction fields as [|kv fields IH] using rev_ind; [reflexivity|].
  rewrite merge_snoc, given_snoc.
  destruct (String.eqb_spec kv.1 name) as [<-|Hne].
  - apply lookup_insert_eq.
  - rewrite lookup_insert_ne by exact Hne. exact IH.
Qed.

Lemma given_recognized (fields : list (string * Geocoder.value))
      (name : string) :
  Inv.given (filter (fun kv => Geocoder.recognized kv.1) fields) name
  = if Geocoder.recognized name then Inv.given fields name else None.
Proof.
  induction fields as [|kv fields IH] using rev_ind.
  - destruct (Geocoder.recognized name); reflexivity.
  - rewrite filter_app, filter_cons, filter_nil.
    destruct (decide (Geocoder.recognized kv.1)) as [Ek|Ek].
    + apply Is_true_true in Ek. rewrite !given_snoc, IH.
      destruct (String.eqb_spec kv.1 name) as [<-|Hne].
      * rewrite Ek. reflexivity.
      * reflexivity.
    + apply Is_true_false in Ek. rewrite app_nil_r, given_snoc, IH.
      destruct (String.eqb_spec kv.1 name) as [<-|Hne]; [|reflexivity].
      rewrite Ek. reflexivity.
Qed.

(** What an accepted call of [setOptions] makes of the options. *)
Lemma setOptions_options (args : Geocoder.arguments)
      (fields : list (string * Geocoder.value)) (c : Geocoder.control) :
  Inv.fields_of args = Some fields ->
  exists c',
    Geocoder.setOptions args c = Some c'
    /\ Geocoder.options c'
       = Some (Geocoder.merge (default Geocoder.defaultOptions
                                 (Geocoder.options c))
                 (filter (fun kv => Geocoder.recognized kv.1) fields)).
Proof.
  destruct args as [|[]|name v]; cbn [Inv.fields_of]; intros [= <-];
    eexists; (split; reflexivity).
Qed.

(** X11: what [setOptions] makes of the options, for an object of
    options, an array or a name and a value: an option of a recognized
    name that the call gives gets the value given last; every other option
    keeps its value, the default one at the first call; a name that is not
    recognized changes nothing. *)
Theorem X11_setOptions_merges (args : Geocoder.arguments)
        (fields : list (string * Geocoder.value)) (c : Geocoder.control)
        (name : string) :
  Inv.fields_of args = Some fields ->
  exists c',
    Geocoder.setOptions args c = Some c'
    /\ Geocoder.option_value c' name
       = match (if Geocoder.recognized name then Inv.given fields name
                else None) with
         | Some v => v
         | None =>
             default Geocoder.VUndefined
               (default Geocoder.defaultOptions (Geocoder.options c) !! name)
         end.
Proof.
  intros Hf. destruct (setOptions_options args fields c Hf) as (c' & E & Ho).
  exists c'. split; [exact E|].
  unfold Geocoder.option_value. rewrite Ho, merge_lookup, given_recognized.
  destruct (if Geocoder.recognized name then _ else _); reflexivity.
Qed.

Lemma handle_options (e : Geocoder.event) (c : Geocoder.control) :
  Geocoder.options (handle e c) = Geocoder.options c
  \/ exists args fields,
       Inv.fields_of args = Some fields
       /\ Geocoder.options (handle e c)
          = Some (Geocoder.merge (default Geocoder.defaultOptions
                                    (Geocoder.options c))
                    (filter (fun kv => Geocoder.recognized kv.1) fields)).
Proof.
  destruct e as [text|cyc r|cyc r|k| |index|args|show|on];
    cbn [Geocoder.handle]; try (left; reflexivity).
  - left.
    destruct (locate_frame
                (Geocoder.set_element
                   (Geocoder.set_input_value text (Geocoder._element c)) c))
      as (-> & _).
    reflexivity.
  - left. apply primary_frame.
  - left. apply secondary_frame.
  - left. apply updateMenu_frame.
  - left.
    match goal with
    | |- context [Geocoder.trigger ?cb ?c'] =>
        destruct (trigger_fields cb c') as (-> & _)
    end.
    reflexivity.
  - destruct (Inv.fields_of args) as [fields|] eqn:Hf.
    + right. exists args, fields. split; [exact Hf|].
      destruct (setOptions_options args fields c Hf) as (c' & -> & Ho).
      exact Ho.
    + left. destruct args as [|[]|]; try discriminate Hf; reflexivity.
Qed.

Lemma merge_names (target : gmap string Geocoder.value)
      (fields : list (string * Geocoder.value)) :
  (forall name, is_Some (target !! name) <-> Geocoder.recognized name = true) ->
  forall name,
    is_Some (Geocoder.merge target
               (filter (fun kv => Geocoder.recognized kv.1) fields)
             !! name)
    <-> Geocoder.recognized name = true.
Proof.
  intros Ht name. rewrite merge_lookup, given_recognized.
  destruct (Geocoder.recognized name) eqn:E.
  - split; [reflexivity|]. intros _.
    destruct (Inv.given fields name); [eexists; reflexivity|].
    apply Ht. exact E.
  - rewrite Ht. rewrite E. reflexivity.
Qed.

(** X12: the options of a control hold the recognized names and no
    others, whatever calls of [setOptions] and other events the control
    has seen: a name that is not recognized never becomes an option. *)
Theorem X12_options_are_recognized (events : list Geocoder.event)
        (o : gmap string Geocoder.value) (name : string) :
  Geocoder.options (run events Geocoder._create) = Some o ->
  (is_Some (o !! name) <-> Geocoder.recognized name = true).
Proof.
  assert (G : forall c,
             (forall o', Geocoder.options c = Some o' ->
                         forall n, is_Some (o' !! n)
                                   <-> Geocoder.recognized n = true) ->
             forall o', Geocoder.options (run events c) = Some o' ->
                        forall n, is_Some (o' !! n)
                                  <-> Geocoder.recognized n = true).
  { induction events as [|e events IH]; intros c Hc; [exact Hc|].
    apply (IH (handle e c)).
    destruct (handle_options e c) as [E|(args & fields & _ & E)];
      rewrite E; [exact Hc|].
    intros o' Ho. apply (inj Some) in Ho. subst o'. apply merge_names.
    destruct (Geocoder.options c) as [o0|]; cbn [default from_option].
    - apply Hc. reflexivity.
    - apply recognized_default. }
  intros H. apply (G Geocoder._create); [|exact H].
  intros o' [=].
Qed.

(** *** Asking again *)

Lemma updateMenu_value (t : option string) (c : Geocoder.control) :
  Geocoder.get_value (_updateMenu t c) = Geocoder.get_value c.
Proof.
  unfold Geocoder.get_value, Geocoder._updateMenu.
  destruct (_ || _ || _ || _).
  - cbn [Geocoder.contentLength Geocoder.set_element
           Geocoder.set_suggestions].
    destruct (Geocoder.contentLength c) as [[|n0]|]; try reflexivity.
    unfold Geocoder.trigger. destruct (Geocoder.is_function _); reflexivity.
  - destruct (bool_decide _); [|unfold Geocoder.trigger;
                                destruct (Geocoder.is_function _)];
      reflexivity.
Qed.

(** The parsed input and the check of the number of characters read the
    text box and the options, nothing else. *)
Lemma parseInput_ext (c c' : Geocoder.control) :
  Geocoder.get_value c' = Geocoder.get_value c ->
  Geocoder.options c' = Geocoder.options c ->
  Geocoder.parseInput c' = Geocoder.parseInput c
  /\ JS.lt (JS.of_Z (Z.of_nat (String.length
                                 (JS.trim (Geocoder.get_value c')))))
           (Geocoder.option_number c' "minCharacters")
     = JS.lt (JS.of_Z (Z.of_nat (String.length
                                   (JS.trim (Geocoder.get_value c)))))
             (Geocoder.option_number c "minCharacters").
Proof.
  intros Hv Ho.
  unfold Geocoder.parseInput, Geocoder.states_undefined,
    Geocoder.option_number, Geocoder.option_string, Geocoder.option_value.
  rewrite Hv, Ho. split; reflexivity.
Qed.

(** What is known when [_locate] has started a cycle. *)
Lemma locate_started (c : Geocoder.control) (cyc : Geocoder.cycle) :
  (_locate c).2 = Some cyc ->
  JS.lt (JS.of_Z (Z.of_nat (String.length (JS.trim (Geocoder.get_value c)))))
        (Geocoder.option_number c "minCharacters") = false
  /\ Geocoder._cache c !! Geocoder.cacheKey (Geocoder.parseInput c) = None
  /\ Geocoder.get_value (_locate c).1 = Geocoder.get_value c
  /\ Geocoder.cycle_input cyc = Geocoder.parseInput c
  /\ Geocoder.aborted (Geocoder.cycle_controller cyc) (_locate c).1 = false.
Proof.
  unfold Geocoder._locate.
  destruct (JS.lt _ _); [intros [=]|].
  destruct (Geocoder._cache c !! _) as [features|]; [intros [=]|].
  destruct (Geocoder.latlon (Geocoder.parseInput c) ≫= _) as [f|];
    [intros [=]|].
  cbn [fst snd]. intros H. apply (inj Some) in H. subst cyc.
  repeat split; try reflexivity.
  unfold Geocoder.aborted. cbn.
  rewrite lookup_app_r by (rewrite length_insert; lia).
  rewrite length_insert, Nat.sub_diag. reflexivity.
Qed.

(** X13: an answer is asked for once.  When [_locate] has started a cycle
    and the primary service answers it with records, the features made of
    the records are stored under the key of the query; [_locate] on the
    control as the answer left it then starts no request: it shows the
    stored features again. *)
Theorem X13_cached_answer_reused (c : Geocoder.control)
        (cyc : Geocoder.cycle) (json : list Geocoder.record) :
  (_locate c).2 = Some cyc -> json <> [] ->
  exists c2,
    primary_settled cyc (Geocoder.primary_array json) (_locate c).1
    = (c2, false)
    /\ Geocoder._cache c2 !! Geocoder.cacheKey (Geocoder.parseInput c)
       = Some (omap (Geocoder.getFeature (_locate c).1
                       (Geocoder.parseInput c)) json)
    /\ _locate c2
       = (_updateMenu (Some (Geocoder.term (Geocoder.parseInput c)))
            (Geocoder.set_suggestions
               (omap (Geocoder.getFeature (_locate c).1
                        (Geocoder.parseInput c)) json) c2),
          None).
Proof.
  intros Hc Hj.
  destruct (locate_started c cyc Hc) as (Hg & _ & Hv & Hi & Ha).
  destruct (locate_frame c) as (Ho & _).
  destruct json as [|p json]; [contradiction|].
  set (c1 := (_locate c).1) in *.
  unfold Geocoder.primary_settled. rewrite Hi.
  set (features := omap (Geocoder.getFeature c1 (Geocoder.parseInput c))
                        (p :: json)).
  set (c2 := endLocate cyc true (Geocoder.set_suggestions features c1)).
  exists c2. split; [reflexivity|].
  assert (Hk : Geocoder._cache c2 !! Geocoder.cacheKey (Geocoder.parseInput c)
               = Some features).
  { unfold c2.
    rewrite (endLocate_cache innerHTML_length cyc true
               (Geocoder.set_suggestions features c1) Ha).
    rewrite Hi. apply lookup_insert_eq. }
  split; [exact Hk|].
  assert (Hv2 : Geocoder.get_value c2 = Geocoder.get_value c).
  { unfold c2, Geocoder.endLocate. rewrite aborted_set_element.
    change (Geocoder.aborted (Geocoder.cycle_controller cyc)
              (Geocoder.set_suggestions features c1))
      with (Geocoder.aborted (Geocoder.cycle_controller cyc) c1).
    rewrite Ha, updateMenu_value. exact Hv. }
  assert (Ho2 : Geocoder.options c2 = Geocoder.options c).
  { unfold c2.
    destruct (endLocate_frame cyc true (Geocoder.set_suggestions features c1))
      as (-> & _).
    exact Ho. }
  destruct (parseInput_ext c c2 Hv2 Ho2) as [Ep Eg].
  unfold Geocoder._locate at 1. rewrite Eg, Hg, Ep, Hk. reflexivity.
Qed.

(** *** The listeners of the text box *)

Local Abbreviation typing := (Geocoder.typing innerHTML_length).
Local Abbreviation keydown := (Geocoder.keydown innerHTML_length sort).

Lemma typing_app (k1 k2 : list Geocoder.keystroke)
      (st : option unit * Geocoder.control) :
  typing (k1 ++ k2)%list st = typing k2 (typing k1 st).
Proof. unfold Geocoder.typing. apply fold_left_app. Qed.

(** Edits change the text box and nothing else of the control. *)
Lemma typing_edits (texts : list string) :
  forall timer c,
  exists e',
    (typing (map Geocoder.edit texts) (timer, c)).2
    = Geocoder.set_element e' c
    /\ forall text, Geocoder.set_input_value text e'
                    = Geocoder.set_input_value text (Geocoder._element c).
Proof.
  induction texts as [|t texts IH]; intros timer c.
  - exists (Geocoder._element c). split; [destruct c|]; reflexivity.
  - destruct (IH (Some tt)
                (Geocoder.set_element
                   (Geocoder.set_input_value t (Geocoder._element c)) c))
      as (e' & E1 & E2).
    exists e'. split; [exact E1|]. intros text. rewrite E2. reflexivity.
Qed.

(** X14: the [input] listener is debounced.  However many edits follow
    each other, and whether a timer was armed before or not, [_locate]
    runs once, when the timer of the last edit expires, and on the text of
    the last edit; a timer that has fired does not fire again. *)
Theorem X14_debounced_locate (texts : list string) (text : string)
        (timer : option unit) (c : Geocoder.control) :
  typing (map Geocoder.edit (texts ++ [text]) ++ [Geocoder.pause])%list
         (timer, c)
  = (None, handle (Geocoder.ev_input text) c)
  /\ typing (map Geocoder.edit (texts ++ [text])
             ++ [Geocoder.pause; Geocoder.pause])%list (timer, c)
     = (None, handle (Geocoder.ev_input text) c)
  /\ typing [Geocoder.pause] (None, c) = (None, c).
Proof.
  assert (E : typing (map Geocoder.edit (texts ++ [text])
                      ++ [Geocoder.pause])%list (timer, c)
              = (None, handle (Geocoder.ev_input text) c)).
  { rewrite map_app, <- app_assoc, typing_app.
    destruct (typing_edits texts timer c) as (e' & E1 & E2).
    destruct (typing (map Geocoder.edit texts) (timer, c)) as [tm c'].
    cbn [snd] in E1. subst c'.
    cbn [map app Geocoder.typing fold_left Geocoder.input_listener
         Geocoder.debounce fst snd Geocoder.handle].
    change (Geocoder._element (Geocoder.set_element e' c)) with e'.
    rewrite E2. reflexivity. }
  split; [exact E|]. split; [|reflexivity].
  change [Geocoder.pause; Geocoder.pause]
    with ([Geocoder.pause] ++ [Geocoder.pause])%list.
  rewrite app_assoc, typing_app, E. reflexivity.
Qed.

Lemma arrow_down (n a : nat) :
  (a < n)%nat ->
  Geocoder.arrow 40 {| Geocoder.items := n; Geocoder.active := Some a |}
  = {| Geocoder.items := n;
       Geocoder.active := Some (if (S a =? n)%nat then 0%nat else S a) |}.
Proof.
  intros Ha. unfold Geocoder.arrow. cbn [Geocoder.items Geocoder.active].
  destruct (Nat.eqb_spec n 0) as [->|Hn]; [lia|].
  change (40 =? 38)%nat with false. cbv beta iota zeta. f_equal.
  rewrite Z.rem_mod_nonneg by lia.
  destruct (Nat.eqb_spec (S a) n) as [E|E].
  - assert (R : ((10 * Z.of_nat n + Z.of_nat a + 1) mod Z.of_nat n = 0)%Z).
    { symmetry. apply (Z.mod_unique _ _ 11); lia. }
    rewrite R. destruct (0 <? Z.of_nat n)%Z eqn:L; [reflexivity|].
    apply Z.ltb_ge in L. lia.
  - assert (R : ((10 * Z.of_nat n + Z.of_nat a + 1) mod Z.of_nat n
                 = Z.of_nat (S a))%Z).
    { symmetry. apply (Z.mod_unique _ _ 10); lia. }
    rewrite R.
    destruct (0 <=? Z.of_nat (S a))%Z eqn:L1;
      [|apply Z.leb_gt in L1; lia].
    destruct (Z.of_nat (S a) <? Z.of_nat n)%Z eqn:L2;
      [|apply Z.ltb_ge in L2; lia].
    cbn [andb]. rewrite Nat2Z.id. reflexivity.
Qed.

Lemma arrow_up (n a : nat) :
  (a < n)%nat ->
  Geocoder.arrow 38 {| Geocoder.items := n; Geocoder.active := Some a |}
  = {| Geocoder.items := n;
       Geocoder.active := Some (if (a =? 0)%nat then (n - 1)%nat
                                else (a - 1)%nat) |}.
Proof.
  intros Ha. unfold Geocoder.arrow. cbn [Geocoder.items Geocoder.active].
  destruct (Nat.eqb_spec n 0) as [->|Hn]; [lia|].
  change (38 =? 38)%nat with true. cbv beta iota zeta. f_equal.
  rewrite Z.rem_mod_nonneg by lia.
  destruct (Nat.eqb_spec a 0) as [E|E].
  - assert (R : ((10 * Z.of_nat n + Z.of_nat a + -1) mod Z.of_nat n
                 = Z.of_nat (n - 1))%Z).
    { symmetry. apply (Z.mod_unique _ _ 9); lia. }
    rewrite R.
    destruct (0 <=? Z.of_nat (n - 1))%Z eqn:L1;
      [|apply Z.leb_gt in L1; lia].
    destruct (Z.of_nat (n - 1) <? Z.of_nat n)%Z eqn:L2;
      [|apply Z.ltb_ge in L2; lia].
    cbn [andb]. rewrite Nat2Z.id. reflexivity.
  - assert (R : ((10 * Z.of_nat n + Z.of_nat a + -1) mod Z.of_nat n
                 = Z.of_nat (a - 1))%Z).
    { symmetry. apply (Z.mod_unique _ _ 10); lia. }
    rewrite R.
    destruct (0 <=? Z.of_nat (a - 1))%Z eqn:L1;
      [|apply Z.leb_gt in L1; lia].
    destruct (Z.of_nat (a - 1) <? Z.of_nat n)%Z eqn:L2;
      [|apply Z.ltb_ge in L2; lia].
    cbn [andb]. rewrite Nat2Z.id. reflexivity.
Qed.

Lemma arrow_none (which n : nat) :
  (0 < n)%nat ->
  Geocoder.arrow which {| Geocoder.items := n; Geocoder.active := None |}
  = Geocoder.arrow which
      {| Geocoder.items := n;
         Geocoder.active := Some (if (which =? 38)%nat then 0%nat
                                  else (n - 1)%nat) |}.
Proof.
  intros Hn. unfold Geocoder.arrow. cbn [Geocoder.items Geocoder.active].
  destruct (Nat.eqb_spec n 0) as [->|_]; [lia|].
  destruct (which =? 38)%nat; cbn [Z.ltb Z.compare]; [reflexivity|].
  rewrite Nat2Z.inj_sub by lia. reflexivity.
Qed.

Lemma arrow_in_range (which n : nat) (active : option nat) :
  (0 < n)%nat ->
  exists j,
    Geocoder.active
      (Geocoder.arrow which
         {| Geocoder.items := n; Geocoder.active := active |}) = Some j
    /\ (j < n)%nat.
Proof.
  intros Hn. unfold Geocoder.arrow. cbn [Geocoder.items Geocoder.active].
  destruct (Nat.eqb_spec n 0) as [->|_]; [lia|]. cbv beta iota zeta.
  set (iAdd := if (which =? 38)%nat then (-1)%Z else 1%Z).
  set (i := match active with
            | Some a => Z.of_nat a
            | None => if (iAdd <? 0)%Z then 0%Z else (Z.of_nat n - 1)%Z
            end).
  assert (Hi : (0 <= i)%Z).
  { unfold i. destruct active; [lia|]. destruct (iAdd <? 0)%Z; lia. }
  assert (Ha : (-1 <= iAdd)%Z)
    by (unfold iAdd; destruct (which =? 38)%nat; lia).
  rewrite Z.rem_mod_nonneg by lia.
  pose proof (Z.mod_pos_bound (10 * Z.of_nat n + i + iAdd) (Z.of_nat n)
                ltac:(lia)) as [B1 B2].
  set (r := ((10 * Z.of_nat n + i + iAdd) mod Z.of_nat n)%Z) in *.
  destruct (0 <=? r)%Z eqn:L1; [|apply Z.leb_gt in L1; lia].
  destruct (r <? Z.of_nat n)%Z eqn:L2; [|apply Z.ltb_ge in L2; lia].
  cbn. exists (Z.to_nat r). split; [reflexivity | lia].
Qed.

(** X15: the arrow keys on a menu of [n] items.  ARROW DOWN and ARROW UP
    undo each other; without an active item ARROW DOWN goes to the first
    item and ARROW UP to the last; past the last item comes the first and
    before the first the last; and whatever item was active, the key
    leaves exactly one item of the menu active. *)
Theorem X15_arrow_keys (n a : nat) :
  (a < n)%nat ->
  Geocoder.arrow 38
    (Geocoder.arrow 40
       {| Geocoder.items := n; Geocoder.active := Some a |})
  = {| Geocoder.items := n; Geocoder.active := Some a |}
  /\ Geocoder.arrow 40
       (Geocoder.arrow 38
          {| Geocoder.items := n; Geocoder.active := Some a |})
     = {| Geocoder.items := n; Geocoder.active := Some a |}
  /\ Geocoder.arrow 40 {| Geocoder.items := n; Geocoder.active := None |}
     = {| Geocoder.items := n; Geocoder.active := Some 0%nat |}
  /\ Geocoder.arrow 38 {| Geocoder.items := n; Geocoder.active := None |}
     = {| Geocoder.items := n; Geocoder.active := Some (n - 1)%nat |}
  /\ Geocoder.arrow 40
       {| Geocoder.items := n; Geocoder.active := Some (n - 1)%nat |}
     = {| Geocoder.items := n; Geocoder.active := Some 0%nat |}
  /\ Geocoder.arrow 38
       {| Geocoder.items := n; Geocoder.active := Some 0%nat |}
     = {| Geocoder.items := n; Geocoder.active := Some (n - 1)%nat |}
  /\ (forall which active,
        exists j,
          Geocoder.active
            (Geocoder.arrow which
               {| Geocoder.items := n; Geocoder.active := active |})
          = Some j
          /\ (j < n)%nat).
Proof.
  intros Ha.
  assert (D : Geocoder.arrow 40
                {| Geocoder.items := n; Geocoder.active := Some (n - 1)%nat |}
              = {| Geocoder.items := n; Geocoder.active := Some 0%nat |}).
  { rewrite arrow_down by lia.
    destruct (Nat.eqb_spec (S (n - 1)) n); [reflexivity | lia]. }
  assert (U : Geocoder.arrow 38
                {| Geocoder.items := n; Geocoder.active := Some 0%nat |}
              = {| Geocoder.items := n;
                   Geocoder.active := Some (n - 1)%nat |}).
  { rewrite arrow_up by lia. reflexivity. }
  repeat split.
  - rewrite arrow_down by exact Ha.
    destruct (Nat.eqb_spec (S a) n) as [E|E].
    + rewrite U. do 2 f_equal. lia.
    + rewrite arrow_up by lia. cbn [Nat.eqb Nat.sub].
      rewrite Nat.sub_0_r. reflexivity.
  - rewrite arrow_up by exact Ha.
    destruct (Nat.eqb_spec a 0) as [->|E].
    + exact D.
    + rewrite arrow_down by lia.
      destruct (Nat.eqb_spec (S (a - 1)) n) as [E'|E']; [lia|].
      do 2 f_equal. lia.
  - rewrite arrow_none by lia. exact D.
  - rewrite arrow_none by lia. exact U.
  - exact D.
  - exact U.
  - intros which active. apply arrow_in_range. lia.
Qed.

Lemma updateMenu_closes (c : Geocoder.control) :
  Geocoder.getSuggestions (_updateMenu None c) = []
  /\ Geocoder.menu_open (Geocoder._element (_updateMenu None c)) = false.
Proof.
  unfold Geocoder._updateMenu, Geocoder.getSuggestions.
  cbn [default from_option String.eqb orb].
  cbn [Geocoder.contentLength Geocoder.set_element Geocoder.set_suggestions].
  destruct (Geocoder.contentLength c) as [[|n0]|];
    try (split; reflexivity).
  unfold Geocoder.trigger. destruct (Geocoder.is_function _);
    split; reflexivity.
Qed.

(** X16: the ENTER key.  Without an active item it does nothing.  With
    an active item it chooses the suggestion of the item's index, clears
    the text box, closes the menu and empties the list of suggestions,
    while [getSelected()] keeps the chosen feature; and when the menu was
    written for a single suggestion, that one is chosen without any use of
    the arrow keys. *)
Theorem X16_enter_key (m : Geocoder.menu) (c : Geocoder.control) :
  (Geocoder.active m = None -> keydown 13 m c = (m, c))
  /\ (forall i,
        Geocoder.active m = Some i ->
        (keydown 13 m c).1 = Geocoder.no_items
        /\ Geocoder.getSelected (keydown 13 m c).2
           = Geocoder._suggestions c !! i
        /\ Geocoder.getSuggestions (keydown 13 m c).2 = []
        /\ Geocoder.menu_open (Geocoder._element (keydown 13 m c).2) = false
        /\ Geocoder.get_value (keydown 13 m c).2 = "")
  /\ (forall f,
        Geocoder._suggestions c = [f] ->
        Geocoder.menu_open (Geocoder._element c) = true ->
        Geocoder.getSelected (keydown 13 (Geocoder.written c) c).2 = Some f).
Proof.
  assert (K : forall i,
             Geocoder.getSelected
               (_updateMenu None (handle (Geocoder.ev_click i) c))
             = Geocoder._suggestions c !! i).
  { intros i. unfold Geocoder.getSelected.
    destruct (updateMenu_frame None (handle (Geocoder.ev_click i) c))
      as (_ & -> & _).
    cbn [Geocoder.handle].
    match goal with
    | |- context [Geocoder.trigger ?cb ?c'] =>
        destruct (trigger_fields cb c') as (_ & _ & _ & -> & _)
    end.
    reflexivity. }
  split; [|split].
  - intros H. unfold Geocoder.keydown. cbn [Nat.eqb]. rewrite H. reflexivity.
  - intros i H. unfold Geocoder.keydown. cbn [Nat.eqb]. rewrite H.
    cbn [fst snd]. split; [reflexivity|]. split; [apply K|].
    destruct (updateMenu_closes (handle (Geocoder.ev_click i) c)) as [-> ->].
    split; [reflexivity|]. split; [reflexivity|].
    rewrite updateMenu_value. unfold Geocoder.get_value.
    cbn [Geocoder.handle].
    match goal with
    | |- context [Geocoder.trigger ?cb ?c'] =>
        destruct (trigger_fields cb c') as (_ & _ & _ & _ & -> & _)
    end.
    reflexivity.
  - intros f Hs Ho. unfold Geocoder.written. rewrite Ho, Hs.
    cbn [List.length Nat.eqb]. unfold Geocoder.keydown.
    cbn [Nat.eqb Geocoder.active snd]. rewrite K, Hs. reflexivity.
Qed.

End Events.

(** ** The candidates of the secondary service ([gc._locate]) *)

Lemma distinct_snoc (l : list Geocoder.feature) (f : Geocoder.feature) :
  Inv.distinct l ->
  existsb (fun g => Geocoder.duplicate g f) l = false ->
  Inv.distinct (l ++ [f])%list.
Proof.
  induction l as [|g l IH]; intros Hl He; cbn.
  - split; [constructor | exact I].
  - cbn in He. apply orb_false_iff in He as [He1 He2].
    destruct Hl as [Hg Hl]. split.
    + apply Forall_app. split; [exact Hg|]. repeat constructor. exact He1.
    + apply IH; assumption.
Qed.

Lemma collect_distinct (c : Geocoder.control) (i : Geocoder.input)
      (l : list Geocoder.candidate) :
  forall acc features,
    Inv.distinct acc ->
    Geocoder.collect c i acc l = Some features -> Inv.distinct features.
Proof.
  induction l as [|a l IH]; intros acc features Hacc H.
  - cbn [Geocoder.collect] in H. apply (inj Some) in H. subst. exact Hacc.
  - cbn [Geocoder.collect] in H.
    destruct (String.eqb (default "" (Geocoder.a_Type a)) "Country");
      [exact (IH _ _ Hacc H)|].
    destruct (String.eqb (default "" (Geocoder.a_RegionAbbr a)) "");
      [exact (IH _ _ Hacc H)|].
    destruct (Geocoder.a_Loc_name a) as [loc_name|]; [|discriminate H].
    destruct (Geocoder.getFeature c i _) as [f|]; [|exact (IH _ _ Hacc H)].
    destruct (existsb (fun g => Geocoder.duplicate g f) acc) eqn:E;
      [exact (IH _ _ Hacc H)|].
    apply (IH _ _ (distinct_snoc acc f Hacc E) H).
Qed.

Lemma duplicate_sym (f g : Geocoder.feature) :
  Geocoder.duplicate f g = Geocoder.duplicate g f.
Proof.
  unfold Geocoder.duplicate.
  rewrite (String.eqb_sym (Geocoder.Type_ _)),
    (String.eqb_sym (Geocoder.Name _)), (String.eqb_sym (Geocoder.County _)),
    (String.eqb_sym (Geocoder.State _)).
  reflexivity.
Qed.

Lemma duplicate_refl (f : Geocoder.feature) : Geocoder.duplicate f f = true.
Proof. unfold Geocoder.duplicate. rewrite !String.eqb_refl. reflexivity. Qed.

Lemma distinct_places (l : list Geocoder.feature) :
  Inv.distinct l ->
  NoDup l
  /\ forall f g, f ∈ l -> g ∈ l -> Geocoder.duplicate f g = true -> f = g.
Proof.
  induction l as [|h l IH]; intros H.
  - split; [constructor|]. intros f g Hf. inversion Hf.
  - destruct H as [Hh Hl]. destruct (IH Hl) as [N P].
    rewrite Forall_forall in Hh. split.
    + constructor; [|exact N]. intros Hin.
      specialize (Hh h Hin). rewrite duplicate_refl in Hh. discriminate Hh.
    + intros f g Hf Hg D.
      apply elem_of_cons in Hf as [->|Hf]; apply elem_of_cons in Hg as [->|Hg].
      * reflexivity.
      * rewrite (Hh g Hg) in D. discriminate D.
      * rewrite duplicate_sym, (Hh f Hf) in D. discriminate D.
      * apply P; assumption.
Qed.

(** X17: the features collected from the candidates of the secondary
    service name each place once: no feature occurs twice, and no two of
    them agree on type, name, county and state.  The same holds of every
    rearrangement of the list, such as the sorted list that becomes the
    suggestions. *)
Theorem X17_candidates_collected_once (c : Geocoder.control)
        (i : Geocoder.input) (l : list Geocoder.candidate)
        (features : list Geocoder.feature) :
  Geocoder.collect c i [] l = Some features ->
  forall sorted,
    Permutation sorted features ->
    NoDup sorted
    /\ forall f g, f ∈ sorted -> g ∈ sorted ->
                   Geocoder.duplicate f g = true -> f = g.
Proof.
  intros H sorted Hp.
  destruct (distinct_places features
              (collect_distinct c i l [] features I H)) as [N P].
  split.
  - rewrite Hp. exact N.
  - intros f g Hf Hg. rewrite Hp in Hf, Hg. apply P; assumption.
Qed.

(** *** Where a feature comes from *)

Lemma trim_start_keeps (u : list ascii) (c : ascii) (v : list ascii) :
  JS.is_space c = false ->
  exists u', JS.trim_start (u ++ c :: v)%list = (u' ++ c :: v)%list.
Proof.
  intros Hc. induction u as [|d u IH]; cbn [app JS.trim_start].
  - rewrite Hc. exists []. reflexivity.
  - destruct (JS.is_space d); [exact IH|]. exists (d :: u). reflexivity.
Qed.

Lemma trim_prefix (p x : string) (c : ascii) :
  JS.is_space c = false ->
  JS.trim_start (JS.chars p ++ [c])%list = (JS.chars p ++ [c])%list ->
  exists rest,
    JS.trim (p ++ String c "" ++ x) = p ++ String c "" ++ rest.
Proof.
  intros Hc Hp. unfold JS.trim, JS.trim_chars, JS.trim_end.
  rewrite !chars_app. cbn [JS.chars list_ascii_of_string].
  fold (JS.chars x). rewrite app_assoc.
  assert (Hs : JS.trim_start ((JS.chars p ++ [c]) ++ JS.chars x)%list
               = ((JS.chars p ++ [c]) ++ JS.chars x)%list).
  { rewrite trim_start_app; [rewrite Hp; reflexivity|].
    rewrite Hp. destruct (JS.chars p); discriminate. }
  rewrite Hs, <- app_assoc, rev_app_distr. cbn [app rev].
  rewrite <- app_assoc. cbn [app].
  destruct (trim_start_keeps (rev (JS.chars x)) c (rev (JS.chars p)) Hc)
    as (u' & ->).
  rewrite rev_app_distr. cbn [rev]. rewrite rev_involutive.
  exists (JS.str (rev u')).
  rewrite <- (str_chars (p ++ String c "" ++ JS.str (rev u'))).
  f_equal. rewrite !chars_app, chars_str.
  cbn [JS.chars list_ascii_of_string]. rewrite <- app_assoc. reflexivity.
Qed.

(** X18: every feature collected from the candidates of the secondary
    service tells so: its source begins with ["esri-"], and it has no
    GNIS identifier. *)
Theorem X18_secondary_source (c : Geocoder.control) (i : Geocoder.input)
        (l : list Geocoder.candidate) (features : list Geocoder.feature)
        (f : Geocoder.feature) :
  Geocoder.collect c i [] l = Some features -> f ∈ features ->
  (exists rest,
      Geocoder.Source (Geocoder.feature_properties f) = "esri-" ++ rest)
  /\ Geocoder.GnisId (Geocoder.feature_properties f) = None.
Proof.
  assert (G : forall acc,
             Forall (fun f =>
                       (exists rest,
                           Geocoder.Source (Geocoder.feature_properties f)
                           = "esri-" ++ rest)
                       /\ Geocoder.GnisId (Geocoder.feature_properties f)
                          = None) acc ->
             Geocoder.collect c i acc l = Some features ->
             Forall (fun f =>
                       (exists rest,
                           Geocoder.Source (Geocoder.feature_properties f)
                           = "esri-" ++ rest)
                       /\ Geocoder.GnisId (Geocoder.feature_properties f)
                          = None) features).
  { induction l as [|a l IH]; intros acc Hacc H.
    - cbn [Geocoder.collect] in H. apply (inj Some) in H. subst. exact Hacc.
    - cbn [Geocoder.collect] in H.
      destruct (String.eqb (default "" (Geocoder.a_Type a)) "Country");
        [exact (IH _ Hacc H)|].
      destruct (String.eqb (default "" (Geocoder.a_RegionAbbr a)) "");
        [exact (IH _ Hacc H)|].
      destruct (Geocoder.a_Loc_name a) as [loc_name|]; [|discriminate H].
      destruct (Geocoder.getFeature c i _) as [g|] eqn:Eg;
        [|exact (IH _ Hacc H)].
      destruct (existsb (fun h => Geocoder.duplicate h g) acc);
        [exact (IH _ Hacc H)|].
      apply (IH (acc ++ [g])%list); [|exact H].
      apply Forall_app. split; [exact Hacc|].
      constructor; [|constructor]. split.
      + destruct (getFeature_fields _ _ _ _ Eg)
          as (_ & _ & _ & _ & _ & _ & Hs & _).
        rewrite Hs. cbn [Geocoder.p_Source Geocoder.candidate_record default
                         from_option].
        apply (trim_prefix "esri" (JS.toLowerCase loc_name) "-");
          reflexivity.
      + revert Eg. getFeature_normal (Geocoder.candidate_record a loc_name).
        match goal with
        | |- (if ?b then _ else _) = _ -> _ => destruct b
        end; [|discriminate].
        intros E. apply (inj Some) in E. rewrite <- E. reflexivity. }
  intros H Hf. pose proof (G [] ltac:(constructor) H) as G'.
  rewrite Forall_forall in G'. apply G'. exact Hf.
Qed.

(** ** The older widget: the checks of [setOpts] *)

Lemma outside_reset (x d : JS.num) (lo hi : Z) :
  Inv.between d lo hi ->
  Inv.between (if SearchApi.SetOpts.outside x lo hi then d else x) lo hi.
Proof.
  intros Hd. destruct x as [q|]; [|exact I].
  unfold SearchApi.SetOpts.outside, JS.gt, JS.lt, JS.of_Z.
  destruct (Qle_bool (inject_Z lo) q) eqn:E1; cbn [negb orb]; [|exact Hd].
  destruct (Qle_bool q (inject_Z hi)) eqn:E2; cbn [negb]; [|exact Hd].
  split; apply Qle_bool_iff; assumption.
Qed.

Lemma lt_reset (x d : JS.num) (lo : Z) :
  Inv.at_least d lo ->
  Inv.at_least (if JS.lt x (JS.of_Z lo) then d else x) lo.
Proof.
  intros Hd. destruct x as [q|]; [|exact I].
  unfold JS.lt, JS.of_Z.
  destruct (Qle_bool (inject_Z lo) q) eqn:E1; cbn [negb]; [|exact Hd].
  apply Qle_bool_iff. exact E1.
Qed.

Lemma le_reset (x d : JS.num) (lo : Z) :
  Inv.above d lo ->
  Inv.above (if JS.le x (JS.of_Z lo) then d else x) lo.
Proof.
  intros Hd. destruct x as [q|]; [|exact I].
  unfold JS.le, JS.of_Z.
  destruct (Qle_bool q (inject_Z lo)) eqn:E1; [exact Hd|].
  apply Qle_bool_false. exact E1.
Qed.

Lemma pair_reset (a b dlo dhi : JS.num) (lo hi : Z) :
  Inv.between a lo hi -> Inv.between b lo hi ->
  Inv.between dlo lo hi -> Inv.between dhi lo hi -> Inv.ordered dlo dhi ->
  Inv.between (if JS.gt a b then (dlo, dhi) else (a, b)).1 lo hi
  /\ Inv.between (if JS.gt a b then (dlo, dhi) else (a, b)).2 lo hi
  /\ Inv.ordered (if JS.gt a b then (dlo, dhi) else (a, b)).1
       (if JS.gt a b then (dlo, dhi) else (a, b)).2.
Proof.
  intros Ha Hb H1 H2 H3.
  destruct (JS.gt a b) eqn:E; cbn [fst snd]; repeat split; try assumption.
  destruct a as [x|], b as [y|]; try exact I.
  unfold JS.gt, JS.lt in E. apply negb_false_iff, Qle_bool_iff in E. exact E.
Qed.

(** X19: the options as the checks of [setOpts] leave them.  Every number
    option that is a number lies in its documented range, the minimum of
    the latitudes and of the longitudes is not above the maximum, the size
    is one of the four sizes, and every entry of [search_states] is a
    state of the list or [ALL]. *)
Theorem X19_setOpts_checks (o : SearchApi.SetOpts.values) :
  Inv.between
    (SearchApi.SetOpts.lat_min (SearchApi.SetOpts.check_values o)) (-90) 90
  /\ Inv.between
       (SearchApi.SetOpts.lat_max (SearchApi.SetOpts.check_values o)) (-90) 90
  /\ Inv.ordered
       (SearchApi.SetOpts.lat_min (SearchApi.SetOpts.check_values o))
       (SearchApi.SetOpts.lat_max (SearchApi.SetOpts.check_values o))
  /\ Inv.between
       (SearchApi.SetOpts.lon_min (SearchApi.SetOpts.check_values o))
       (-180) 180
  /\ Inv.between
       (SearchApi.SetOpts.lon_max (SearchApi.SetOpts.check_values o))
       (-180) 180
  /\ Inv.ordered
       (SearchApi.SetOpts.lon_min (SearchApi.SetOpts.check_values o))
       (SearchApi.SetOpts.lon_max (SearchApi.SetOpts.check_values o))
  /\ Inv.at_least
       (SearchApi.SetOpts.menu_min_char (SearchApi.SetOpts.check_values o)) 1
  /\ Inv.at_least
       (SearchApi.SetOpts.menu_max_entries (SearchApi.SetOpts.check_values o))
       1
  /\ Inv.at_least
       (SearchApi.SetOpts.menu_height (SearchApi.SetOpts.check_values o)) 0
  /\ Inv.between
       (SearchApi.SetOpts.fuzzy_percent (SearchApi.SetOpts.check_values o))
       0 100
  /\ Inv.above
       (SearchApi.SetOpts.geocoder_timeout (SearchApi.SetOpts.check_values o))
       0
  /\ Inv.between
       (SearchApi.SetOpts.geocoder_percent (SearchApi.SetOpts.check_values o))
       0 100
  /\ Inv.at_least
       (SearchApi.SetOpts.width (SearchApi.SetOpts.check_values o)) 0
  /\ JS.includes ["lg"; "md"; "sm"; "xs"]
       (SearchApi.SetOpts.size (SearchApi.SetOpts.check_values o)) = true
  /\ Forall (fun s => SearchApi.SetOpts.valid_state s = true)
       (JS.split ","
          (SearchApi.SetOpts.search_states (SearchApi.SetOpts.check_values o))).
Proof.
  assert (B90 : forall z, (z = -90 \/ z = 90)%Z ->
                          Inv.between (JS.of_Z z) (-90) 90)
    by (intros z [->| ->]; split; discriminate).
  assert (B180 : forall z, (z = -180 \/ z = 180)%Z ->
                           Inv.between (JS.of_Z z) (-180) 180)
    by (intros z [->| ->]; split; discriminate).
  unfold SearchApi.SetOpts.check_values.
  cbn [SearchApi.SetOpts.lat_min SearchApi.SetOpts.lat_max
       SearchApi.SetOpts.lon_min SearchApi.SetOpts.lon_max
       SearchApi.SetOpts.search_states SearchApi.SetOpts.menu_min_char
       SearchApi.SetOpts.menu_max_entries SearchApi.SetOpts.menu_height
       SearchApi.SetOpts.fuzzy_percent SearchApi.SetOpts.geocoder_timeout
       SearchApi.SetOpts.geocoder_percent SearchApi.SetOpts.size
       SearchApi.SetOpts.width SearchApi.SetOpts._opt_default].
  pose proof (pair_reset
                (if SearchApi.SetOpts.outside (SearchApi.SetOpts.lat_min o)
                      (-90) 90
                 then JS.of_Z (-90) else SearchApi.SetOpts.lat_min o)
                (if SearchApi.SetOpts.outside (SearchApi.SetOpts.lat_max o)
                      (-90) 90
                 then JS.of_Z 90 else SearchApi.SetOpts.lat_max o)
                (JS.of_Z (-90)) (JS.of_Z 90) (-90) 90
                (outside_reset _ _ _ _ (B90 _ (or_introl eq_refl)))
                (outside_reset _ _ _ _ (B90 _ (or_intror eq_refl)))
                (B90 _ (or_introl eq_refl)) (B90 _ (or_intror eq_refl))
                ltac:(discriminate)) as (L1 & L2 & L3).
  pose proof (pair_reset
                (if SearchApi.SetOpts.outside (SearchApi.SetOpts.lon_min o)
                      (-180) 180
                 then JS.of_Z (-180) else SearchApi.SetOpts.lon_min o)
                (if SearchApi.SetOpts.outside (SearchApi.SetOpts.lon_max o)
                      (-180) 180
                 then JS.of_Z 180 else SearchApi.SetOpts.lon_max o)
                (JS.of_Z (-180)) (JS.of_Z 180) (-180) 180
                (outside_reset _ _ _ _ (B180 _ (or_introl eq_refl)))
                (outside_reset _ _ _ _ (B180 _ (or_intror eq_refl)))
                (B180 _ (or_introl eq_refl)) (B180 _ (or_intror eq_refl))
                ltac:(discriminate)) as (M1 & M2 & M3).
  split; [exact L1|]. split; [exact L2|]. split; [exact L3|].
  split; [exact M1|]. split; [exact M2|]. split; [exact M3|].
  split; [apply lt_reset; discriminate|].
  split; [apply lt_reset; discriminate|].
  split; [apply lt_reset; discriminate|].
  split; [apply outside_reset; split; discriminate|].
  split; [apply le_reset; reflexivity|].
  split; [apply outside_reset; split; discriminate|].
  split; [apply lt_reset; discriminate|].
  split.
  - destruct (JS.includes _ (SearchApi.SetOpts.size o)) eqn:E;
      [exact E | reflexivity].
  - match goal with
    | |- context [forallb ?f ?l] => destruct (forallb f l) eqn:E
    end.
    + apply Forall_forall. intros s Hs. rewrite forallb_forall in E.
      apply E, list_elem_of_In, Hs.
    + apply Forall_forall. intros s Hs.
      assert (B : forallb SearchApi.SetOpts.valid_state
                    (JS.split "," (JS.toUpperCase "all")) = true)
        by (vm_compute; reflexivity).
      rewrite forallb_forall in B. apply B, list_elem_of_In, Hs.
Qed.

(** *** Checking twice *)

Lemma reset_idem (test : JS.num -> bool) (x d : JS.num) :
  test d = false ->
  test (if test x then d else x) = false.
Proof.
  intros Hd. destruct (test x) eqn:E; assumption.
Qed.

Lemma pair_idem (test1 test2 : JS.num -> bool) (a b da db : JS.num) :
  test1 da = false -> test2 db = false -> JS.gt da db = false ->
  test1 a = false -> test2 b = false ->
  test1 (if JS.gt a b then (da, db) else (a, b)).1 = false
  /\ test2 (if JS.gt a b then (da, db) else (a, b)).2 = false
  /\ JS.gt (if JS.gt a b then (da, db) else (a, b)).1
       (if JS.gt a b then (da, db) else (a, b)).2 = false.
Proof.
  intros H1 H2 H3 Ha Hb.
  destruct (JS.gt a b) eqn:E; cbn [fst snd]; repeat split; assumption.
Qed.

Lemma upper_char_idem (c : ascii) :
  flat_map JS.upper_char (JS.upper_char c) = JS.upper_char c.
Proof.
  destruct c as [[] [] [] [] [] [] [] []]; vm_compute; reflexivity.
Qed.

Lemma upper_char_nonspace (c : ascii) :
  JS.is_space c = false ->
  forallb (fun d => negb (JS.is_space d)) (JS.upper_char c) = true.
Proof.
  destruct c as [[] [] [] [] [] [] [] []]; vm_compute; intros H;
    first [reflexivity | discriminate H].
Qed.

Lemma flat_map_upper_idem (l : list ascii) :
  flat_map JS.upper_char (flat_map JS.upper_char l)
  = flat_map JS.upper_char l.
Proof.
  induction l as [|c l IH]; [reflexivity|].
  cbn [flat_map]. rewrite flat_map_app, upper_char_idem, IH. reflexivity.
Qed.

Lemma filter_nonspace_upper (l : list ascii) :
  forallb (fun d => negb (JS.is_space d)) l = true ->
  List.filter (fun d => negb (JS.is_space d)) (flat_map JS.upper_char l)
  = flat_map JS.upper_char l.
Proof.
  induction l as [|c l IH]; [reflexivity|].
  cbn [forallb flat_map]. intros H. apply andb_true_iff in H as [Hc Hl].
  rewrite List.filter_app, (IH Hl). f_equal.
  apply negb_true_iff, upper_char_nonspace in Hc.
  induction (JS.upper_char c) as [|d u IHu]; [reflexivity|].
  cbn [forallb] in Hc. apply andb_true_iff in Hc as [Hd Hu].
  cbn [List.filter]. rewrite Hd, (IHu Hu). reflexivity.
Qed.

Lemma forallb_filter (f : ascii -> bool) (l : list ascii) :
  forallb f (List.filter f l) = true.
Proof.
  induction l as [|c l IH]; [reflexivity|]. cbn [List.filter].
  destruct (f c) eqn:E; [|exact IH]. cbn [forallb]. rewrite E. exact IH.
Qed.

(** Upper-casing a text without white space again changes nothing. *)
Lemma normal_states_idem (s : string) :
  JS.toUpperCase
    (JS.str
       (List.filter (fun c => negb (JS.is_space c))
          (JS.chars
             (JS.toUpperCase
                (JS.str
                   (List.filter (fun c => negb (JS.is_space c))
                      (JS.chars s)))))))
  = JS.toUpperCase
      (JS.str (List.filter (fun c => negb (JS.is_space c)) (JS.chars s))).
Proof.
  unfold JS.toUpperCase. rewrite !chars_str.
  rewrite filter_nonspace_upper by apply forallb_filter.
  rewrite flat_map_upper_idem. reflexivity.
Qed.

(** X20: the checks of [setOpts] settle at once: checking the checked
    options again changes none of them (a second [setOpts] without new
    values keeps every option).  And the checks do not catch a number
    option that is [NaN]: it stays [NaN]. *)
Theorem X20_setOpts_checks_settle (o : SearchApi.SetOpts.values) :
  SearchApi.SetOpts.check_values (SearchApi.SetOpts.check_values o)
  = SearchApi.SetOpts.check_values o
  /\ (SearchApi.SetOpts.lat_min o = None ->
      SearchApi.SetOpts.lat_min (SearchApi.SetOpts.check_values o) = None)
  /\ (SearchApi.SetOpts.menu_min_char o = None ->
      SearchApi.SetOpts.menu_min_char (SearchApi.SetOpts.check_values o)
      = None).
Proof.
  split; [|split].
  - unfold SearchApi.SetOpts.check_values.
    cbn [SearchApi.SetOpts.lat_min SearchApi.SetOpts.lat_max
         SearchApi.SetOpts.lon_min SearchApi.SetOpts.lon_max
         SearchApi.SetOpts.search_states SearchApi.SetOpts.menu_min_char
         SearchApi.SetOpts.menu_max_entries SearchApi.SetOpts.menu_height
         SearchApi.SetOpts.fuzzy_percent SearchApi.SetOpts.geocoder_timeout
         SearchApi.SetOpts.geocoder_percent SearchApi.SetOpts.size
         SearchApi.SetOpts.width SearchApi.SetOpts._opt_default].
    pose (t90 := fun x => SearchApi.SetOpts.outside x (-90) 90).
    pose (t180 := fun x => SearchApi.SetOpts.outside x (-180) 180).
    destruct (pair_idem t90 t90
                (if t90 (SearchApi.SetOpts.lat_min o)
                 then JS.of_Z (-90) else SearchApi.SetOpts.lat_min o)
                (if t90 (SearchApi.SetOpts.lat_max o)
                 then JS.of_Z 90 else SearchApi.SetOpts.lat_max o)
                (JS.of_Z (-90)) (JS.of_Z 90) eq_refl eq_refl eq_refl
                (reset_idem t90 (SearchApi.SetOpts.lat_min o)
                   (JS.of_Z (-90)) eq_refl)
                (reset_idem t90 (SearchApi.SetOpts.lat_max o)
                   (JS.of_Z 90) eq_refl))
      as (L1 & L2 & L3).
    destruct (pair_idem t180 t180
                (if t180 (SearchApi.SetOpts.lon_min o)
                 then JS.of_Z (-180) else SearchApi.SetOpts.lon_min o)
                (if t180 (SearchApi.SetOpts.lon_max o)
                 then JS.of_Z 180 else SearchApi.SetOpts.lon_max o)
                (JS.of_Z (-180)) (JS.of_Z 180) eq_refl eq_refl eq_refl
                (reset_idem t180 (SearchApi.SetOpts.lon_min o)
                   (JS.of_Z (-180)) eq_refl)
                (reset_idem t180 (SearchApi.SetOpts.lon_max o)
                   (JS.of_Z 180) eq_refl))
      as (M1 & M2 & M3).
    unfold t90 in L1, L2, L3. unfold t180 in M1, M2, M3. clear t90 t180.
    cbv beta in L1, L2, M1, M2.
    rewrite L1, L2, L3, M1, M2, M3. cbn [fst snd].
    rewrite (reset_idem (fun x => JS.lt x (JS.of_Z 1))
               (SearchApi.SetOpts.menu_min_char o) (JS.of_Z 3) eq_refl).
    rewrite (reset_idem (fun x => JS.lt x (JS.of_Z 1))
               (SearchApi.SetOpts.menu_max_entries o) (JS.of_Z 50) eq_refl).
    rewrite (reset_idem (fun x => JS.lt x (JS.of_Z 0))
               (SearchApi.SetOpts.menu_height o) (JS.of_Z 0) eq_refl).
    rewrite (reset_idem (fun x => SearchApi.SetOpts.outside x 0 100)
               (SearchApi.SetOpts.fuzzy_percent o) (JS.of_Z 90) eq_refl).
    rewrite (reset_idem (fun x => JS.le x (JS.of_Z 0))
               (SearchApi.SetOpts.geocoder_timeout o) (JS.of_Z 5) eq_refl).
    rewrite (reset_idem (fun x => SearchApi.SetOpts.outside x 0 100)
               (SearchApi.SetOpts.geocoder_percent o) (JS.of_Z 90) eq_refl).
    rewrite (reset_idem (fun x => JS.lt x (JS.of_Z 0))
               (SearchApi.SetOpts.width o) (JS.of_Z 0) eq_refl).
    f_equal.
    + match goal with
      | |- context [forallb ?f (JS.split "," (JS.toUpperCase (JS.str
                      (List.filter _ (JS.chars (SearchApi.SetOpts.search_states o))))))] =>
          destruct (forallb f (JS.split "," (JS.toUpperCase (JS.str
                      (List.filter (fun c => negb (JS.is_space c))
                         (JS.chars (SearchApi.SetOpts.search_states o)))))))
            eqn:E
      end.
      * rewrite normal_states_idem, E. reflexivity.
      * vm_compute. reflexivity.
    + destruct (JS.includes _ (SearchApi.SetOpts.size o)) eqn:E;
        [rewrite E|]; reflexivity.
  - intros H. unfold SearchApi.SetOpts.check_values.
    cbn [SearchApi.SetOpts.lat_min]. rewrite H. cbn.
    destruct (if SearchApi.SetOpts.outside _ _ _ then _ else _);
      reflexivity.
  - intros H. unfold SearchApi.SetOpts.check_values.
    cbn [SearchApi.SetOpts.menu_min_char]. rewrite H. reflexivity.
Qed.

(** ** The state at the end of a term *)

Lemma append_assoc (a b c : string) : (a ++ b) ++ c = a ++ (b ++ c).
Proof.
  induction a as [|x a IH]; [reflexivity|].
  change (String x ((a ++ b) ++ c) = String x (a ++ (b ++ c))).
  f_equal. exact IH.
Qed.

Lemma split_chars_nonempty (is_sep : ascii -> bool) (l : list ascii) :
  JS.split_chars is_sep l <> [].
Proof.
  destruct l as [|c l]; cbn; [discriminate|].
  destruct (is_sep c); [discriminate|].
  destruct (JS.split_chars is_sep l); discriminate.
Qed.

(** Splitting at a character and joining with it gives the text back. *)
Lemma join_split (c : ascii) (s : string) :
  JS.join (String c "") (JS.split c s) = s.
Proof.
  unfold JS.split. rewrite <- (str_chars s) at 2.
  induction (JS.chars s) as [|x l IH]; [reflexivity|].
  cbn [JS.split_chars]. unfold JS.is_char at 1.
  pose proof (split_chars_nonempty (JS.is_char c) l) as Hn.
  destruct (JS.split_chars (JS.is_char c) l) as [|h t]; [contradiction|].
  change (map JS.str (h :: t)) with (JS.str h :: map JS.str t) in IH.
  destruct (Ascii.eqb_spec c x) as [<-|Hne].
  - change (JS.join (String c "") (JS.str h :: map JS.str t)
            = JS.str l) in IH.
    change (String c "" ++ JS.join (String c "") (JS.str h :: map JS.str t)
            = String c (JS.str l)).
    rewrite IH. reflexivity.
  - change (map JS.str ((x :: h) :: t))
      with (String x (JS.str h) :: map JS.str t).
    destruct t as [|h' t].
    + change (String x (JS.str h) = String x (JS.str l)).
      f_equal. exact IH.
    + change (String x (JS.str h ++ String c ""
                        ++ JS.join (String c "") (map JS.str (h' :: t)))
              = String x (JS.str l)).
      f_equal. exact IH.
Qed.

Lemma join_cons (sep a : string) (l : list string) :
  l <> [] -> JS.join sep (a :: l) = a ++ sep ++ JS.join sep l.
Proof. destruct l; [contradiction | reflexivity]. Qed.

Lemma join_last (sep : string) (l : list string) :
  (2 <= List.length l)%nat ->
  JS.join sep (removelast l) ++ sep ++ List.last l "" = JS.join sep l.
Proof.
  induction l as [|a l IH]; cbn [List.length]; [lia|].
  destruct l as [|b l]; cbn [List.length]; [lia|]. intros _.
  destruct l as [|c l]; [reflexivity|].
  change (removelast (a :: b :: c :: l))
    with (a :: removelast (b :: c :: l)).
  change (List.last (a :: b :: c :: l) "")
    with (List.last (b :: c :: l) "").
  rewrite (join_cons sep a (removelast (b :: c :: l))) by discriminate.
  rewrite (join_cons sep a (b :: c :: l)) by discriminate.
  rewrite !append_assoc. rewrite (IH ltac:(cbn; lia)). reflexivity.
Qed.

(** A term is its parts but the last, a blank and the last part. *)
Lemma term_of_parts (s : string) :
  (1 <? List.length (JS.split " " s))%nat = true ->
  JS.join " " (removelast (JS.split " " s)) ++ " "
  ++ List.last (JS.split " " s) "" = s.
Proof.
  intros H. apply Nat.ltb_lt in H.
  rewrite (join_last " " (JS.split " " s)) by lia.
  apply (join_split " " s).
Qed.

(** X21: the term and the states of the older widget lose nothing of the
    filtered text and never leave the configured states.  Either the
    states are the configured [search_states] and the term is the whole
    filtered text; or the states are one state of the list, typed at the
    end of the text and allowed by [search_states], and the term followed
    by a blank and that state is the filtered text. *)
Theorem X21_term_and_states (text : string) (o : SearchApi.opts) :
  ((SearchApi._getSearchTermStates text o).2 = SearchApi.search_states o
   /\ (SearchApi._getSearchTermStates text o).1 = SearchApi.filter_term text)
  \/ (JS.includes SearchApi._all_states
        (SearchApi._getSearchTermStates text o).2 = true
      /\ (SearchApi._getSearchTermStates text o).1 ++ " "
         ++ (SearchApi._getSearchTermStates text o).2
         = SearchApi.filter_term text
      /\ (SearchApi.search_states o = "ALL"
          \/ JS.includes (JS.split "," (SearchApi.search_states o))
               (SearchApi._getSearchTermStates text o).2 = true)).
Proof.
  unfold SearchApi._getSearchTermStates.
  set (term0 := SearchApi.filter_term text).
  destruct ((2 <=? List.length (JS.split " " term0))%nat) eqn:E2;
    cbn [andb].
  2:{ cbn [negb String.eqb andb]. left. split; reflexivity. }
  destruct (JS.includes SearchApi._all_states
              (List.last (JS.split " " term0) "")) eqn:Ei.
  2:{ cbn [negb String.eqb andb]. left. split; reflexivity. }
  assert (R : JS.join " " (removelast (JS.split " " term0)) ++ " "
              ++ List.last (JS.split " " term0) "" = term0).
  { apply term_of_parts. apply Nat.leb_le in E2. apply Nat.ltb_lt. lia. }
  destruct (String.eqb (List.last (JS.split " " term0) "") "") eqn:El.
  { apply String.eqb_eq in El. rewrite El in Ei. discriminate Ei. }
  cbn [negb andb].
  destruct (String.eqb_spec (SearchApi.search_states o) "ALL") as [Ea|Ea].
  - right. cbn [fst snd]. split; [exact Ei|]. split; [exact R|].
    left. exact Ea.
  - destruct (JS.includes (JS.split "," (SearchApi.search_states o)) _) eqn:Es.
    + right. cbn [fst snd]. split; [exact Ei|]. split; [exact R|].
      right. exact Es.
    + left. cbn [fst snd]. split; [reflexivity | exact R].
Qed.

(** X22: [parseInput] loses nothing of the term either.  Either the term
    is the whole normalized text and the states are those of the option:
    undefined when the option is undefined, and the expanded list of the
    option otherwise, which is the list of ['ALL'] when the option is
    [null], [false], [0] or the empty text.  Or the states are the last
    word of the text, one of the states the option allows, and the term
    followed by a blank and that word is the normalized text. *)
Theorem X22_state_split_off (c : Geocoder.control) :
  ((Geocoder.term (Geocoder.parseInput c)
    = Geocoder.parse_term (Geocoder.get_value c)
    /\ Geocoder.states (Geocoder.parseInput c)
       = (if Geocoder.states_undefined c then None
          else Some (Geocoder.state_list
                       (Geocoder.option_string c "states"))))
   \/ (exists st,
         Geocoder.states (Geocoder.parseInput c) = Some st
         /\ Geocoder.term (Geocoder.parseInput c) ++ " " ++ st
            = Geocoder.parse_term (Geocoder.get_value c)
         /\ JS.includes
              (JS.split ","
                 (Geocoder.state_list (Geocoder.option_string c "states")))
              st = true))
  /\ (Geocoder.option_value c "states" = Geocoder.VUndefined ->
      Geocoder.states_undefined c = true)
  /\ (Geocoder.option_value c "states" = Geocoder.VNull
      \/ Geocoder.option_value c "states" = Geocoder.VBool false
      \/ Geocoder.option_value c "states" = Geocoder.VNum (inject_Z 0)
      \/ Geocoder.option_value c "states" = Geocoder.VStr "" ->
      Geocoder.states_undefined c = false
      /\ Geocoder.state_list (Geocoder.option_string c "states")
         = Geocoder.state_list (Some "ALL")).
Proof.
  split; [|split].
  - unfold Geocoder.parseInput.
    set (term0 := Geocoder.parse_term (Geocoder.get_value c)).
    destruct ((1 <? List.length (JS.split " " term0))%nat) eqn:E1;
      cbn [andb].
    + destruct (JS.includes _ (List.last (JS.split " " term0) "")) eqn:Ei.
      * right. exists (List.last (JS.split " " term0) "").
        cbn [Geocoder.term Geocoder.states].
        split; [reflexivity|]. split; [|exact Ei].
        apply term_of_parts. exact E1.
      * left. destruct (Geocoder.states_undefined c); split; reflexivity.
    + left. destruct (Geocoder.states_undefined c); split; reflexivity.
  - unfold Geocoder.states_undefined. intros E. rewrite E. reflexivity.
  - unfold Geocoder.states_undefined, Geocoder.option_string.
    intros [E|[E|[E|E]]]; rewrite E; split; vm_compute; reflexivity.
Qed.

(** *** The coordinate of the older widget *)

Lemma lt_bound (x b : Q) (lo : JS.num) :
  JS.lt (Some x) lo = false -> lo = Some b -> (b <= x)%Q.
Proof.
  intros H ->. cbn in H. apply negb_false_iff, Qle_bool_iff in H. exact H.
Qed.

Lemma gt_bound (x b : Q) (hi : JS.num) :
  JS.gt (Some x) hi = false -> hi = Some b -> (x <= b)%Q.
Proof.
  intros H ->. cbn in H. apply negb_false_iff, Qle_bool_iff in H. exact H.
Qed.

(** X23: a coordinate that the older widget reads from a term has a
    longitude that is never east of Greenwich, and it lies within every
    configured bound that is a number.  (A bound that is [NaN], which
    [setOpts] lets through, is not checked: every comparison with it is
    false.) *)
Theorem X23_widget_coordinate (term : string) (o : SearchApi.opts)
        (lat lon : Q) :
  SearchApi.lat_lon_of term o = Some (lat, lon) ->
  (lon <= 0)%Q
  /\ (forall b, SearchApi.lat_min o = Some b -> (b <= lat)%Q)
  /\ (forall b, SearchApi.lat_max o = Some b -> (lat <= b)%Q)
  /\ (forall b, SearchApi.lon_min o = Some b -> (b <= lon)%Q)
  /\ (forall b, SearchApi.lon_max o = Some b -> (lon <= b)%Q).
Proof.
  unfold SearchApi.lat_lon_of.
  set (tokens := if (_ <? 2)%nat then _ else _).
  destruct (JS.parseFloat (nth 0 tokens "")) as [la|]; [|discriminate].
  destruct (JS.parseFloat (nth 1 tokens "")) as [lo|]; [|discriminate].
  cbn [JS.neg JS.abs JS.lift1 JS.isNaN orb].
  destruct (JS.lt (Some la) (SearchApi.lat_min o)) eqn:A1;
    cbn [negb orb andb]; [discriminate|].
  destruct (JS.gt (Some la) (SearchApi.lat_max o)) eqn:A2;
    cbn [negb orb andb]; [discriminate|].
  destruct (JS.lt (Some (- Qabs lo)%Q) (SearchApi.lon_min o)) eqn:B1;
    cbn [negb orb andb]; [discriminate|].
  destruct (JS.gt (Some (- Qabs lo)%Q) (SearchApi.lon_max o)) eqn:B2;
    cbn [negb orb andb]; [discriminate|].
  intros H. apply (inj Some) in H. injection H as <- <-.
  pose proof (Qabs_nonneg lo).
  split; [lra|]. split; [|split; [|split]]; intros b Hb.
  - exact (lt_bound _ _ _ A1 Hb).
  - exact (gt_bound _ _ _ A2 Hb).
  - exact (lt_bound _ _ _ B1 Hb).
  - exact (gt_bound _ _ _ B2 Hb).
Qed.

(** ** The properties at work *)

(** X2 at work: ["austin tx"] without a state filter and ["Austin"] under
    the filter ["tx"] are the same query: one key, one term, one state. *)
Lemma X2_austin_in_texas :
  Geocoder.cacheKey
    (Geocoder.parseInput (Sample.typed "austin tx" Sample.plain))
  = Geocoder.cacheKey
      (Geocoder.parseInput (Sample.typed "Austin" Sample.texas))
  /\ (Geocoder.term
        (Geocoder.parseInput (Sample.typed "austin tx" Sample.plain))
      = Geocoder.term
          (Geocoder.parseInput (Sample.typed "Austin" Sample.texas))
      /\ Geocoder.states
           (Geocoder.parseInput (Sample.typed "austin tx" Sample.plain))
         = Geocoder.states
             (Geocoder.parseInput (Sample.typed "Austin" Sample.texas))).
Proof.
  split; [vm_compute; reflexivity|].
  apply X2_cacheKey_injective. vm_compute. reflexivity.
Defined.

(** X3 at work: the record of Austin brings no extent. *)
Lemma X3_austin_extent :
  exists f,
    Geocoder.getFeature Sample.plain (Sample.austin_query Sample.plain)
      Sample.austin = Some f
    /\ exists south north west east,
        Geocoder.Bounds (Geocoder.feature_properties f)
        = ((Some south, Some west), (Some north, Some east))
        /\ Geocoder.coordinates f
           = (Some (Geocoder.roundCoord (Qmake (-97743057) 1000000)),
              Some (Geocoder.roundCoord (Qmake 30267153 1000000)))
        /\ (south <= Geocoder.roundCoord (Qmake 30267153 1000000))%Q
        /\ (Geocoder.roundCoord (Qmake 30267153 1000000) <= north)%Q
        /\ (west <= Geocoder.roundCoord (Qmake (-97743057) 1000000))%Q
        /\ (Geocoder.roundCoord (Qmake (-97743057) 1000000) <= east)%Q
        /\ (Geocoder.roundCoord (Qmake 30267153 1000000) - south
            < 3 # 1000000)%Q
        /\ (north - Geocoder.roundCoord (Qmake 30267153 1000000)
            < 3 # 1000000)%Q
        /\ (Geocoder.roundCoord (Qmake (-97743057) 1000000) - west
            < 3 # 1000000)%Q
        /\ (east - Geocoder.roundCoord (Qmake (-97743057) 1000000)
            < 3 # 1000000)%Q.
Proof.
  eexists. split; [vm_compute; reflexivity|].
  apply (X3_default_extent Sample.plain (Sample.austin_query Sample.plain)
           Sample.austin);
    vm_compute; reflexivity.
Defined.

(** X4 at work: ["30.5 97.7"] is read as 97.7 degrees west. *)
Lemma X4_unsigned_longitude :
  Geocoder.parse_latlon ["30.5"; "97.7"]
  = Some (Qmake 30500000 1000000, Qmake (-97700000) 1000000)
  /\ (Qmake (-97700000) 1000000 <= 0)%Q.
Proof.
  split; [vm_compute; reflexivity|].
  apply (X4_west_assumed ["30.5"; "97.7"] (Qmake 30500000 1000000));
    [left; reflexivity | vm_compute; reflexivity].
Defined.

(** X6 at work: a query and its answer on a hidden control.  A call of
    [setOptions], even with no option at all, shows the control again. *)
Lemma X6_concealed_stays_closed :
  (Inv.off (Geocoder.run Sample.innerHTML_length Sample.sort Sample.answered
              Sample.concealed) = true
   /\ (Geocoder.menu_open
         (Geocoder._element
            (Geocoder.run Sample.innerHTML_length Sample.sort Sample.answered
               Sample.concealed)) = true ->
       Geocoder.menu_open (Geocoder._element Sample.concealed) = true))
  /\ Geocoder.visible Sample.concealed = false
  /\ Geocoder.visible
       (Sample.run
          [Geocoder.ev_setOptions (Geocoder.one_argument (Geocoder.VObj []))]
          Sample.concealed) = true.
Proof.
  split; [|split; vm_compute; reflexivity].
  apply X6_hidden_control_opens_no_menu; vm_compute; reflexivity.
Defined.

(** X8 at work: Austin stays selected through the next query. *)
Lemma X8_search_keeps_selection :
  Geocoder.getSelected
    (Geocoder.run Sample.innerHTML_length Sample.sort Sample.answered
       Sample.picked)
  = Geocoder.getSelected Sample.picked.
Proof.
  apply X8_selection_kept. vm_compute. reflexivity.
Defined.

(** X9 at work: the menu shows Austin, ["dallas"] is typed and the request
    is out; a click on the item of Austin selects nothing. *)
Lemma X9_click_on_stale_menu :
  Geocoder.menu_open (Geocoder._element Sample.shown) = true
  /\ (Geocoder.menu_open
        (Geocoder._element
           (Geocoder._locate Sample.innerHTML_length
              (Sample.typed "dallas" Sample.shown)).1)
      = Geocoder.menu_open
          (Geocoder._element (Sample.typed "dallas" Sample.shown))
      /\ Geocoder.getSuggestions
           (Geocoder._locate Sample.innerHTML_length
              (Sample.typed "dallas" Sample.shown)).1 = []
      /\ Geocoder.getSelected
           (Geocoder.handle Sample.innerHTML_length Sample.sort
              (Geocoder.ev_click 0)
              (Geocoder._locate Sample.innerHTML_length
                 (Sample.typed "dallas" Sample.shown)).1) = None
      /\ Geocoder.get_value
           (Geocoder.handle Sample.innerHTML_length Sample.sort
              (Geocoder.ev_click 0)
              (Geocoder._locate Sample.innerHTML_length
                 (Sample.typed "dallas" Sample.shown)).1) = ""
      /\ Geocoder.calls
           (Geocoder.handle Sample.innerHTML_length Sample.sort
              (Geocoder.ev_click 0)
              (Geocoder._locate Sample.innerHTML_length
                 (Sample.typed "dallas" Sample.shown)).1)
         = if Geocoder.is_function
                (Geocoder.option_value (Sample.typed "dallas" Sample.shown)
                   "onSelect")
           then Geocoder.onSelect
                :: Geocoder.calls (Sample.typed "dallas" Sample.shown)
           else Geocoder.calls (Sample.typed "dallas" Sample.shown)).
Proof.
  split; [vm_compute; reflexivity|].
  apply (X9_click_while_pending Sample.innerHTML_length Sample.sort
           (Sample.typed "dallas" Sample.shown)
           (Sample.cycle_of "dallas" Sample.shown 2) 0).
  vm_compute. reflexivity.
Defined.

(** X11 at work: the state filter ["tx"] replaced by ["ok"]. *)
Lemma X11_states_replaced :
  exists c',
    Geocoder.setOptions
      (Geocoder.name_value "states" (Geocoder.VStr "ok")) Sample.texas
    = Some c'
    /\ Geocoder.option_value c' "states" = Geocoder.VStr "ok"
    /\ Geocoder.option_value Sample.texas "states" = Geocoder.VStr "tx".
Proof.
  destruct (X11_setOptions_merges
              (Geocoder.name_value "states" (Geocoder.VStr "ok"))
              [("states", Geocoder.VStr "ok")] Sample.texas "states" eq_refl)
    as (c' & E & V).
  exists c'. split; [exact E|]. split; [|vm_compute; reflexivity].
  rewrite V. vm_compute. reflexivity.
Defined.

(** X12 at work: ["colour"] is no option after [setOptions] was given it. *)
Lemma X12_colour_is_no_option :
  Geocoder.options
    (Geocoder.run Sample.innerHTML_length Sample.sort Sample.coloured
       Geocoder._create) = Some Sample.coloured_options
  /\ (is_Some (Sample.coloured_options !! "colour")
      <-> Geocoder.recognized "colour" = true)
  /\ Geocoder.recognized "colour" = false.
Proof.
  assert (E : Geocoder.options
                (Geocoder.run Sample.innerHTML_length Sample.sort
                   Sample.coloured Geocoder._create)
              = Some Sample.coloured_options)
    by reflexivity.
  split; [exact E|]. split; [|vm_compute; reflexivity].
  exact (X12_options_are_recognized Sample.innerHTML_length Sample.sort
           Sample.coloured Sample.coloured_options "colour" E).
Defined.

(** X13 at work: ["austin"] is asked for once. *)
Lemma X13_austin_asked_once :
  exists c2,
    Geocoder.primary_settled Sample.innerHTML_length
      (Sample.cycle_of "austin" Sample.plain 1)
      (Geocoder.primary_array [Sample.austin])
      (Geocoder._locate Sample.innerHTML_length
         (Sample.typed "austin" Sample.plain)).1
    = (c2, false)
    /\ Geocoder._cache c2
       !! Geocoder.cacheKey
            (Geocoder.parseInput (Sample.typed "austin" Sample.plain))
       = Some (omap (Geocoder.getFeature
                       (Geocoder._locate Sample.innerHTML_length
                          (Sample.typed "austin" Sample.plain)).1
                       (Geocoder.parseInput
                          (Sample.typed "austin" Sample.plain)))
                 [Sample.austin])
    /\ Geocoder._locate Sample.innerHTML_length c2
       = (Geocoder._updateMenu Sample.innerHTML_length
            (Some (Geocoder.term
                     (Geocoder.parseInput
                        (Sample.typed "austin" Sample.plain))))
            (Geocoder.set_suggestions
               (omap (Geocoder.getFeature
                        (Geocoder._locate Sample.innerHTML_length
                           (Sample.typed "austin" Sample.plain)).1
                        (Geocoder.parseInput
                           (Sample.typed "austin" Sample.plain)))
                  [Sample.austin]) c2),
          None).
Proof.
  apply (X13_cached_answer_reused Sample.innerHTML_length
           (Sample.typed "austin" Sample.plain)
           (Sample.cycle_of "austin" Sample.plain 1) [Sample.austin]).
  - vm_compute. reflexivity.
  - discriminate.
Defined.

(** X15 at work: a menu of three items, the last one active. *)
Lemma X15_three_items :
  Geocoder.arrow 38
    (Geocoder.arrow 40
       {| Geocoder.items := 3; Geocoder.active := Some 2%nat |})
  = {| Geocoder.items := 3; Geocoder.active := Some 2%nat |}
  /\ Geocoder.arrow 40
       (Geocoder.arrow 38
          {| Geocoder.items := 3; Geocoder.active := Some 2%nat |})
     = {| Geocoder.items := 3; Geocoder.active := Some 2%nat |}
  /\ Geocoder.arrow 40 {| Geocoder.items := 3; Geocoder.active := None |}
     = {| Geocoder.items := 3; Geocoder.active := Some 0%nat |}
  /\ Geocoder.arrow 38 {| Geocoder.items := 3; Geocoder.active := None |}
     = {| Geocoder.items := 3; Geocoder.active := Some (3 - 1)%nat |}
  /\ Geocoder.arrow 40
       {| Geocoder.items := 3; Geocoder.active := Some (3 - 1)%nat |}
     = {| Geocoder.items := 3; Geocoder.active := Some 0%nat |}
  /\ Geocoder.arrow 38
       {| Geocoder.items := 3; Geocoder.active := Some 0%nat |}
     = {| Geocoder.items := 3; Geocoder.active := Some (3 - 1)%nat |}
  /\ (forall which active,
        exists j,
          Geocoder.active
            (Geocoder.arrow which
               {| Geocoder.items := 3; Geocoder.active := active |})
          = Some j
          /\ (j < 3)%nat).
Proof.
  apply (X15_arrow_keys 3 2). repeat constructor.
Defined.

(** X17 at work: two locators report Boston; it is listed once. *)
Lemma X17_boston_once :
  List.length Sample.boston_twice = 1%nat
  /\ (NoDup (Sample.sort Sample.boston_twice)
      /\ forall f g,
           f ∈ Sample.sort Sample.boston_twice ->
           g ∈ Sample.sort Sample.boston_twice ->
           Geocoder.duplicate f g = true -> f = g).
Proof.
  split; [vm_compute; reflexivity|].
  apply (X17_candidates_collected_once Sample.plain
           (Sample.austin_query Sample.plain)
           [Sample.boston "World"; Sample.boston "Gazetteer"]
           Sample.boston_twice).
  - vm_compute. reflexivity.
  - apply Sample_sort_permutation.
Defined.

(** X18 at work: Boston comes from the locator ["World"]. *)
Lemma X18_boston_source :
  map (fun f => Geocoder.Source (Geocoder.feature_properties f))
      Sample.boston_twice = ["esri-world"]
  /\ Forall
       (fun f =>
          (exists rest,
              Geocoder.Source (Geocoder.feature_properties f)
              = "esri-" ++ rest)
          /\ Geocoder.GnisId (Geocoder.feature_properties f) = None)
       Sample.boston_twice.
Proof.
  split; [vm_compute; reflexivity|].
  apply Forall_forall. intros f Hf.
  apply (X18_secondary_source Sample.plain
           (Sample.austin_query Sample.plain)
           [Sample.boston "World"; Sample.boston "Gazetteer"]
           Sample.boston_twice f).
  - vm_compute. reflexivity.
  - exact Hf.
Defined.

(** X23 at work: ["30.5 97.7"] in the older widget; and ["95 10"] when
    the bounds of the latitude are [NaN]. *)
Lemma X23_unsigned_longitude :
  (exists lat lon,
      SearchApi.lat_lon_of "30.5 97.7" (Sample.widget 3) = Some (lat, lon)
      /\ ((lon <= 0)%Q
          /\ (forall b, SearchApi.lat_min (Sample.widget 3) = Some b ->
                        (b <= lat)%Q)
          /\ (forall b, SearchApi.lat_max (Sample.widget 3) = Some b ->
                        (lat <= b)%Q)
          /\ (forall b, SearchApi.lon_min (Sample.widget 3) = Some b ->
                        (b <= lon)%Q)
          /\ (forall b, SearchApi.lon_max (Sample.widget 3) = Some b ->
                        (lon <= b)%Q)))
  /\ SearchApi.lat_lon_of "95 10" Sample.unchecked_latitude
     = Some (inject_Z 95, inject_Z (-10)).
Proof.
  split; [|vm_compute; reflexivity].
  eexists _, _. split; [vm_compute; reflexivity|].
  apply (X23_widget_coordinate "30.5 97.7" (Sample.widget 3)).
  vm_compute. reflexivity.
Defined.

(** ** The label made up for a record ([gc._locate.getFeature]) *)

Lemma replace_first_absent (p rep l : list ascii) :
  JS.contains_chars p l = false -> JS.replace_first p rep l = l.
Proof.
  induction l as [|c l IH]; cbn [JS.contains_chars JS.replace_first];
    intros H; apply orb_false_iff in H as [H1 H2]; rewrite H1.
  - reflexivity.
  - rewrite (IH H2). reflexivity.
Qed.

Lemma starts_with_empty_parens (l : list ascii) :
  JS.starts_with (JS.chars " ( )") (l ++ JS.chars " ()")%list = true ->
  JS.starts_with (JS.chars " ( )") l = true.
Proof.
  destruct l as [|a [|b [|c [|d r]]]]; cbn; try discriminate;
    repeat match goal with
           | |- context [Ascii.eqb ?x ?y] => destruct (Ascii.eqb x y)
           end; cbn; auto.
Qed.

Lemma contains_empty_parens (l : list ascii) :
  JS.contains_chars (JS.chars " ( )") l = false ->
  JS.contains_chars (JS.chars " ( )") (l ++ JS.chars " ()")%list = false.
Proof.
  induction l as [|c l IH]; [intros _; vm_compute; reflexivity|].
  intros H. cbn [JS.contains_chars] in H.
  apply orb_false_iff in H as [H1 H2].
  change ((c :: l) ++ JS.chars " ()")%list
    with (c :: (l ++ JS.chars " ()"))%list.
  cbn [JS.contains_chars]. rewrite (IH H2), orb_false_r.
  destruct (JS.starts_with (JS.chars " ( )") (c :: l ++ JS.chars " ()"))
    eqn:E; [|reflexivity].
  apply (starts_with_empty_parens (c :: l)) in E.
  rewrite E in H1. discriminate H1.
Qed.

Lemma getFeature_label (c : Geocoder.control) (i : Geocoder.input)
      (p : Geocoder.record) (f : Geocoder.feature) :
  Geocoder.getFeature c i p = Some f ->
  Geocoder.Label (Geocoder.feature_properties f)
  = if Spec.blank (Geocoder.p_Label p)
    then JS.str
           (JS.replace_first (JS.chars " ( )") []
              (JS.chars
                 (Geocoder.show_undefined (Geocoder.p_Name p) ++ " ("
                  ++ JS.join " " (Geocoder.nonempty (Geocoder.p_County p)
                                  ++ Geocoder.nonempty (Geocoder.p_State p))
                  ++ ")")))
    else JS.trim (default "" (Geocoder.p_Label p)).
Proof.
  getFeature_normal p.
  match goal with
  | |- (if ?b then _ else _) = _ -> _ => destruct b
  end; [|discriminate].
  intros H. apply (inj Some) in H. rewrite <- H. reflexivity.
Qed.

(** X24: the label made up for a record without a label, a county and a
    state is the name as delivered followed by [" ()"]: the replacement
    of [" ( )"] that [getFeature] applies does not remove the empty pair
    of parentheses. *)
Theorem X24_label_without_county_and_state (c : Geocoder.control)
        (i : Geocoder.input) (p : Geocoder.record) (f : Geocoder.feature)
        (name : string) :
  Geocoder.getFeature c i p = Some f ->
  Spec.blank (Geocoder.p_Label p) = true ->
  Geocoder.p_Name p = Some name ->
  Geocoder.nonempty (Geocoder.p_County p) = [] ->
  Geocoder.nonempty (Geocoder.p_State p) = [] ->
  JS.str_includes name " ( )" = false ->
  Geocoder.Label (Geocoder.feature_properties f) = name ++ " ()".
Proof.
  intros H Hl Hn Hc Hs Hi.
  rewrite (getFeature_label c i p f H), Hl, Hn, Hc, Hs.
  cbn [app JS.join Geocoder.show_undefined].
  change (name ++ " (" ++ "" ++ ")") with (name ++ " ()").
  rewrite chars_app, replace_first_absent.
  - rewrite <- chars_app. apply str_chars.
  - apply contains_empty_parens. exact Hi.
Qed.

(** X24 at work: a summit without county and state. *)
Lemma X24_summit_label :
  exists f,
    Geocoder.getFeature Sample.plain (Sample.austin_query Sample.plain)
      Sample.summit = Some f
    /\ Geocoder.Label (Geocoder.feature_properties f) = "Mount Elbert" ++ " ()".
Proof.
  eexists. split; [vm_compute; reflexivity|].
  apply (X24_label_without_county_and_state Sample.plain
           (Sample.austin_query Sample.plain) Sample.summit);
    vm_compute; reflexivity.
Defined.

(** ** The older widget: an answer is asked for once *)

Section Asked.

Variable show_number : Q -> string.

(** X25: when a key stroke of the older widget leads to a request and the
    service answers it, the answer is stored under the key of the request,
    and the same text then leads to no request: the menu is updated with
    the stored answer. *)
Theorem X25_widget_answer_reused (which : nat) (text : string)
        (o : SearchApi.opts) (cache : gmap string (list SearchApi.item))
        (term states key : string) (data : list SearchApi.item) :
  SearchApi.keyup show_number which text o cache
  = SearchApi.requested term states key ->
  SearchApi.keyup show_number which text o (SearchApi.success key data cache)
  = SearchApi.updated term data.
Proof.
  unfold SearchApi.keyup, SearchApi.success.
  destruct (existsb _ _); [discriminate|].
  destruct (JS.lt _ _); [discriminate|].
  destruct (SearchApi._getSearchTermStates text o) as [t s].
  destruct (SearchApi.lat_lon_of t o) as [[lat lon]|]; [discriminate|].
  destruct (cache !! (t ++ "|" ++ s)) as [d|]; [discriminate|].
  destruct (SearchApi.no_results_before _ _ _ _ _); [discriminate|].
  intros H. injection H as <- <- <-.
  rewrite lookup_insert_eq. reflexivity.
Qed.

End Asked.

(** X25 at work: ["austin"], asked for and answered. *)
Lemma X25_austin_asked_once :
  Sample.keyup 78 "austin" (Sample.widget 3) ∅
  = SearchApi.requested "AUSTIN" "ALL" "AUSTIN|ALL"
  /\ Sample.keyup 78 "austin" (Sample.widget 3)
       (SearchApi.success "AUSTIN|ALL" [Sample.austin_item] ∅)
     = SearchApi.updated "AUSTIN" [Sample.austin_item].
Proof.
  split; [vm_compute; reflexivity|].
  apply (X25_widget_answer_reused Sample.show_number 78 "austin"
           (Sample.widget 3) ∅ "AUSTIN" "ALL" "AUSTIN|ALL").
  vm_compute. reflexivity.
Defined.

(** ** A request that is out while the text gets too short *)

Section Pending.

Variable innerHTML_length : Geocoder.value -> string -> list Geocoder.feature -> nat.
Variable sort : list Geocoder.feature -> list Geocoder.feature.

Local Abbreviation _updateMenu := (Geocoder._updateMenu innerHTML_length).
Local Abbreviation endLocate := (Geocoder.endLocate innerHTML_length).
Local Abbreviation _locate := (Geocoder._locate innerHTML_length).
Local Abbreviation primary_settled := (Geocoder.primary_settled innerHTML_length).
Local Abbreviation handle := (Geocoder.handle innerHTML_length sort).

Lemma updateMenu_opens (t : string) (c : Geocoder.control) :
  t <> "" -> Geocoder._suggestions c <> [] ->
  Geocoder.visible c = true -> Geocoder.enable c = true ->
  Geocoder.menu_open (Geocoder._element (_updateMenu (Some t) c)) = true.
Proof.
  intros Ht Hs Hv He. unfold Geocoder._updateMenu.
  simpl default. apply String.eqb_neq in Ht. rewrite Ht, Hv, He.
  destruct (Geocoder._suggestions c) eqn:E; [contradiction|].
  cbn [List.length Nat.eqb orb negb].
  destruct (bool_decide _); [reflexivity|].
  unfold Geocoder.trigger. destruct (Geocoder.is_function _); reflexivity.
Qed.

(** X26: a text that gets too short does not abort the request that is
    out.  [_locate] on the short text closes the menu and asks nothing,
    but the controller of the cycle has not aborted; so the answer to the
    earlier text is still stored under its key and, when it holds a valid
    record, opens the menu again with the suggestions for the earlier
    text. *)
Theorem X26_short_text_keeps_request (c : Geocoder.control)
        (cyc : Geocoder.cycle) (short : string) :
  (_locate c).2 = Some cyc ->
  JS.lt (JS.of_Z (Z.of_nat (String.length (JS.trim short))))
        (Geocoder.option_number c "minCharacters") = true ->
  Geocoder.aborted (Geocoder.cycle_controller cyc)
    (handle (Geocoder.ev_input short) (_locate c).1) = false
  /\ Geocoder.menu_open
       (Geocoder._element (handle (Geocoder.ev_input short) (_locate c).1))
     = false
  /\ (forall json,
        json <> [] ->
        Geocoder._cache
          (primary_settled cyc (Geocoder.primary_array json)
             (handle (Geocoder.ev_input short) (_locate c).1)).1
        !! Geocoder.cacheKey (Geocoder.parseInput c)
        = Some (omap (Geocoder.getFeature
                        (handle (Geocoder.ev_input short) (_locate c).1)
                        (Geocoder.parseInput c)) json)
        /\ (omap (Geocoder.getFeature
                    (handle (Geocoder.ev_input short) (_locate c).1)
                    (Geocoder.parseInput c)) json <> [] ->
            Geocoder.visible c = true -> Geocoder.enable c = true ->
            Geocoder.term (Geocoder.parseInput c) <> "" ->
            Geocoder.menu_open
              (Geocoder._element
                 (primary_settled cyc (Geocoder.primary_array json)
                    (handle (Geocoder.ev_input short) (_locate c).1)).1)
            = true)).
Proof.
  intros Hc Hshort.
  destruct (locate_started innerHTML_length c cyc Hc)
    as (_ & _ & _ & Hi & Ha).
  destruct (locate_frame innerHTML_length c) as (Ho & _ & (Hh & Hd & _) & _).
  set (c1 := (_locate c).1) in *.
  set (c1' := Geocoder.set_element
                (Geocoder.set_input_value short (Geocoder._element c1)) c1).
  assert (E : handle (Geocoder.ev_input short) c1 = _updateMenu None c1').
  { cbn [Geocoder.handle]. fold c1'. unfold Geocoder._locate.
    assert (G : JS.lt (JS.of_Z (Z.of_nat (String.length
                                            (JS.trim (Geocoder.get_value c1')))))
                      (Geocoder.option_number c1' "minCharacters") = true).
    { unfold Geocoder.option_number, Geocoder.option_value in *.
      change (Geocoder.options c1') with (Geocoder.options c1).
      rewrite Ho. exact Hshort. }
    rewrite G. reflexivity. }
  rewrite E. set (c2 := _updateMenu None c1').
  destruct (updateMenu_frame innerHTML_length None c1')
    as (_ & _ & Hk & (Hh2 & Hd2 & _)).
  assert (Ha2 : Geocoder.aborted (Geocoder.cycle_controller cyc) c2 = false).
  { unfold Geocoder.aborted. fold c2 in Hk. rewrite Hk. exact Ha. }
  split; [exact Ha2|].
  split; [apply (updateMenu_closes innerHTML_length)|].
  intros [|p json] Hj; [contradiction|].
  unfold Geocoder.primary_settled. rewrite Hi. cbn [fst].
  set (features := omap (Geocoder.getFeature c2 (Geocoder.parseInput c))
                        (p :: json)).
  split.
  - rewrite (endLocate_cache innerHTML_length cyc true
               (Geocoder.set_suggestions features c2) Ha2).
    rewrite Hi. apply lookup_insert_eq.
  - intros Hf Hv He Ht.
    assert (V2 : Geocoder.visible c2 = true).
    { unfold Geocoder.visible in *. fold c2 in Hh2. rewrite Hh2.
      change (Geocoder.hidden (Geocoder._element c1'))
        with (Geocoder.hidden (Geocoder._element c1)).
      rewrite Hh. exact Hv. }
    assert (E2 : Geocoder.enable c2 = true).
    { unfold Geocoder.enable in *. fold c2 in Hd2. rewrite Hd2.
      change (Geocoder.input_disabled (Geocoder._element c1'))
        with (Geocoder.input_disabled (Geocoder._element c1)).
      rewrite Hd. exact He. }
    unfold Geocoder.endLocate. rewrite aborted_set_element.
    change (Geocoder.aborted (Geocoder.cycle_controller cyc)
              (Geocoder.set_suggestions features c2))
      with (Geocoder.aborted (Geocoder.cycle_controller cyc) c2).
    rewrite Ha2, Hi. apply updateMenu_opens.
    + exact Ht.
    + exact Hf.
    + exact V2.
    + exact E2.
Qed.

End Pending.

(** X26 at work: ["austin"] is typed and asked for, the text is cut to
    ["a"], and the answer for Austin arrives. *)
Lemma X26_austin_cut_short :
  Geocoder.aborted
    (Geocoder.cycle_controller (Sample.cycle_of "austin" Sample.plain 1))
    (Geocoder.handle Sample.innerHTML_length Sample.sort
       (Geocoder.ev_input "a")
       (Geocoder._locate Sample.innerHTML_length
          (Sample.typed "austin" Sample.plain)).1) = false
  /\ Geocoder.menu_open
       (Geocoder._element
          (Geocoder.handle Sample.innerHTML_length Sample.sort
             (Geocoder.ev_input "a")
             (Geocoder._locate Sample.innerHTML_length
                (Sample.typed "austin" Sample.plain)).1)) = false
  /\ Geocoder.menu_open
       (Geocoder._element
          (Geocoder.primary_settled Sample.innerHTML_length
             (Sample.cycle_of "austin" Sample.plain 1)
             (Geocoder.primary_array [Sample.austin])
             (Geocoder.handle Sample.innerHTML_length Sample.sort
                (Geocoder.ev_input "a")
                (Geocoder._locate Sample.innerHTML_length
                   (Sample.typed "austin" Sample.plain)).1)).1) = true.
Proof.
  assert (E1 : (Geocoder._locate Sample.innerHTML_length
                  (Sample.typed "austin" Sample.plain)).2
               = Some (Sample.cycle_of "austin" Sample.plain 1))
    by (vm_compute; reflexivity).
  assert (E2 : JS.lt (JS.of_Z (Z.of_nat (String.length (JS.trim "a"))))
                     (Geocoder.option_number
                        (Sample.typed "austin" Sample.plain) "minCharacters")
               = true)
    by (vm_compute; reflexivity).
  destruct (X26_short_text_keeps_request Sample.innerHTML_length Sample.sort
              (Sample.typed "austin" Sample.plain)
              (Sample.cycle_of "austin" Sample.plain 1) "a" E1 E2)
    as (A & B & C).
  split; [exact A|]. split; [exact B|].
  destruct (C [Sample.austin] ltac:(discriminate)) as [_ D].
  apply D; vm_compute; first [reflexivity | discriminate].
Defined.

(** X7 at work: after two queries in a row the first two controllers have
    aborted and the third is live. *)
Lemma X7_two_queries :
  Geocoder.controllers
    (Geocoder.run Sample.innerHTML_length Sample.sort Sample.two_queries
       Geocoder._create) = [true; true; false]
  /\ Inv.one_live
       (Geocoder.run Sample.innerHTML_length Sample.sort Sample.two_queries
          Geocoder._create).
Proof.
  split; [vm_compute; reflexivity|].
  apply (proj1 (X7_one_live_cycle Sample.innerHTML_length Sample.sort)).
Defined.

(** X10 at work: the request for ["austin"] is replaced by the one for
    ["dallas"]; when the first request fails, the busy mark is cleared
    although the second request is still out. *)
Lemma X10_superseded_answer :
  Geocoder.busy (Geocoder._element Sample.superseded) = true
  /\ Geocoder.aborted 2 Sample.superseded = false
  /\ Geocoder.busy
       (Geocoder._element
          (Geocoder.primary_settled Sample.innerHTML_length
             (Sample.cycle_of "austin" Sample.plain 1)
             Geocoder.primary_rejected Sample.superseded).1) = false.
Proof.
  split; [vm_compute; reflexivity|]. split; [vm_compute; reflexivity|].
  destruct (proj2 (X10_busy_cleared Sample.innerHTML_length Sample.sort
                     (Sample.cycle_of "austin" Sample.plain 1)
                     Geocoder.primary_rejected Geocoder.secondary_rejected
                     Sample.superseded)) as [[_ H]|H].
  - exact H.
  - vm_compute in H. discriminate H.
Defined.
